(** * lapis-tokens: the token-detail fetcher [get.py]

    A shallow embedding of [get.py] and the properties of its address
    resolution, its per-address loop, its output handling and its exit codes.

    Python strings are modelled as [string]; a character is a code point
    below 256.  The process environment is a [gmap string string], the file
    system a [gmap Path node], the [results] dict an insertion-ordered
    association list.  The HTTP server, the document store and the wall clock
    are oracles gathered in the record [World]; console output, requests,
    inserts and sleeps are appended to a trace. *)

From Stdlib Require Import Ascii String Floats.PrimFloat.
From Stdlib Require Floats.FloatAxioms Floats.SpecFloat.
From stdpp Require Import base gmap strings list pretty.

Local Open Scope string_scope.
Local Open Scope list_scope.
Local Open Scope nat_scope.
Local Open Scope stdpp_scope.

(** ** Text primitives of the Python standard library *)

Module Py.

(** [str.isspace] on the code points below 256. *)
Definition isspace (c : ascii) : bool :=
  let n := nat_of_ascii c in
  (((9 <=? n) && (n <=? 13)) || ((28 <=? n) && (n <=? 32))
   || (n =? 133) || (n =? 160))%nat.

Definition is_newline (c : ascii) : bool := Ascii.eqb c "010"%char.

(** Truthiness of a [str]: the empty string is falsy. *)
Definition truthy (s : string) : bool :=
  match s with "" => false | _ => true end.

Fixpoint lstrip_by (p : ascii → bool) (s : string) : string :=
  match s with
  | "" => ""
  | String c s' => if p c then lstrip_by p s' else s
  end.

Definition rstrip_by (p : ascii → bool) (s : string) : string :=
  String.rev (lstrip_by p (String.rev s)).

Definition strip_by (p : ascii → bool) (s : string) : string :=
  rstrip_by p (lstrip_by p s).

(** [s.strip()] *)
Definition strip (s : string) : string := strip_by isspace s.

(** [s.strip(c)] for a one-character argument. *)
Definition strip_char (c : ascii) (s : string) : string :=
  strip_by (Ascii.eqb c) s.

(** [s.split(c)]: one piece between any two separators, empty pieces kept. *)
Fixpoint split_on (sep : ascii → bool) (s : string) : list string :=
  match s with
  | "" => [""]
  | String c s' =>
      let r := split_on sep s' in
      if sep c then "" :: r
      else match r with
           | p :: ps => String c p :: ps
           | [] => [String c ""]
           end
  end.

(** [re.split] on a character class with [+]: a run of separators splits
    once. *)
Fixpoint split_runs (sep : ascii → bool) (s : string) : list string :=
  match s with
  | "" => [""]
  | String c s' =>
      let r := split_runs sep s' in
      if sep c then
        match s' with
        | String c' _ => if sep c' then r else "" :: r
        | "" => "" :: r
        end
      else match r with
           | p :: ps => String c p :: ps
           | [] => [String c ""]
           end
  end.

Fixpoint take_while (p : ascii → bool) (s : string) : string :=
  match s with
  | "" => ""
  | String c s' => if p c then String c (take_while p s') else ""
  end.

Fixpoint drop_while (p : ascii → bool) (s : string) : string :=
  match s with
  | "" => ""
  | String c s' => if p c then drop_while p s' else s
  end.

Fixpoint last_char (s : string) : option ascii :=
  match s with
  | "" => None
  | String c "" => Some c
  | String _ s' => last_char s'
  end.

(** [s.endswith((a, b))] for one-character suffixes. *)
Definition endswith_any (cs : list ascii) (s : string) : bool :=
  match last_char s with
  | Some c => bool_decide (c ∈ cs)
  | None => false
  end.

(** ASCII case folding, which is all [re.IGNORECASE] does below 256. *)
Definition upper (c : ascii) : ascii :=
  let n := nat_of_ascii c in
  if ((97 <=? n) && (n <=? 122))%nat then ascii_of_nat (n - 32) else c.

Definition eqb_nocase (a b : ascii) : bool := Ascii.eqb (upper a) (upper b).

(** [max(a, b)] on floats: [a] unless [b > a]. *)
Definition max (a b : float) : float := if PrimFloat.ltb a b then b else a.

End Py.

(** ** The regular expressions of [extract_addresses_from_env_file] *)

Module Re.

(** Strip [key] from the front of [text], ignoring case. *)
Fixpoint match_literal (key text : string) : option string :=
  match key, text with
  | "", _ => Some text
  | String k key', String c text' =>
      if Py.eqb_nocase k c then match_literal key' text' else None
  | String _ _, "" => None
  end.

(** The last character of [s] that is not a newline. *)
Fixpoint last_non_newline (s : string) : option ascii :=
  match s with
  | "" => None
  | String c s' =>
      match last_non_newline s' with
      | Some d => Some d
      | None => if Py.is_newline c then None else Some c
      end
  end.

(** [\s*(.+)$] under [re.MULTILINE], at the start of [text]: the group.
    The whitespace star is greedy and crosses line ends.  When something
    other than whitespace follows it, the group is the rest of that line.
    When the whitespace runs to the end of the text, the star backs off to
    the last whitespace character that is not a newline, and that character
    is the group. *)
Definition match_value (text : string) : option string :=
  match Py.drop_while Py.isspace text with
  | "" =>
      match last_non_newline (Py.take_while Py.isspace text) with
      | Some c => Some (String c "")
      | None => None
      end
  | rest => Some (Py.take_while (λ c, negb (Py.is_newline c)) rest)
  end.

(** [{key}\s*=\s*(.+)$] at the start of [text]. *)
Definition match_assignment (key text : string) : option string :=
  match match_literal key text with
  | Some after_key =>
      match Py.drop_while Py.isspace after_key with
      | String "="%char after_eq => match_value after_eq
      | _ => None
      end
  | None => None
  end.

(** [re.search] for [^{key}\s*=\s*(.+)$] under [re.MULTILINE] and
    [re.IGNORECASE]: the group of the leftmost match.  [bol] says that the current position
    is the start of the text or follows a newline. *)
Fixpoint search_assignment_from (bol : bool) (key text : string)
    : option string :=
  match text with
  | "" => None
  | String c text' =>
      match (if bol then match_assignment key text else None) with
      | Some g => Some g
      | None => search_assignment_from (Py.is_newline c) key text'
      end
  end.

Definition search_assignment (key text : string) : option string :=
  search_assignment_from true key text.

Definition is_quote (c : ascii) : bool :=
  Ascii.eqb c "'"%char || Ascii.eqb c "034"%char.

Definition is_dquote (c : ascii) : bool := Ascii.eqb c "034"%char.

(** The [re.sub] of the source, which deletes a quote character (single
    or double) at the very start and one at the very end of a value that
    has no trailing newline; a one-character value is matched once, by the
    first alternative. *)
Definition strip_one_quote (val : string) : string :=
  match val with
  | "" => ""
  | String c rest =>
      let tail :=
        match Py.last_char rest with
        | Some d =>
            if is_quote d
            then String.rev (match String.rev rest with
                             | String _ r => r
                             | "" => ""
                             end)
            else rest
        | None => rest
        end in
      if is_quote c then tail else String c tail
  end.

(** The fallback [re.search] under [re.DOTALL]: a double quote, a group
    of at least 50 characters none of which is a double quote, a double
    quote.  The group of the leftmost match. *)
Fixpoint search_long_quoted (text : string) : option string :=
  match text with
  | "" => None
  | String c text' =>
      let run := Py.take_while (λ d, negb (is_dquote d)) text' in
      if is_dquote c
         && (50 <=? String.length run)%nat
         && Py.truthy (Py.drop_while (λ d, negb (is_dquote d)) text')
      then Some run
      else search_long_quoted text'
  end.

End Re.

(** ** Address resolution *)

Definition DEFAULT_ADDRESS : string :=
  "FUAfBo2jgks6gB4Z4LfZkqSZgzNucisEHqnNebaRxM1P".

Definition BASE_URL : string := "https://api.mobula.io/api/2/token/details".

Definition ADDRESS_KEYS : list string := ["ADDRESSES"; "TOKENS"; "TOKENS_LIST"].

Definition is_comma (c : ascii) : bool := Ascii.eqb c ","%char.

Definition is_comma_or_newline (c : ascii) : bool :=
  is_comma c || Py.is_newline c.

(** [[p.strip() for p in pieces if p.strip()]] *)
Definition stripped_parts (pieces : list string) : list string :=
  filter (λ p, Py.truthy p = true) (Py.strip <$> pieces).

(** The body of the [for key in ...] loop of
    [extract_addresses_from_env_file]: the first key with a match returns,
    even when its value splits into nothing. *)
Fixpoint extract_by_key (keys : list string) (text : string)
    : option (list string) :=
  match keys with
  | [] => None
  | key :: keys' =>
      match Re.search_assignment key text with
      | Some g =>
          let val := Py.strip g in
          let val := Re.strip_one_quote val in
          Some (stripped_parts (Py.split_runs is_comma_or_newline val))
      | None => extract_by_key keys' text
      end
  end.

Definition extract_addresses_from_env_file (text : string) : list string :=
  match extract_by_key ADDRESS_KEYS text with
  | Some parts => parts
  | None =>
      match Re.search_long_quoted text with
      | Some raw => stripped_parts (Py.split_on is_comma raw)
      | None => []
      end
  end.

(** What one environment variable yields in [load_addresses]: the parts of
    its value, nothing when it is unset or empty. *)
Definition env_parts (v : option string) : list string :=
  match v with
  | Some v =>
      if Py.truthy v then
        let v := Py.strip_char "'"%char (Py.strip_char "034"%char (Py.strip v)) in
        stripped_parts (Py.split_runs is_comma_or_newline v)
      else []
  | None => []
  end.

(** The [for key in ...] loop of [load_addresses]: the first key whose parts
    are not empty returns. *)
Fixpoint load_from_env (getenv : string → option string) (keys : list string)
    : option (list string) :=
  match keys with
  | [] => None
  | key :: keys' =>
      match env_parts (getenv key) with
      | [] => load_from_env getenv keys'
      | parts => Some parts
      end
  end.

(** [env] is [os.environ] after [load_dotenv]; [dotenv] is the text of the
    [.env] file beside the script, [None] when there is no such file. *)
Definition load_addresses (env : gmap string string) (dotenv : option string)
    : list string :=
  match load_from_env (λ key, env !! key) ADDRESS_KEYS with
  | Some parts => parts
  | None =>
      match dotenv with
      | Some text =>
          match extract_addresses_from_env_file text with
          | [] => [DEFAULT_ADDRESS]
          | parts => parts
          end
      | None => [DEFAULT_ADDRESS]
      end
  end.

(** The first statements of [main]: the [--address] override, else
    [load_addresses]. *)
Definition resolve_addresses (address : option string)
    (env : gmap string string) (dotenv : option string) : list string :=
  match address with
  | Some a => if Py.truthy a then [a] else load_addresses env dotenv
  | None => load_addresses env dotenv
  end.

(** [[a for a in (addr.strip() for addr in addresses) if a]] *)
Definition clean_addresses (addresses : list string) : list string :=
  stripped_parts addresses.

(** ** Paths and the file system ([pathlib]) *)

Module Pathlib.

(** A pure POSIX path is the list of its parts; an absolute path starts with
    its root, [/] or [//].  The empty list is [Path(".")]. *)
Abbreviation Path := (list string).

Definition is_slash (c : ascii) : bool := Ascii.eqb c "/"%char.

Definition root_of (s : string) : list string :=
  match s with
  | String "/" (String "/" (String "/" _)) => ["/"]
  | String "/" (String "/" _) => ["//"]
  | String "/" _ => ["/"]
  | _ => []
  end.

Definition is_root (part : string) : bool :=
  String.eqb part "/" || String.eqb part "//".

(** [Path(s)]: empty and [.] components are dropped, [..] is kept. *)
Definition of_string (s : string) : Path :=
  root_of s ++ filter (λ c, c ≠ "" ∧ c ≠ ".") (Py.split_on is_slash s).

(** [p / s]: an absolute right operand replaces [p]. *)
Definition joinpath (p : Path) (s : string) : Path :=
  match root_of s with
  | [] => p ++ of_string s
  | _ => of_string s
  end.

(** [p.parent]: a root and [Path(".")] are their own parents. *)
Definition parent (p : Path) : Path :=
  match p with
  | [r] => if is_root r then p else []
  | _ => removelast p
  end.

(** [p.name]: the last part, unless it is the root. *)
Definition name (p : Path) : string :=
  match last p with
  | Some c => if is_root c then "" else c
  | None => ""
  end.

(** [s.rfind(c)], [None] for -1. *)
Fixpoint rfind (c : ascii) (s : string) : option nat :=
  match s with
  | "" => None
  | String d s' =>
      match rfind c s' with
      | Some i => Some (S i)
      | None => if Ascii.eqb c d then Some 0 else None
      end
  end.

(** [p.suffix]: from the last dot of the name, when that dot is neither the
    first nor the last character of the name. *)
Definition suffix (p : Path) : string :=
  let name := name p in
  match rfind "."%char name with
  | Some i =>
      if ((0 <? i) && (i <? String.length name - 1))%nat
      then String.substring i (String.length name - i) name
      else ""
  | None => ""
  end.

Fixpoint join_parts (parts : list string) : string :=
  match parts with
  | [] => ""
  | [c] => c
  | c :: rest => c +:+ "/" +:+ join_parts rest
  end.

(** [str(p)] *)
Definition to_string (p : Path) : string :=
  match p with
  | [] => "."
  | r :: rest => if is_root r then r +:+ join_parts rest else join_parts p
  end.

Inductive node : Type :=
  | Dir
  | File (content : string).

(** What the file system holds at [p].  The working directory and the roots
    always exist; other paths are looked up as they are written: a part
    [..] is a name like any other and no link is followed.  So a node stands
    for the file that the operating system reaches when the path has no
    [..]; what is said below of the nodes that an operation leaves alone is
    said of such paths, taken from the same starting point (see
    [comparable]). *)
Definition node_at (fs : gmap Path node) (p : Path) : option node :=
  match p with
  | [] => Some Dir
  | [r] => if is_root r then Some Dir else fs !! p
  | _ => fs !! p
  end.

(** [p.exists()] *)
Definition exists_ (fs : gmap Path node) (p : Path) : bool :=
  match node_at fs p with Some _ => true | None => false end.

(** [p.is_dir()] *)
Definition is_dir (fs : gmap Path node) (p : Path) : bool :=
  match node_at fs p with Some Dir => true | _ => false end.

(** [p.mkdir(parents=True, exist_ok=True)], walking down from the top: an
    existing directory is passed, a missing one is created, anything else in
    the way is an error ([FileExistsError] or [NotADirectoryError], both
    [OSError]). *)
Fixpoint mkdir_from (fs : gmap Path node) (prefix : Path) (rest : list string)
    : string + gmap Path node :=
  match rest with
  | [] => inr fs
  | c :: rest' =>
      let q := prefix ++ [c] in
      match node_at fs q with
      | Some Dir => mkdir_from fs q rest'
      | Some (File _) => inl ("File exists: " +:+ to_string q)
      | None => mkdir_from (<[q := Dir]> fs) q rest'
      end
  end.

Definition mkdir_parents (fs : gmap Path node) (p : Path)
    : string + gmap Path node :=
  mkdir_from fs [] p.

(** [p.write_text(content)]: opening a directory for writing fails
    ([IsADirectoryError]), and so does a file whose parent is no directory. *)
Definition write_text (fs : gmap Path node) (p : Path) (content : string)
    : string + gmap Path node :=
  match node_at fs p with
  | Some Dir => inl ("Is a directory: " +:+ to_string p)
  | _ =>
      if is_dir fs (parent p) then inr (<[p := File content]> fs)
      else inl ("No such file or directory: " +:+ to_string p)
  end.

End Pathlib.

Abbreviation Path := Pathlib.Path.

(** ** Values, exceptions and the outside world *)

(** A decoded JSON document, object members in their order. *)
#[warnings="-register-all"]
Inductive Json : Type :=
  | JNull
  | JBool (b : bool)
  | JInt (n : Z)
  | JFloat (x : float)
  | JStr (s : string)
  | JArr (items : list Json)
  | JObj (members : list (string * Json)).

(** The fields of [requests.Response] that the program reads. *)
Record Response : Type := mkResponse {
  status_code : Z;
  reason : string;
  url : string;
  text : string;
}.

(** The exception classes that matter to the handlers of [main].
    [RequestException] stands for every subclass of
    [requests.RequestException] other than [HTTPError]: connection, timeout
    and DNS failures, and the JSON decoding error of [Response.json].
    [BSONError] stands for what the encoding of a document raises, which is
    no [PyMongoError]. *)
Inductive exn : Type :=
  | HTTPError (msg : string) (response : option Response)
  | RequestException (msg : string)
  | PyMongoError (msg : string)
  | BSONError (msg : string)
  | OSError (msg : string)
  | ValueError (msg : string)
  | OverflowError (msg : string)
  | SystemExit (code : Z).

(** How [insert_one] can fail: in the driver or the server (a
    [PyMongoError]), or while the document is encoded. *)
Inductive insert_failure : Type :=
  | MongoFailure (msg : string)
  | EncodingFailure (msg : string).

Definition insert_exn (f : insert_failure) : exn :=
  match f with
  | MongoFailure msg => PyMongoError msg
  | EncodingFailure msg => BSONError msg
  end.

(** [str(e)] *)
Definition exn_str (e : exn) : string :=
  match e with
  | HTTPError msg _ | RequestException msg | PyMongoError msg | BSONError msg
  | OSError msg | ValueError msg | OverflowError msg => msg
  | SystemExit code => pretty code
  end.

(** The document built by [store_to_mongo]. *)
Record Document : Type := mkDocument {
  address : string;
  fetched_at : Z;
  data : Json;
}.

(** The value stored under an address in [results]. *)
Inductive ResultRecord : Type :=
  | RecOk
  | RecMongoError (mongo_error : string)
  | RecHTTPError (error : string) (status : option Z)
  | RecRequestError (error : string).

(** What the process does to the outside, in order. *)
Inductive event : Type :=
  | Stdout (line : string)
  | Stderr (line : string)
  | HttpGet (url : string) (params headers : list (string * string))
      (timeout : Z)
  | InsertOne (db coll : string) (doc : Document)
  | Sleep (secs : float).

(** The parsed command line. *)
Record Args : Type := mkArgs {
  args_address : option string;
  args_out : option string;
  args_delay : float;
}.

(** Everything the run does not decide itself.  The answers of the HTTP
    server and of the document store are indexed by the iteration of the
    loop of [main] that asks. *)
Record World : Type := mkWorld {
  (** [os.environ] once [load_dotenv] has run *)
  environ : gmap string string;
  (** the text of the [.env] file beside the script, if there is one *)
  dotenv_file : option string;
  (** [requests.get]: the message of a transport failure, or the response *)
  http_get : nat → string → string + Response;
  (** [Response.json] on a body: the decoding error, or the value *)
  json_loads : string → string + Json;
  (** [json.dumps(value, indent=2)] *)
  json_dumps : Json → string;
  (** [pymongo.MongoClient(...)] and the [ping] command: the message of
      the [PyMongoError], if one is raised *)
  mongo_client : option string;
  mongo_ping : option string;
  (** [client[name]] and [db[name]]: the message of the [InvalidName], a
      [PyMongoError], with which the driver refuses the name, if it does *)
  mongo_database : string → option string;
  mongo_collection : string → option string;
  (** [coll.insert_one(doc)]: the failure, if there is one *)
  insert_one : nat → Document → option insert_failure;
  (** the successive readings of the wall clock, in microseconds *)
  clock : nat → Z;
}.

(** ** The [results] dict *)

(** A Python dict keeps its keys in insertion order; assigning to a key that
    is present replaces the value where it stands. *)
Fixpoint dict_set {V : Type} (k : string) (v : V) (d : list (string * V))
    : list (string * V) :=
  match d with
  | [] => [(k, v)]
  | (k', v') :: d' =>
      if decide (k = k') then (k, v) :: d' else (k', v') :: dict_set k v d'
  end.

Fixpoint dict_get {V : Type} (k : string) (d : list (string * V)) : option V :=
  match d with
  | [] => None
  | (k', v') :: d' => if decide (k = k') then Some v' else dict_get k d'
  end.

Definition dict_keys {V : Type} (d : list (string * V)) : list string := d.*1.

(** The JSON value of a [ResultRecord], members in the order of the source. *)
Definition record_json (r : ResultRecord) : Json :=
  match r with
  | RecOk => JObj [("ok", JBool true)]
  | RecMongoError me => JObj [("ok", JBool false); ("mongo_error", JStr me)]
  | RecHTTPError e sc =>
      JObj [("error", JStr e);
            ("status_code", match sc with Some c => JInt c | None => JNull end)]
  | RecRequestError e => JObj [("error", JStr e)]
  end.

Definition results_json (results : list (string * ResultRecord)) : Json :=
  JObj (prod_map id record_json <$> results).

(** ** The state of a run and its monad *)

Record state : Type := mkState {
  results : list (string * ResultRecord);
  files : gmap Path Pathlib.node;
  clock_reads : nat;
  trace : list event;
}.

Definition set_results (r : list (string * ResultRecord)) (s : state) : state :=
  mkState r (files s) (clock_reads s) (trace s).

Definition set_files (fs : gmap Path Pathlib.node) (s : state) : state :=
  mkState (results s) fs (clock_reads s) (trace s).

Definition add_event (ev : event) (s : state) : state :=
  mkState (results s) (files s) (clock_reads s) (trace s ++ [ev]).

(** A computation either returns or raises, and leaves a state either way. *)
Definition M (A : Type) : Type := state → (exn + A) * state.

Definition ret {A : Type} (a : A) : M A := λ s, (inr a, s).

Definition bind {A B : Type} (m : M A) (k : A → M B) : M B :=
  λ s, match m s with
       | (inr a, s') => k a s'
       | (inl e, s') => (inl e, s')
       end.

Definition raise {A : Type} (e : exn) : M A := λ s, (inl e, s).

(** [try: m  except ...]: [handler] gives the body of the clause that
    matches the exception, [None] when no clause does. *)
Definition try_except {A : Type} (m : M A) (handler : exn → option (M A))
    : M A :=
  λ s, match m s with
       | (inl e, s') =>
           match handler e with
           | Some h => h s'
           | None => (inl e, s')
           end
       | r => r
       end.

Notation "'let*' x ':=' m 'in' k" := (bind m (λ x, k))
  (at level 10, x name, m at level 100, k at level 200).
Notation "m >> k" := (bind m (λ _, k))
  (at level 90, right associativity).

Definition emit (ev : event) : M unit := λ s, (inr tt, add_event ev s).

Definition print (line : string) : M unit := emit (Stdout line).
Definition eprint (line : string) : M unit := emit (Stderr line).

Definition sys_exit {A : Type} (code : Z) : M A := raise (SystemExit code).

(** [for i, x in enumerate(xs, start=i): body] *)
Fixpoint for_enumerate (body : nat → string → M unit) (i : nat)
    (xs : list string) : M unit :=
  match xs with
  | [] => ret tt
  | x :: xs' => body i x >> for_enumerate body (S i) xs'
  end.

(** [datetime.now(timezone.utc)] *)
Definition datetime_now (w : World) : M Z :=
  λ s, (inr (clock w (clock_reads s)),
        mkState (results s) (files s) (S (clock_reads s)) (trace s)).

(** [time.sleep] refuses a NaN and a negative length ([ValueError]) and a
    length whose nanoseconds do not fit a signed 64-bit integer
    ([OverflowError]). *)
Definition sleepable (secs : float) : bool :=
  negb (PrimFloat.is_nan secs) && negb (PrimFloat.ltb secs 0)
  && negb (PrimFloat.ltb 9223372036854775808 (secs * 1e9))%float.

Definition time_sleep (secs : float) : M unit :=
  if sleepable secs then emit (Sleep secs)
  else if PrimFloat.is_nan secs || PrimFloat.ltb secs 0
       then raise (ValueError "sleep length must be non-negative")
       else raise (OverflowError "timestamp too large to convert to C _PyTime_t").

(** ** The program *)

Section Program.

Variable w : World.

(** The module-level configuration, read once from the environment. *)
Definition API_KEY : option string := environ w !! "HYPESCORE_API_KEY".
Definition MONGO_URI : option string := environ w !! "MONGO_URI".
Definition MONGO_DB : string := default "mobula" (environ w !! "MONGO_DB").
Definition MONGO_COLLECTION : string :=
  default "Token" (environ w !! "MONGO_COLLECTION").

(** [not v] for a value that is [None] or a string. *)
Definition missing (v : option string) : bool :=
  match v with
  | Some s => negb (Py.truthy s)
  | None => true
  end.

(** [requests.get(url, params=..., headers=..., timeout=...)] in iteration
    [i]; every failure of the transport is a [RequestException]. *)
Definition requests_get (i : nat) (addr url : string)
    (params headers : list (string * string)) (timeout : Z) : M Response :=
  emit (HttpGet url params headers timeout) >>
  match http_get w i addr with
  | inl msg => raise (RequestException msg)
  | inr resp => ret resp
  end.

(** The message that [Response.raise_for_status] builds: empty unless the
    status is a client error (400 to 499) or a server error (500 to 599). *)
Definition http_error_msg (resp : Response) : string :=
  let sc := status_code resp in
  if ((400 <=? sc) && (sc <? 500))%Z then
    pretty sc +:+ " Client Error: " +:+ reason resp +:+ " for url: "
    +:+ url resp
  else if ((500 <=? sc) && (sc <? 600))%Z then
    pretty sc +:+ " Server Error: " +:+ reason resp +:+ " for url: "
    +:+ url resp
  else "".

(** [Response.raise_for_status]: an [HTTPError] carrying the response when
    the message is not empty, nothing otherwise. *)
Definition raise_for_status (resp : Response) : M unit :=
  if Py.truthy (http_error_msg resp)
  then raise (HTTPError (http_error_msg resp) (Some resp))
  else ret tt.

(** [Response.json]: the decoding error is a [RequestException]. *)
Definition response_json (resp : Response) : M Json :=
  match json_loads w (text resp) with
  | inl msg => raise (RequestException msg)
  | inr v => ret v
  end.

Definition get_token_details (i : nat) (address : string) : M Json :=
  let timeout := 10%Z in
  let params := [("blockchain", "solana"); ("address", address)] in
  let headers := [("Authorization", default "" API_KEY)] in
  let* resp := requests_get i address BASE_URL params headers timeout in
  raise_for_status resp >>
  response_json resp.

Definition path_mkdir_parents (p : Path) : M unit :=
  λ s, match Pathlib.mkdir_parents (files s) p with
       | inl msg => (inl (OSError msg), s)
       | inr fs => (inr tt, set_files fs s)
       end.

Definition path_write_text (p : Path) (content : string) : M unit :=
  λ s, match Pathlib.write_text (files s) p content with
       | inl msg => (inl (OSError msg), s)
       | inr fs => (inr tt, set_files fs s)
       end.

Definition save_result (out_path : Path) (data : Json) : M unit :=
  path_mkdir_parents (Pathlib.parent out_path) >>
  path_write_text out_path (json_dumps w data).

(** [coll] is the collection handle, a database name and a collection
    name. *)
Definition store_to_mongo (i : nat) (coll : string * string)
    (address : string) (data : Json) (fetched_at : Z) : M unit :=
  let doc := mkDocument address fetched_at data in
  emit (InsertOne coll.1 coll.2 doc) >>
  match insert_one w i doc with
  | Some f => raise (insert_exn f)
  | None => ret tt
  end.

(** [results[addr] = r] *)
Definition results_set (addr : string) (r : ResultRecord) : M unit :=
  λ s, (inr tt, set_results (dict_set addr r (results s)) s).

(** The value of [is_out_dir] for an output argument that is not empty. *)
Definition is_out_dir (fs : gmap Path Pathlib.node) (out_arg : string) : bool :=
  let out := Pathlib.of_string out_arg in
  let is_out_dir :=
    (Pathlib.exists_ fs out && Pathlib.is_dir fs out)
    || (Py.truthy out_arg && Py.endswith_any ["/"%char; "092"%char] out_arg) in
  if negb is_out_dir && String.eqb (Pathlib.suffix out) "" then true
  else is_out_dir.

(** The [try] block that connects to MongoDB: the collection handle. *)
Definition mongo_connect : M (string * string) :=
  match mongo_client w with
  | Some msg => raise (PyMongoError msg)
  | None =>
      match mongo_ping w with
      | Some msg => raise (PyMongoError msg)
      | None =>
          match mongo_database w MONGO_DB with
          | Some msg => raise (PyMongoError msg)
          | None =>
              match mongo_collection w MONGO_COLLECTION with
              | Some msg => raise (PyMongoError msg)
              | None => ret (MONGO_DB, MONGO_COLLECTION)
              end
          end
      end
  end.

(** The clauses of the [try] around the insert. *)
Definition insert_handler (addr : string) (e : exn) : option (M unit) :=
  match e with
  | PyMongoError me =>
      Some (eprint ("Mongo insert failed for " +:+ addr +:+ ": " +:+ me) >>
            results_set addr (RecMongoError me))
  | _ => None
  end.

(** The clauses of the [try] that is the body of the loop, in their order. *)
Definition fetch_handler (addr : string) (e : exn) : option (M unit) :=
  match e with
  | HTTPError msg response =>
      Some (eprint ("HTTP error for " +:+ addr +:+ ": " +:+ msg +:+ " - "
                    +:+ from_option text "" response) >>
            results_set addr (RecHTTPError msg (status_code <$> response)))
  | RequestException msg =>
      Some (eprint ("Request failed for " +:+ addr +:+ ": " +:+ msg) >>
            results_set addr (RecRequestError msg))
  | _ => None
  end.

(** The statement under [# Save per-address file if requested and out is
    directory]. *)
Definition save_per_address (out : option Path) (out_is_dir : bool)
    (addr : string) (data : Json) : M unit :=
  match out with
  | Some out =>
      if out_is_dir then
        let file_name := addr +:+ ".json" in
        save_result (Pathlib.joinpath out file_name) data
      else ret tt
  | None => ret tt
  end.

(** The first line that an iteration prints. *)
Definition querying (i n : nat) (addr : string) : string :=
  "[" +:+ pretty i +:+ "/" +:+ pretty n +:+ "] Querying " +:+ addr +:+ " ...".

(** One iteration of the loop of [main]. *)
Definition loop_body (args : Args) (out : option Path) (out_is_dir : bool)
    (coll : string * string) (run_ts : Z) (n : nat) (i : nat) (addr : string)
    : M unit :=
  try_except
    (print (querying i n addr) >>
     let* data := get_token_details i addr in
     results_set addr RecOk >>
     try_except (store_to_mongo i coll addr data run_ts)
       (insert_handler addr) >>
     save_per_address out out_is_dir addr data >>
     time_sleep (Py.max 0 (args_delay args)))
    (fetch_handler addr).

(** The part of [main] under [# Final output handling]. *)
Definition final_output (out : option Path) (out_is_dir : bool) : M unit :=
  let* res := (λ s, (inr (results s), s)) in
  print (json_dumps w (results_json res)) >>
  match out with
  | Some out =>
      if out_is_dir then
        print ("Saved per-address JSON files to " +:+ Pathlib.to_string out)
      else
        save_result out (results_json res) >>
        print ("Saved combined JSON to " +:+ Pathlib.to_string out)
  | None => ret tt
  end.

(** [Path(args.out) if args.out else None], as the argument itself. *)
Definition out_argument (args : Args) : option string :=
  match args_out args with
  | Some o => if Py.truthy o then Some o else None
  | None => None
  end.

Definition main (args : Args) : M unit :=
  let addresses :=
    resolve_addresses (args_address args) (environ w) (dotenv_file w) in
  let addresses := clean_addresses addresses in
  match addresses with
  | [] => eprint "No addresses found to query." >> sys_exit 2
  | _ =>
      let out_arg := out_argument args in
      let out := Pathlib.of_string <$> out_arg in
      let* out_is_dir :=
        (λ s, (inr (from_option (is_out_dir (files s)) false out_arg), s)) in
      let* coll :=
        try_except mongo_connect
          (λ e, match e with
                | PyMongoError msg =>
                    Some (eprint ("Failed to connect to MongoDB: " +:+ msg) >>
                          sys_exit 3)
                | _ => None
                end) in
      (λ s, (inr tt, set_results [] s)) >>
      let* run_ts := datetime_now w in
      for_enumerate
        (loop_body args out out_is_dir coll run_ts (length addresses))
        1 addresses >>
      final_output out out_is_dir
  end.

(** The module from its first statement to the call of [main]. *)
Definition script (args : Args) : M unit :=
  (if missing API_KEY then
     eprint "ERROR: HYPESCORE_API_KEY not found in environment or .env. Copy .env.example -> .env and set your key." >>
     sys_exit 2
   else ret tt) >>
  (if missing MONGO_URI then
     eprint "ERROR: MONGO_URI not found in environment or .env. Set MONGO_URI to your MongoDB connection string." >>
     sys_exit 2
   else ret tt) >>
  main args.

(** The state in which the process starts on the file system [fs]. *)
Definition initial (fs : gmap Path Pathlib.node) : state := mkState [] fs 0 [].

Definition run (args : Args) (fs : gmap Path Pathlib.node)
    : (exn + unit) * state :=
  script args (initial fs).

End Program.


(** ** Notions used in the statements *)

(** The request that [get_token_details] sends for [addr]. *)
Definition request_event (w : World) (addr : string) : event :=
  HttpGet BASE_URL [("blockchain", "solana"); ("address", addr)]
    [("Authorization", default "" (API_KEY w))] 10.

(** What [get_token_details] returns or raises in iteration [i]; it does not
    depend on the state, see [get_token_details_eq]. *)
Definition fetch_outcome (w : World) (i : nat) (addr : string) : exn + Json :=
  (get_token_details w i addr (initial ∅)).1.

(** The record that iteration [i] leaves for [addr] when it completes. *)
Definition iteration_record (w : World) (run_ts : Z) (i : nat) (addr : string)
    : ResultRecord :=
  match fetch_outcome w i addr with
  | inr data =>
      match insert_one w i (mkDocument addr run_ts data) with
      | Some (MongoFailure me) => RecMongoError me
      | _ => RecOk
      end
  | inl (HTTPError msg response) => RecHTTPError msg (status_code <$> response)
  | inl e => RecRequestError (exn_str e)
  end.

(** The state in which an iteration is once its fetch has returned. *)
Definition fetched_state (w : World) (n i : nat) (addr : string) (s : state)
    : state :=
  set_results (dict_set addr RecOk (results s))
    (add_event (request_event w addr) (add_event (Stdout (querying i n addr)) s)).

(** The rest of an iteration once the fetch has returned [data]. *)
Definition after_fetch (w : World) (args : Args) (out : option Path)
    (out_is_dir : bool) (coll : string * string) (run_ts : Z) (i : nat)
    (addr : string) (data : Json) : M unit :=
  try_except (store_to_mongo w i coll addr data run_ts) (insert_handler addr) >>
  save_per_address w out out_is_dir addr data >>
  time_sleep (Py.max 0 (args_delay args)).

(** An insert carries the timestamp [ts]; other events carry none. *)
Definition stamped (ts : Z) (ev : event) : Prop :=
  match ev with
  | InsertOne _ _ doc => fetched_at doc = ts
  | _ => True
  end.

(** The events of iteration [i] on [addr]: its first line, lines on the
    diagnostic stream, its request, its insert, its sleep. *)
Definition iteration_event (w : World) (ts : Z) (n i : nat) (addr : string)
    (ev : event) : Prop :=
  match ev with
  | Stdout line => line = querying i n addr
  | Stderr _ => True
  | HttpGet _ _ _ _ => ev = request_event w addr
  | InsertOne _ _ doc => fetched_at doc = ts ∧ address doc = addr
  | Sleep _ => True
  end.

(** The address list that [main] iterates over. *)
Definition addresses_of (w : World) (args : Args) : list string :=
  clean_addresses
    (resolve_addresses (args_address args) (environ w) (dotenv_file w)).

(** The output path of [main] and its classification on the file system on
    which the process starts. *)
Definition out_of (args : Args) : option Path :=
  Pathlib.of_string <$> out_argument args.

Definition out_is_dir_of (args : Args) (fs : gmap Path Pathlib.node) : bool :=
  from_option (is_out_dir fs) false (out_argument args).

(** A name that [pathlib] takes as one relative component. *)
Fixpoint no_slash (s : string) : bool :=
  match s with
  | "" => true
  | String c s' => negb (Pathlib.is_slash c) && no_slash s'
  end.

(** A part that names an entry of its directory: without separator, not
    empty, neither [.] nor [..]. *)
Definition plain_part (c : string) : bool :=
  no_slash c && negb (String.eqb c "") && negb (String.eqb c ".")
  && negb (String.eqb c "..").

(** A path that the operating system follows part by part to the node that
    the model holds under it: the root [/] or none, then plain parts.  Two
    such paths are one file exactly when they are one list. *)
Definition resolved (p : Path) : bool :=
  match p with
  | [] => true
  | r :: rest => (String.eqb r "/" || plain_part r) && forallb plain_part rest
  end.

(** A path from the root, as opposed to one from the working directory. *)
Definition absolute (p : Path) : bool :=
  match p with
  | r :: _ => Pathlib.is_root r
  | [] => false
  end.

(** Two paths of which the lists of parts tell whether they are one file:
    both without [..], and both from the root or both from the working
    directory, whose own place the model does not know. *)
Definition comparable (p q : Path) : bool :=
  resolved p && resolved q && Bool.eqb (absolute p) (absolute q).

Definition is_InsertOne (ev : event) : bool :=
  match ev with InsertOne _ _ _ => true | _ => false end.

Definition is_Stdout (ev : event) : bool :=
  match ev with Stdout _ => true | _ => false end.

(** [sep.join(l)] *)
Fixpoint str_join (sep : string) (l : list string) : string :=
  match l with
  | [] => ""
  | [t] => t
  | t :: l' => t +:+ sep +:+ str_join sep l'
  end.

(** Every character of [s] satisfies [q]. *)
Fixpoint all_chars (q : ascii → bool) (s : string) : bool :=
  match s with
  | "" => true
  | String c s' => q c && all_chars q s'
  end.

(** A character that the splitting and the stripping of an address list
    leave alone: no whitespace (a newline is whitespace), no comma, no
    quote. *)
Definition token_char (c : ascii) : bool :=
  negb (Py.isspace c) && negb (is_comma c) && negb (Re.is_quote c).

(** An address as it can stand in a list: not empty, made of such
    characters. *)
Definition plain_token (t : string) : Prop :=
  t ≠ "" ∧ all_chars token_char t = true.

Definition is_HttpGet (ev : event) : bool :=
  match ev with HttpGet _ _ _ _ => true | _ => false end.

Definition is_Sleep (ev : event) : bool :=
  match ev with Sleep _ => true | _ => false end.

(** What an insert and a sleep of the loop over [l], entered at iteration
    [i], look like: the insert goes to the collection [coll], carries the
    timestamp [ts] and the payload that the fetch of one of the addresses
    returned; the sleep lasts [max(0.0, args.delay)]. *)
Definition loop_effect (w : World) (args : Args) (coll : string * string)
    (ts : Z) (i : nat) (l : list string) (ev : event) : Prop :=
  match ev with
  | InsertOne db c doc =>
      db = coll.1 ∧ c = coll.2 ∧ fetched_at doc = ts
      ∧ ∃ k, l !! k = Some (address doc)
             ∧ fetch_outcome w (i + k) (address doc) = inr (data doc)
  | Sleep secs => secs = Py.max 0 (args_delay args)
  | _ => True
  end.

(** The first lines of the iterations over [l], entered at iteration [i]. *)
Definition progress_lines (n i : nat) (l : list string) : list event :=
  imap (λ k a, Stdout (querying (i + k) n a)) l.

(** The lines that the final output prints after the summary. *)
Definition saved_lines (out : option Path) (out_is_dir : bool) : list event :=
  match out with
  | Some out =>
      if out_is_dir then
        [Stdout ("Saved per-address JSON files to " +:+ Pathlib.to_string out)]
      else [Stdout ("Saved combined JSON to " +:+ Pathlib.to_string out)]
  | None => []
  end.

(** The insert that iteration [i] attempts on [addr]: one when its fetch
    returns, none otherwise. *)
Definition inserts_of (w : World) (coll : string * string) (ts : Z) (i : nat)
    (addr : string) : list event :=
  match fetch_outcome w i addr with
  | inr data => [InsertOne coll.1 coll.2 (mkDocument addr ts data)]
  | inl _ => []
  end.

(** The inserts of the iterations on [l], the first of which is numbered
    [i]. *)
Fixpoint loop_inserts (w : World) (coll : string * string) (ts : Z) (i : nat)
    (l : list string) : list event :=
  match l with
  | [] => []
  | a :: l' => inserts_of w coll ts i a ++ loop_inserts w coll ts (S i) l'
  end.



(** ** A sample world, for the examples *)

Module Sample.

Definition nl : string := String "010"%char "".
Definition dq : string := String "034"%char "".

(** A plain serialiser in the layout of [json.dumps(value, indent=2)];
    strings are written without escapes and floats are not written out. *)
Fixpoint dumps_at (ind : string) (v : Json) : string :=
  let ind' := ind +:+ "  " in
  match v with
  | JNull => "null"
  | JBool b => if b then "true" else "false"
  | JInt n => pretty n
  | JFloat _ => "0.0"
  | JStr s => dq +:+ s +:+ dq
  | JArr [] => "[]"
  | JArr items =>
      "[" +:+ nl
      +:+ (fix go (l : list Json) : string :=
             match l with
             | [] => ""
             | x :: l' =>
                 ind' +:+ dumps_at ind' x
                 +:+ match l' with [] => "" | _ => "," +:+ nl +:+ go l' end
             end) items
      +:+ nl +:+ ind +:+ "]"
  | JObj [] => "{}"
  | JObj members =>
      "{" +:+ nl
      +:+ (fix go (l : list (string * Json)) : string :=
             match l with
             | [] => ""
             | (k, x) :: l' =>
                 ind' +:+ dq +:+ k +:+ dq +:+ ": " +:+ dumps_at ind' x
                 +:+ match l' with [] => "" | _ => "," +:+ nl +:+ go l' end
             end) members
      +:+ nl +:+ ind +:+ "}"
  end.

Definition dumps (v : Json) : string := dumps_at "" v.

Definition loads (body : string) : string + Json :=
  if decide (body = "[1, 2]") then inr (JArr [JInt 1; JInt 2])
  else if decide (body = "{}") then inr (JObj [])
  else inl "Expecting value: line 1 column 1 (char 0)".

Definition details_url (addr : string) : string :=
  BASE_URL +:+ "?blockchain=solana&address=" +:+ addr.

(** The server: [down] is unreachable, [missing] is unknown, [cached] is
    answered 304, [garbled] gets a page that is no JSON. *)
Definition server (i : nat) (addr : string) : string + Response :=
  if decide (addr = "down") then inl "Connection refused"
  else if decide (addr = "missing") then
    inr (mkResponse 404 "Not Found" (details_url addr) "not found")
  else if decide (addr = "cached") then
    inr (mkResponse 304 "Not Modified" (details_url addr) "[1, 2]")
  else if decide (addr = "garbled") then
    inr (mkResponse 200 "OK" (details_url addr) "<html>")
  else inr (mkResponse 200 "OK" (details_url addr) "[1, 2]").

(** The store: it refuses the document of [unstored], and the document of
    [huge] cannot be encoded. *)
Definition store (i : nat) (doc : Document) : option insert_failure :=
  if decide (address doc = "unstored") then Some (MongoFailure "not primary")
  else if decide (address doc = "huge") then
    Some (EncodingFailure "MongoDB can only handle up to 8-byte ints")
  else None.

(** The driver: it refuses an empty name. *)
Definition database (name : string) : option string :=
  if decide (name = "") then Some "database name cannot be the empty string"
  else None.

Definition collection (name : string) : option string :=
  if decide (name = "") then Some "collection names cannot be empty"
  else None.

Definition env : gmap string string :=
  list_to_map [("HYPESCORE_API_KEY", "secret"); ("MONGO_URI", "mongodb://db")].

(** A clock that advances between two readings. *)
Definition wall_clock (k : nat) : Z := (1700000000000000 + 250000 * Z.of_nat k)%Z.

(** The sample world with the environment [env], no settings file, and the
    given outcomes of the connection and of the ping. *)
Definition make (env : gmap string string) (client ping : option string)
    : World :=
  mkWorld env None server loads dumps client ping database collection store
    wall_clock.

Definition world : World := make env None None.

(** The sample world with an address list in the environment. *)
Definition world_of (addresses : string) : World :=
  make (<["ADDRESSES" := addresses]> env) None None.

Definition args (address out : option string) : Args :=
  mkArgs address out 0.25%float.

End Sample.

(** * Properties *)

(** Closes an equation between closed terms by evaluating both sides. *)
Ltac vm_refl :=
  match goal with
  | |- @eq ?T ?l ?r => vm_cast_no_check (@eq_refl T r)
  end.

(** ** The [results] dict *)

Section Dict.

Context {V : Type}.
Implicit Types (d : list (string * V)) (k a : string) (v : V).

Lemma dict_get_set_eq k v d : dict_get k (dict_set k v d) = Some v.
Proof.
  induction d as [|[k' v'] d IH]; simpl.
  - by rewrite decide_True.
  - destruct (decide (k = k')) as [->|Hne]; simpl.
    + by rewrite decide_True.
    + by rewrite decide_False.
Qed.

Lemma dict_get_set_ne a k v d : a ≠ k → dict_get a (dict_set k v d) = dict_get a d.
Proof.
  intros Hne. induction d as [|[k' v'] d IH]; simpl.
  - by rewrite decide_False.
  - destruct (decide (k = k')) as [->|Hk]; simpl.
    + by rewrite !decide_False.
    + by rewrite IH.
Qed.

(** Assigning twice to a key is assigning the second value. *)
Lemma dict_set_set k v1 v2 d : dict_set k v2 (dict_set k v1 d) = dict_set k v2 d.
Proof.
  induction d as [|[k' v'] d IH]; simpl.
  - by rewrite decide_True.
  - destruct (decide (k = k')) as [->|Hk]; simpl.
    + by rewrite decide_True.
    + by rewrite decide_False, IH.
Qed.

Lemma elem_of_dict_keys_set a k v d :
  a ∈ dict_keys (dict_set k v d) ↔ a = k ∨ a ∈ dict_keys d.
Proof.
  unfold dict_keys. induction d as [|[k' v'] d IH]; simpl.
  - rewrite list_elem_of_singleton, elem_of_nil. tauto.
  - destruct (decide (k = k')) as [->|Hk]; simpl.
    + rewrite !elem_of_cons. tauto.
    + rewrite !elem_of_cons, IH. tauto.
Qed.

Lemma NoDup_dict_keys_set k v d :
  NoDup (dict_keys d) → NoDup (dict_keys (dict_set k v d)).
Proof.
  unfold dict_keys. induction d as [|[k' v'] d IH]; simpl.
  - intros _. apply NoDup_singleton.
  - rewrite NoDup_cons. intros [Hk' Hd].
    destruct (decide (k = k')) as [->|Hk]; simpl.
    + by apply NoDup_cons.
    + apply NoDup_cons. split; [|by apply IH].
      intros Hin. apply (elem_of_dict_keys_set k' k v d) in Hin.
      destruct Hin as [->|Hin]; done.
Qed.

(** A key is present exactly when it has a value. *)
Lemma dict_get_is_Some a d : is_Some (dict_get a d) ↔ a ∈ dict_keys d.
Proof.
  unfold dict_keys. induction d as [|[k' v'] d IH]; simpl.
  - split; [by intros [? ?]|by intros ?%elem_of_nil].
  - destruct (decide (a = k')) as [->|Hne].
    + split; [intros _; by left|by eauto].
    + rewrite IH, elem_of_cons. tauto.
Qed.

End Dict.

(** ** The text primitives and the regular expressions on examples *)

Example strip_ex : Py.strip ("  a b " +:+ Sample.nl) = "a b".
Proof. reflexivity. Qed.

Example split_runs_ex :
  Py.split_runs is_comma_or_newline (",,a," +:+ Sample.nl +:+ "b,")
  = [""; "a"; "b"; ""].
Proof. reflexivity. Qed.

Example extract_key_ex :
  extract_addresses_from_env_file
    ("API=1" +:+ Sample.nl +:+ "addresses = " +:+ Sample.dq +:+ "a, b, c"
     +:+ Sample.dq +:+ Sample.nl +:+ "X=2")
  = ["a"; "b"; "c"].
Proof. vm_compute. reflexivity. Qed.

Example extract_blank_value_ex :
  extract_addresses_from_env_file ("TOKENS=  " +:+ Sample.nl) = [].
Proof. vm_compute. reflexivity. Qed.

Example extract_quoted_ex :
  extract_addresses_from_env_file
    ("LIST = [" +:+ Sample.nl
     +:+ Sample.dq +:+ "So11111111111111111111111111111111111111112, "
     +:+ "EPjFWdd5AufqSSqeM2qN1xzybapC8G4wEGGkZwyTDt1v" +:+ Sample.dq +:+ "]")
  = ["So11111111111111111111111111111111111111112";
     "EPjFWdd5AufqSSqeM2qN1xzybapC8G4wEGGkZwyTDt1v"].
Proof. vm_compute. reflexivity. Qed.

Example path_ex :
  Pathlib.of_string "out//./results/" = ["out"; "results"]
  ∧ Pathlib.suffix (Pathlib.of_string "out/results.json") = ".json"
  ∧ Pathlib.suffix (Pathlib.of_string ".hidden") = ""
  ∧ Pathlib.joinpath ["out"] "a.json" = ["out"; "a.json"]
  ∧ Pathlib.joinpath ["out"] "/tmp/a.json" = ["/"; "tmp"; "a.json"]
  ∧ Pathlib.to_string ["/"; "tmp"; "a.json"] = "/tmp/a.json".
Proof. repeat split; reflexivity. Qed.

(** ** Address resolution *)



Lemma load_from_env_some getenv keys parts :
  load_from_env getenv keys = Some parts → parts ≠ [].
Proof.
  induction keys as [|key keys IH]; simpl; [done|].
  destruct (env_parts (getenv key)) eqn:Hkey; [done|].
  by intros [= <-].
Qed.

(** Whatever [load_addresses] returns, it is not the empty list. *)
Lemma load_addresses_nonempty env dotenv : load_addresses env dotenv ≠ [].
Proof.
  unfold load_addresses.
  destruct (load_from_env _ _) as [parts|] eqn:Henv.
  - by apply load_from_env_some in Henv.
  - destruct dotenv as [text|]; [|done].
    by destruct (extract_addresses_from_env_file text).
Qed.



(** ** The detail fetcher *)

Lemma http_error_msg_truthy resp :
  Py.truthy (http_error_msg resp)
  = bool_decide (400 ≤ status_code resp < 600)%Z.
Proof.
  unfold http_error_msg.
  destruct ((400 <=? _) && (_ <? 500))%Z eqn:H4.
  - rewrite bool_decide_eq_true_2 by lia.
    generalize (pretty (status_code resp)). by intros [|c p].
  - destruct ((500 <=? _) && (_ <? 600))%Z eqn:H5.
    + rewrite bool_decide_eq_true_2 by lia.
      generalize (pretty (status_code resp)). by intros [|c p].
    + symmetry. apply bool_decide_eq_false. lia.
Qed.

(** [fetch_outcome] spelled out. *)
Lemma fetch_outcome_eq w i addr :
  fetch_outcome w i addr =
  match http_get w i addr with
  | inl msg => inl (RequestException msg)
  | inr resp =>
      if Py.truthy (http_error_msg resp)
      then inl (HTTPError (http_error_msg resp) (Some resp))
      else match json_loads w (text resp) with
           | inl msg => inl (RequestException msg)
           | inr v => inr v
           end
  end.
Proof.
  unfold fetch_outcome, get_token_details, requests_get, raise_for_status,
    response_json, bind, emit, raise, ret.
  destruct (http_get w i addr) as [msg|resp]; simpl; [done|].
  destruct (Py.truthy (http_error_msg resp)); simpl; [done|].
  by destruct (json_loads w (text resp)).
Qed.

(** [get_token_details] sends one request and touches nothing else. *)
Lemma get_token_details_eq w i addr s :
  get_token_details w i addr s
  = (fetch_outcome w i addr, add_event (request_event w addr) s).
Proof.
  rewrite fetch_outcome_eq.
  unfold get_token_details, requests_get, raise_for_status, response_json,
    bind, emit, raise, ret, request_event.
  destruct (http_get w i addr) as [msg|resp]; simpl; [done|].
  destruct (Py.truthy (http_error_msg resp)); simpl; [done|].
  by destruct (json_loads w (text resp)).
Qed.

(** What a fetch can raise is a request-level exception. *)
Lemma fetch_outcome_cases w i addr :
  (∃ data, fetch_outcome w i addr = inr data)
  ∨ (∃ msg resp, fetch_outcome w i addr = inl (HTTPError msg (Some resp)))
  ∨ (∃ msg, fetch_outcome w i addr = inl (RequestException msg)).
Proof.
  rewrite fetch_outcome_eq.
  destruct (http_get w i addr) as [msg|resp]; [by eauto|].
  destruct (Py.truthy (http_error_msg resp)); [by eauto 6|].
  destruct (json_loads w (text resp)); eauto.
Qed.

(** C1, as the code has it: [get_token_details] returns the decoded body
    whenever the status lies outside 400..599, which includes every 2xx
    status, and the body decodes; it raises an [HTTPError] that carries the
    response, hence its status code and its body text, exactly for the
    statuses from 400 to 599; a failure of the transport raises a
    [RequestException] that is no [HTTPError]. *)
Theorem get_token_details_by_status (w : World) (i : nat) (addr : string)
    (s : state) :
  let sent := add_event (request_event w addr) s in
  (∀ msg, http_get w i addr = inl msg →
     get_token_details w i addr s = (inl (RequestException msg), sent))
  ∧ (∀ resp, http_get w i addr = inr resp →
     ((400 ≤ status_code resp < 600)%Z →
        ∃ msg, get_token_details w i addr s
               = (inl (HTTPError msg (Some resp)), sent))
     ∧ (¬ (400 ≤ status_code resp < 600)%Z →
        ∀ v, json_loads w (text resp) = inr v →
             get_token_details w i addr s = (inr v, sent))).
Proof.
  intros sent. unfold sent. rewrite get_token_details_eq, fetch_outcome_eq.
  split.
  - by intros msg ->.
  - intros resp ->. rewrite http_error_msg_truthy. split.
    + intros Hsc. rewrite bool_decide_eq_true_2 by done. eauto.
    + intros Hsc v Hv. rewrite bool_decide_eq_false_2 by done.
      by rewrite Hv.
Qed.

Lemma get_token_details_by_status_witness :
  get_token_details Sample.world 1 "good" (initial ∅)
  = (inr (JArr [JInt 1; JInt 2]),
     add_event (request_event Sample.world "good") (initial ∅)).
Proof.
  refine (proj2 (proj2 (get_token_details_by_status Sample.world 1 "good"
                          (initial ∅))
                   (mkResponse 200 "OK" (Sample.details_url "good") "[1, 2]")
                   _) _ _ _).
  - reflexivity.
  - simpl. lia.
  - reflexivity.
Defined.

(** C1 as stated fails on a status that is neither 2xx nor an error status:
    the server answers 304 and the fetcher returns the decoded body instead
    of raising. *)
Lemma get_token_details_non_2xx_counterexample :
  http_get Sample.world 1 "cached"
  = inr (mkResponse 304 "Not Modified" (Sample.details_url "cached") "[1, 2]")
  ∧ ¬ (200 ≤ 304 < 300)%Z
  ∧ (get_token_details Sample.world 1 "cached" (initial ∅)).1
    = inr (JArr [JInt 1; JInt 2])
  ∧ ¬ (∃ msg response,
         (get_token_details Sample.world 1 "cached" (initial ∅)).1
         = inl (HTTPError msg response)).
Proof.
  split; [reflexivity|]. split; [lia|].
  assert ((get_token_details Sample.world 1 "cached" (initial ∅)).1
          = inr (JArr [JInt 1; JInt 2])) as H by (vm_compute; reflexivity).
  split; [exact H|]. intros (msg & response & H'). congruence.
Qed.

(** ** One iteration of the loop *)

Arguments Pathlib.mkdir_parents : simpl never.
Arguments Pathlib.write_text : simpl never.
Arguments Pathlib.joinpath : simpl never.
Arguments Pathlib.parent : simpl never.
Arguments dict_set : simpl never.
Arguments querying : simpl never.
Arguments sleepable : simpl never.
Arguments Py.max : simpl never.
Arguments String.append : simpl never.

(** Unfolds the monad and splits on every outcome that the goal examines. *)
Ltac run_monad :=
  unfold try_except, bind, ret, raise, sys_exit, print, eprint, emit,
    results_set;
  simpl.

Ltac split_outcomes :=
  repeat (simpl;
          match goal with
          | |- context [match ?x with _ => _ end] =>
              lazymatch x with
              | context [match _ with _ => _ end] => fail
              | _ => destruct x eqn:?
              end
          end).

Lemma loop_body_http_error w args out dir coll ts n i addr s msg response :
  fetch_outcome w i addr = inl (HTTPError msg response) →
  loop_body w args out dir coll ts n i addr s
  = (inr tt,
     set_results
       (dict_set addr (RecHTTPError msg (status_code <$> response)) (results s))
       (add_event
          (Stderr ("HTTP error for " +:+ addr +:+ ": " +:+ msg +:+ " - "
                   +:+ from_option text "" response))
          (add_event (request_event w addr)
             (add_event (Stdout (querying i n addr)) s)))).
Proof.
  intros Hf. unfold loop_body. run_monad.
  rewrite get_token_details_eq, Hf. reflexivity.
Qed.

Lemma loop_body_request_error w args out dir coll ts n i addr s msg :
  fetch_outcome w i addr = inl (RequestException msg) →
  loop_body w args out dir coll ts n i addr s
  = (inr tt,
     set_results (dict_set addr (RecRequestError msg) (results s))
       (add_event (Stderr ("Request failed for " +:+ addr +:+ ": " +:+ msg))
          (add_event (request_event w addr)
             (add_event (Stdout (querying i n addr)) s)))).
Proof.
  intros Hf. unfold loop_body. run_monad.
  rewrite get_token_details_eq, Hf. reflexivity.
Qed.

Lemma loop_body_fetched w args out dir coll ts n i addr s data :
  fetch_outcome w i addr = inr data →
  loop_body w args out dir coll ts n i addr s
  = after_fetch w args out dir coll ts i addr data (fetched_state w n i addr s).
Proof.
  intros Hf. unfold loop_body, after_fetch, fetched_state. run_monad.
  rewrite get_token_details_eq, Hf. simpl.
  unfold store_to_mongo, save_per_address, save_result, path_mkdir_parents,
    path_write_text, time_sleep, insert_handler, insert_exn.
  run_monad.
  split_outcomes; reflexivity.
Qed.

Lemma write_text_inr fs p content fs' :
  Pathlib.write_text fs p content = inr fs' →
  fs' = <[p := Pathlib.File content]> fs.
Proof.
  unfold Pathlib.write_text.
  destruct (Pathlib.node_at fs p) as [[|c]|];
    try destruct (Pathlib.is_dir fs (Pathlib.parent p)); congruence.
Qed.

Lemma trace_add_event ev s : trace (add_event ev s) = trace s ++ [ev].
Proof. done. Qed.

(** C2: an address whose fetch meets an HTTP error status gets the record
    with the error message and the status code: after the iteration the
    mapping holds it under the address, as [{error, status_code}], and holds
    under every other address what it held.  The iteration sends the request
    and prints, and does nothing else: no insert is attempted, the file
    system is left as it was, there is no sleep; and the loop goes on with
    the next address. *)
Theorem http_error_iteration (w : World) (args : Args) (out : option Path)
    (dir : bool) (coll : string * string) (ts : Z) (n i : nat)
    (addr : string) (rest : list string) (s : state) (resp : Response) :
  http_get w i addr = inr resp →
  (400 ≤ status_code resp < 600)%Z →
  ∃ msg line s',
    loop_body w args out dir coll ts n i addr s = (inr tt, s')
    ∧ results s'
      = dict_set addr (RecHTTPError msg (Some (status_code resp))) (results s)
    ∧ files s' = files s
    ∧ clock_reads s' = clock_reads s
    ∧ trace s'
      = trace s ++ [Stdout (querying i n addr); request_event w addr;
                    Stderr line]
    ∧ for_enumerate (loop_body w args out dir coll ts n) i (addr :: rest) s
      = for_enumerate (loop_body w args out dir coll ts n) (S i) rest s'
    ∧ dict_get addr (results s')
      = Some (RecHTTPError msg (Some (status_code resp)))
    ∧ (∀ a, a ≠ addr → dict_get a (results s') = dict_get a (results s))
    ∧ record_json (RecHTTPError msg (Some (status_code resp)))
      = JObj [("error", JStr msg); ("status_code", JInt (status_code resp))]
    ∧ msg = http_error_msg resp
    ∧ line = "HTTP error for " +:+ addr +:+ ": " +:+ msg +:+ " - "
             +:+ text resp.
Proof.
  intros Hget Hsc.
  assert (fetch_outcome w i addr
          = inl (HTTPError (http_error_msg resp) (Some resp))) as Hf.
  { rewrite fetch_outcome_eq, Hget, http_error_msg_truthy.
    by rewrite bool_decide_eq_true_2. }
  eexists _, _, _. split_and!.
  - apply loop_body_http_error, Hf.
  - done.
  - done.
  - done.
  - simpl. by rewrite <- !app_assoc.
  - simpl. unfold bind at 1.
    by rewrite (loop_body_http_error _ _ _ _ _ _ _ _ _ _ _ _ Hf).
  - apply dict_get_set_eq.
  - intros a Ha. by apply dict_get_set_ne.
  - done.
  - done.
  - done.
Qed.

Lemma http_error_iteration_witness :
  let msg :=
    "404 Client Error: Not Found for url: https://api.mobula.io/api/2/token/details?blockchain=solana&address=missing" in
  ∃ s',
    loop_body Sample.world (Sample.args None None) None false
      ("mobula", "Token") 0 2 1 "missing" (initial ∅) = (inr tt, s')
    ∧ results s' = [("missing", RecHTTPError msg (Some 404%Z))]
    ∧ dict_get "missing" (results s') = Some (RecHTTPError msg (Some 404%Z))
    ∧ record_json (RecHTTPError msg (Some 404%Z))
      = JObj [("error", JStr msg); ("status_code", JInt 404)]
    ∧ files s' = ∅
    ∧ clock_reads s' = 0
    ∧ trace s'
      = [Stdout "[1/2] Querying missing ...";
         HttpGet "https://api.mobula.io/api/2/token/details"
           [("blockchain", "solana"); ("address", "missing")]
           [("Authorization", "secret")] 10;
         Stderr ("HTTP error for missing: " +:+ msg +:+ " - not found")]
    ∧ for_enumerate
        (loop_body Sample.world (Sample.args None None) None false
           ("mobula", "Token") 0 2) 1 ["missing"; "good"] (initial ∅)
      = for_enumerate
          (loop_body Sample.world (Sample.args None None) None false
             ("mobula", "Token") 0 2) 2 ["good"] s'.
Proof.
  intros msg.
  destruct (http_error_iteration Sample.world (Sample.args None None) None
              false ("mobula", "Token") 0%Z 2 1 "missing" ["good"] (initial ∅)
              (mkResponse 404 "Not Found" (Sample.details_url "missing")
                 "not found"))
    as (msg' & line & s' & Hbody & Hres & Hfiles & Hclock & Htrace & Hloop
        & Hget & _ & Hjson & Hmsg & Hline).
  - reflexivity.
  - simpl. lia.
  - assert (msg' = msg) as -> by (rewrite Hmsg; vm_refl).
    exists s'.
    split_and!;
      first [ assumption
            | rewrite Hres; reflexivity
            | rewrite Htrace, Hline; reflexivity
            | reflexivity ].
Defined.

Lemma for_enumerate_cons body i x xs s s' :
  body i x s = (inr tt, s') →
  for_enumerate body i (x :: xs) s = for_enumerate body (S i) xs s'.
Proof. intros H. simpl. unfold bind. by rewrite H. Qed.

Lemma for_enumerate_raise body i x xs s s' e :
  body i x s = (inl e, s') →
  for_enumerate body i (x :: xs) s = (inl e, s').
Proof. intros H. simpl. unfold bind. by rewrite H. Qed.

(** The state of an iteration once the failure of its insert is recorded. *)
Lemma loop_body_insert_failed w args out dir coll ts n i addr s data me :
  fetch_outcome w i addr = inr data →
  insert_one w i (mkDocument addr ts data) = Some (MongoFailure me) →
  loop_body w args out dir coll ts n i addr s
  = (save_per_address w out dir addr data >>
     time_sleep (Py.max 0 (args_delay args)))
      (mkState (dict_set addr (RecMongoError me) (results s)) (files s)
         (clock_reads s)
         (trace s ++ [Stdout (querying i n addr); request_event w addr;
                      InsertOne coll.1 coll.2 (mkDocument addr ts data);
                      Stderr ("Mongo insert failed for " +:+ addr +:+ ": "
                              +:+ me)])).
Proof.
  intros Hf Hins. rewrite (loop_body_fetched _ _ _ _ _ _ _ _ _ _ _ Hf).
  unfold after_fetch, fetched_state, store_to_mongo, insert_handler.
  run_monad. rewrite Hins. simpl. unfold set_results, add_event. simpl.
  by rewrite dict_set_set, <- !app_assoc.
Qed.

(** C3: when the fetch succeeds and the insert raises a [PyMongoError], the
    record of the address says so with the message: whatever the rest of the
    iteration does, the mapping then holds [{ok: false, mongo_error}] under
    the address.  The iteration goes on from there with the statement that
    writes the per-address file and with the sleep, as it does after an
    insert that succeeded.  So with directory output the file of the address
    is written all the same, with the payload, and the loop goes on with the
    next address. *)
Theorem insert_failure_iteration (w : World) (args : Args)
    (coll : string * string) (ts : Z) (n i : nat) (addr : string)
    (rest : list string) (s : state) (data : Json) (me : string) :
  fetch_outcome w i addr = inr data →
  insert_one w i (mkDocument addr ts data) = Some (MongoFailure me) →
  let evs :=
    [Stdout (querying i n addr); request_event w addr;
     InsertOne coll.1 coll.2 (mkDocument addr ts data);
     Stderr ("Mongo insert failed for " +:+ addr +:+ ": " +:+ me)] in
  let delay := Py.max 0 (args_delay args) in
  (∀ out dir,
     loop_body w args out dir coll ts n i addr s
     = (save_per_address w out dir addr data >> time_sleep delay)
         (mkState (dict_set addr (RecMongoError me) (results s)) (files s)
            (clock_reads s) (trace s ++ evs)))
  ∧ (sleepable delay = true →
     ∀ out fs1 fs2,
       let p := Pathlib.joinpath out (addr +:+ ".json") in
       Pathlib.mkdir_parents (files s) (Pathlib.parent p) = inr fs1 →
       Pathlib.write_text fs1 p (json_dumps w data) = inr fs2 →
       ∃ s',
         loop_body w args (Some out) true coll ts n i addr s = (inr tt, s')
         ∧ results s' = dict_set addr (RecMongoError me) (results s)
         ∧ files s' = fs2
         ∧ fs2 !! p = Some (Pathlib.File (json_dumps w data))
         ∧ trace s' = trace s ++ evs ++ [Sleep delay]
         ∧ for_enumerate (loop_body w args (Some out) true coll ts n) i
             (addr :: rest) s
           = for_enumerate (loop_body w args (Some out) true coll ts n) (S i)
               rest s')
  ∧ (sleepable delay = true →
     ∀ out dir, out = None ∨ dir = false →
       ∃ s',
         loop_body w args out dir coll ts n i addr s = (inr tt, s')
         ∧ results s' = dict_set addr (RecMongoError me) (results s)
         ∧ files s' = files s
         ∧ trace s' = trace s ++ evs ++ [Sleep delay]
         ∧ for_enumerate (loop_body w args out dir coll ts n) i
             (addr :: rest) s
           = for_enumerate (loop_body w args out dir coll ts n) (S i) rest s')
  ∧ (∀ out dir,
       dict_get addr (results (loop_body w args out dir coll ts n i addr s).2)
       = Some (RecMongoError me)
       ∧ ∀ a, a ≠ addr →
              dict_get a (results (loop_body w args out dir coll ts n i addr s).2)
              = dict_get a (results s))
  ∧ record_json (RecMongoError me)
    = JObj [("ok", JBool false); ("mongo_error", JStr me)].
Proof.
  intros Hf Hins evs delay. split_and!.
  - intros out dir. by apply loop_body_insert_failed.
  - intros Hsleep out fs1 fs2 p Hmk Hwr.
    assert (∃ s', loop_body w args (Some out) true coll ts n i addr s
                  = (inr tt, s')
                  ∧ results s' = dict_set addr (RecMongoError me) (results s)
                  ∧ files s' = fs2 ∧ trace s' = trace s ++ evs ++ [Sleep delay])
      as (s' & Hbody & Hres & Hfiles & Htrace).
    { rewrite (loop_body_insert_failed _ _ _ _ _ _ _ _ _ _ _ _ Hf Hins).
      unfold save_per_address, save_result, path_mkdir_parents,
        path_write_text, time_sleep.
      run_monad. fold p. rewrite Hmk. simpl. rewrite Hwr. fold delay.
      rewrite Hsleep. simpl.
      eexists. split_and!; [done|done|done|].
      simpl. unfold evs. by rewrite <- !app_assoc. }
    exists s'. split_and!; try done.
    + apply write_text_inr in Hwr as ->. apply lookup_insert_eq.
    + by apply for_enumerate_cons.
  - intros Hsleep out dir Hout.
    assert (∃ s', loop_body w args out dir coll ts n i addr s = (inr tt, s')
                  ∧ results s' = dict_set addr (RecMongoError me) (results s)
                  ∧ files s' = files s
                  ∧ trace s' = trace s ++ evs ++ [Sleep delay])
      as (s' & Hbody & Hres & Hfiles & Htrace).
    { rewrite (loop_body_insert_failed _ _ _ _ _ _ _ _ _ _ _ _ Hf Hins).
      unfold save_per_address, time_sleep. run_monad. fold delay.
      destruct Hout as [-> | ->]; [|destruct out]; simpl; rewrite Hsleep;
        simpl; (eexists; split_and!; [done|done|done|];
                simpl; unfold evs; by rewrite <- !app_assoc). }
    exists s'. split_and!; try done.
    by apply for_enumerate_cons.
  - intros out dir.
    assert (results (loop_body w args out dir coll ts n i addr s).2
            = dict_set addr (RecMongoError me) (results s)) as ->.
    { rewrite (loop_body_insert_failed _ _ _ _ _ _ _ _ _ _ _ _ Hf Hins).
      unfold save_per_address, save_result, path_mkdir_parents,
        path_write_text, time_sleep.
      run_monad. split_outcomes; reflexivity. }
    split; [apply dict_get_set_eq|].
    intros a Ha. by apply dict_get_set_ne.
  - done.
Qed.

Lemma insert_failure_iteration_witness :
  ∃ s',
    loop_body Sample.world (Sample.args None (Some "results"))
      (Some ["results"]) true ("mobula", "Token") 7 1 1 "unstored" (initial ∅)
    = (inr tt, s')
    ∧ results s' = [("unstored", RecMongoError "not primary")]
    ∧ dict_get "unstored" (results s') = Some (RecMongoError "not primary")
    ∧ record_json (RecMongoError "not primary")
      = JObj [("ok", JBool false); ("mongo_error", JStr "not primary")]
    ∧ files s'
      = <[ ["results"; "unstored.json"]
           := Pathlib.File (Sample.dumps (JArr [JInt 1; JInt 2])) ]>
          (<[ ["results"] := Pathlib.Dir ]> ∅).
Proof.
  assert (Pathlib.mkdir_parents (files (initial ∅))
            (Pathlib.parent (Pathlib.joinpath ["results"] ("unstored" +:+ ".json")))
          = inr (<[ ["results"] := Pathlib.Dir ]> ∅)) as Hmk.
  { vm_refl. }
  assert (Pathlib.write_text (<[ ["results"] := Pathlib.Dir ]> ∅)
            (Pathlib.joinpath ["results"] ("unstored" +:+ ".json"))
            (json_dumps Sample.world (JArr [JInt 1; JInt 2]))
          = inr (<[ ["results"; "unstored.json"]
                    := Pathlib.File (Sample.dumps (JArr [JInt 1; JInt 2])) ]>
                   (<[ ["results"] := Pathlib.Dir ]> ∅))) as Hwr.
  { vm_refl. }
  assert (fetch_outcome Sample.world 1 "unstored"
          = inr (JArr [JInt 1; JInt 2])) as Hf.
  { vm_refl. }
  assert (sleepable (Py.max 0 (args_delay (Sample.args None (Some "results"))))
          = true) as Hsleep.
  { vm_refl. }
  pose proof (insert_failure_iteration Sample.world
                (Sample.args None (Some "results")) ("mobula", "Token")
                7%Z 1 1 "unstored" [] (initial ∅) (JArr [JInt 1; JInt 2])
                "not primary" Hf eq_refl) as (_ & Hdir & _ & Hget & Hjson).
  destruct (Hdir Hsleep ["results"] _ _ Hmk Hwr)
    as (s' & Hbody & Hres & Hfiles & _).
  destruct (Hget (Some ["results"]) true) as [Hrec _].
  rewrite Hbody in Hrec.
  exists s'. split_and!; first [assumption | reflexivity].
Defined.

(** ** What every iteration leaves alone *)


(** Whatever the outcome of an iteration: the clock is not read; the address
    has a record, the one of [iteration_record] when the iteration returns;
    the trace grows by events of this iteration, whose insert carries the
    timestamp of the run;
    and the file system changes only after a fetch that returned, with
    directory output. *)
Lemma loop_body_frame w args out dir coll ts n i addr s :
  let r := loop_body w args out dir coll ts n i addr s in
  clock_reads r.2 = clock_reads s
  ∧ (∃ rec, results r.2 = dict_set addr rec (results s)
            ∧ (r.1 = inr tt → rec = iteration_record w ts i addr))
  ∧ (∃ evs, trace r.2 = trace s ++ evs
            ∧ Forall (iteration_event w ts n i addr) evs)
  ∧ ((∃ e, fetch_outcome w i addr = inl e) ∨ out = None ∨ dir = false →
     files r.2 = files s).
Proof.
  destruct (fetch_outcome_cases w i addr)
    as [[data Hf]|[(msg & resp & Hf)|[msg Hf]]].
  - rewrite (loop_body_fetched _ _ _ _ _ _ _ _ _ _ _ Hf).
    unfold after_fetch, fetched_state, store_to_mongo, save_per_address,
      save_result, path_mkdir_parents, path_write_text, time_sleep,
      insert_handler, insert_exn, iteration_record.
    rewrite Hf. run_monad.
    destruct (insert_one w i _) as [[me|me]|] eqn:Hins; simpl;
      split_outcomes;
      (simpl; split_and!;
       [ done
       | eexists; split; simpl;
         [ first [reflexivity | apply dict_set_set]
         | first [done | intros [=]] ]
       | eexists; split; simpl;
         [ rewrite <- ?app_assoc; reflexivity
         | repeat first [apply Forall_nil_2 | apply Forall_cons_2]; done ]
       | try done; intros [[e [=]]|[[=]|[=]]] ]).
  - rewrite (loop_body_http_error _ _ _ _ _ _ _ _ _ _ _ _ Hf).
    unfold iteration_record. rewrite Hf. simpl. split_and!; [done| | |done].
    + eexists. split; done.
    + eexists. split; [rewrite <- ?app_assoc; reflexivity|].
      repeat first [apply Forall_nil_2 | apply Forall_cons_2]; done.
  - rewrite (loop_body_request_error _ _ _ _ _ _ _ _ _ _ _ Hf).
    unfold iteration_record. rewrite Hf. simpl. split_and!; [done| | |done].
    + eexists. split; done.
    + eexists. split; [rewrite <- ?app_assoc; reflexivity|].
      repeat first [apply Forall_nil_2 | apply Forall_cons_2]; done.
Qed.

(** ** The loop *)

Section Loop.

Variables (w : World) (args : Args) (out : option Path) (dir : bool)
  (coll : string * string) (ts : Z) (n : nat).

Let body := loop_body w args out dir coll ts n.

Lemma for_enumerate_step i x xs s :
  for_enumerate body i (x :: xs) s
  = match body i x s with
    | (inr _, s') => for_enumerate body (S i) xs s'
    | (inl e, s') => (inl e, s')
    end.
Proof. simpl. unfold bind. by destruct (body i x s) as [[e|[]] s']. Qed.

(** A relation between states that every iteration respects is respected by
    the loop. *)
Lemma for_enumerate_preserves (R : state → state → Prop) :
  (∀ s, R s s) →
  (∀ s1 s2 s3, R s1 s2 → R s2 s3 → R s1 s3) →
  (∀ i x s, R s (body i x s).2) →
  ∀ l i s, R s (for_enumerate body i l s).2.
Proof.
  intros Hrefl Htrans Hbody l. induction l as [|x xs IH]; intros i s.
  - apply Hrefl.
  - rewrite for_enumerate_step. specialize (Hbody i x s).
    destruct (body i x s) as [[e|[]] s']; simpl in *; [done|].
    eapply Htrans; [exact Hbody|apply IH].
Qed.



Lemma for_enumerate_keys_mono l i s a :
  a ∈ dict_keys (results s) →
  a ∈ dict_keys (results (for_enumerate body i l s).2).
Proof.
  revert a.
  apply (for_enumerate_preserves
           (λ s s', ∀ a, a ∈ dict_keys (results s) → a ∈ dict_keys (results s')));
    [done|by eauto|].
  intros j x s0 a Ha. unfold body.
  destruct (loop_body_frame w args out dir coll ts n j x s0)
    as (_ & (rec & -> & _) & _).
  apply elem_of_dict_keys_set. by right.
Qed.

Lemma for_enumerate_NoDup l i s :
  NoDup (dict_keys (results s)) →
  NoDup (dict_keys (results (for_enumerate body i l s).2)).
Proof.
  apply (for_enumerate_preserves
           (λ s s', NoDup (dict_keys (results s)) →
                    NoDup (dict_keys (results s'))));
    [done|by eauto|].
  intros j x s0 Hnd. unfold body.
  destruct (loop_body_frame w args out dir coll ts n j x s0)
    as (_ & (rec & -> & _) & _).
  by apply NoDup_dict_keys_set.
Qed.

(** Without directory output the loop writes no file. *)
Lemma for_enumerate_files_no_dir l i s :
  out = None ∨ dir = false → files (for_enumerate body i l s).2 = files s.
Proof.
  intros Hout.
  apply (for_enumerate_preserves (λ s s', files s' = files s));
    [done|congruence|].
  intros j x s0. apply loop_body_frame. by right.
Qed.

(** While no fetch returns, the loop writes no file. *)
Lemma for_enumerate_files_no_fetch l : ∀ i s,
  (∀ k a, l !! k = Some a → ∃ e, fetch_outcome w (i + k) a = inl e) →
  files (for_enumerate body i l s).2 = files s.
Proof.
  induction l as [|x xs IH]; intros i s Hfail; [done|].
  rewrite for_enumerate_step.
  destruct (loop_body_frame w args out dir coll ts n i x s)
    as (_ & _ & _ & Hfiles).
  fold body in Hfiles.
  assert (files (body i x s).2 = files s) as Hx.
  { apply Hfiles. left. specialize (Hfail 0 x eq_refl).
    by rewrite Nat.add_0_r in Hfail. }
  destruct (body i x s) as [[e|[]] s']; simpl in *; [done|].
  rewrite IH; [done|]. intros k a Hk.
  specialize (Hfail (S k) a Hk). by rewrite Nat.add_succ_r in Hfail.
Qed.

(** Only the addresses of the list get a record. *)
Lemma for_enumerate_keys_sub l : ∀ i s a,
  a ∈ dict_keys (results (for_enumerate body i l s).2) →
  a ∈ dict_keys (results s) ∨ a ∈ l.
Proof.
  induction l as [|x xs IH]; intros i s a; [by left|].
  rewrite for_enumerate_step.
  destruct (loop_body_frame w args out dir coll ts n i x s)
    as (_ & (rec & Hres & _) & _).
  fold body in Hres.
  destruct (body i x s) as [[e|[]] s']; simpl in *.
  - rewrite Hres, elem_of_dict_keys_set, elem_of_cons. tauto.
  - intros Ha. apply IH in Ha. revert Ha.
    rewrite Hres, elem_of_dict_keys_set, elem_of_cons. tauto.
Qed.

(** A loop that returns has given every address of the list a record. *)
Lemma for_enumerate_keys_all l : ∀ i s a,
  (for_enumerate body i l s).1 = inr tt →
  a ∈ l → a ∈ dict_keys (results (for_enumerate body i l s).2).
Proof.
  induction l as [|x xs IH]; intros i s a; [by intros _ ?%elem_of_nil|].
  rewrite for_enumerate_step.
  destruct (loop_body_frame w args out dir coll ts n i x s)
    as (_ & (rec & Hres & _) & _).
  fold body in Hres.
  destruct (body i x s) as [[e|[]] s']; simpl in *; [done|].
  intros Hret [->|Ha]%elem_of_cons; [|by apply IH].
  apply for_enumerate_keys_mono. rewrite Hres.
  apply elem_of_dict_keys_set. by left.
Qed.

(** The record of an address that the loop does not meet stays. *)
Lemma for_enumerate_get_other l : ∀ i s a,
  a ∉ l →
  dict_get a (results (for_enumerate body i l s).2) = dict_get a (results s).
Proof.
  induction l as [|x xs IH]; intros i s a Ha; [done|].
  apply not_elem_of_cons in Ha as [Hne Ha].
  rewrite for_enumerate_step.
  destruct (loop_body_frame w args out dir coll ts n i x s)
    as (_ & (rec & Hres & _) & _).
  fold body in Hres.
  destruct (body i x s) as [[e|[]] s']; simpl in *.
  - by rewrite Hres, dict_get_set_ne.
  - by rewrite IH, Hres, dict_get_set_ne.
Qed.

(** The record of an address is the one of its last occurrence. *)
Lemma for_enumerate_last pre : ∀ i s a post,
  (for_enumerate body i (pre ++ a :: post) s).1 = inr tt →
  a ∉ post →
  dict_get a (results (for_enumerate body i (pre ++ a :: post) s).2)
  = Some (iteration_record w ts (i + length pre) a).
Proof.
  induction pre as [|x pre IH]; intros i s a post; simpl app;
    rewrite for_enumerate_step.
  - destruct (loop_body_frame w args out dir coll ts n i a s)
      as (_ & (rec & Hres & Hrec) & _).
    fold body in Hres, Hrec.
    destruct (body i a s) as [[e|[]] s']; simpl in *; [done|].
    intros _ Ha. rewrite for_enumerate_get_other by done.
    rewrite Hres, dict_get_set_eq, Nat.add_0_r. f_equal. by apply Hrec.
  - destruct (body i x s) as [[e|[]] s']; simpl in *; [done|].
    intros Hret Ha. rewrite IH by done. do 2 f_equal. lia.
Qed.

End Loop.

(** ** The run as a whole *)

Lemma outcome_eta (x : (exn + unit) * state) : x.1 = inr tt → x = (inr tt, x.2).
Proof. destruct x as [r s]. simpl. by intros ->. Qed.

(** The loop of the run on the file system [fs], followed by the final
    output. *)
Lemma run_reaches_loop w args fs :
  missing (API_KEY w) = false →
  missing (MONGO_URI w) = false →
  addresses_of w args ≠ [] →
  mongo_client w = None →
  mongo_ping w = None →
  mongo_database w (MONGO_DB w) = None →
  mongo_collection w (MONGO_COLLECTION w) = None →
  run w args fs
  = (for_enumerate
       (loop_body w args (out_of args) (out_is_dir_of args fs)
          (MONGO_DB w, MONGO_COLLECTION w) (clock w 0)
          (length (addresses_of w args)))
       1 (addresses_of w args) >>
     final_output w (out_of args) (out_is_dir_of args fs))
      (mkState [] fs 1 []).
Proof.
  intros Hkey Huri Haddr Hclient Hping Hdb Hcoll.
  unfold run, script, main, mongo_connect. rewrite Hkey, Huri.
  fold (addresses_of w args).
  destruct (addresses_of w args) as [|a l] eqn:Ha; [done|].
  run_monad. rewrite Hclient, Hping, Hdb, Hcoll. reflexivity.
Qed.

(** The ways in which a run ends before its loop: with one line on the
    diagnostic stream and nothing else done. *)
Lemma run_exits_early w args fs :
  (missing (API_KEY w) = true ∨ missing (MONGO_URI w) = true
   ∨ addresses_of w args = [] →
   ∃ line, run w args fs = (inl (SystemExit 2), mkState [] fs 0 [Stderr line]))
  ∧ (missing (API_KEY w) = false → missing (MONGO_URI w) = false →
     addresses_of w args ≠ [] →
     (∃ msg, mongo_client w = Some msg
             ∨ mongo_client w = None ∧ mongo_ping w = Some msg) →
     ∃ line, run w args fs = (inl (SystemExit 3), mkState [] fs 0 [Stderr line])).
Proof.
  split.
  - intros Hcase. unfold run, script.
    destruct (missing (API_KEY w)) eqn:Hkey; [by eexists|].
    destruct (missing (MONGO_URI w)) eqn:Huri; [by eexists|].
    destruct Hcase as [?|[?|Haddr]]; [done|done|].
    unfold main. fold (addresses_of w args). rewrite Haddr. by eexists.
  - intros Hkey Huri Haddr [msg Hmongo]. unfold run, script, main, mongo_connect.
    rewrite Hkey, Huri. fold (addresses_of w args).
    destruct (addresses_of w args) as [|a l] eqn:Ha; [done|].
    run_monad.
    destruct Hmongo as [-> | [-> ->]]; by eexists.
Qed.

(** A name that the driver refuses ends the run in the same way, after the
    ping. *)
Lemma run_exits_on_name w args fs :
  missing (API_KEY w) = false → missing (MONGO_URI w) = false →
  addresses_of w args ≠ [] →
  mongo_client w = None → mongo_ping w = None →
  (∃ msg, mongo_database w (MONGO_DB w) = Some msg
          ∨ mongo_database w (MONGO_DB w) = None
            ∧ mongo_collection w (MONGO_COLLECTION w) = Some msg) →
  ∃ line, run w args fs = (inl (SystemExit 3), mkState [] fs 0 [Stderr line]).
Proof.
  intros Hkey Huri Haddr Hclient Hping [msg Hname].
  unfold run, script, main, mongo_connect.
  rewrite Hkey, Huri. fold (addresses_of w args).
  destruct (addresses_of w args) as [|a l] eqn:Ha; [done|].
  run_monad. rewrite Hclient, Hping.
  destruct Hname as [-> | [-> ->]]; by eexists.
Qed.

(** Every run either ends before its loop, leaving the file system as it
    is, or reaches its loop. *)
Lemma run_cases w args fs :
  (∃ code line,
     run w args fs = (inl (SystemExit code), mkState [] fs 0 [Stderr line]))
  ∨ (addresses_of w args ≠ []
     ∧ run w args fs
       = (for_enumerate
            (loop_body w args (out_of args) (out_is_dir_of args fs)
               (MONGO_DB w, MONGO_COLLECTION w) (clock w 0)
               (length (addresses_of w args)))
            1 (addresses_of w args) >>
          final_output w (out_of args) (out_is_dir_of args fs))
           (mkState [] fs 1 [])).
Proof.
  destruct (run_exits_early w args fs) as [H2 H3].
  destruct (missing (API_KEY w)) eqn:Hkey.
  { left. destruct H2 as [line ->]; eauto. }
  destruct (missing (MONGO_URI w)) eqn:Huri.
  { left. destruct H2 as [line ->]; eauto. }
  destruct (decide (addresses_of w args = [])) as [Haddr|Haddr].
  { left. destruct H2 as [line ->]; eauto. }
  destruct (mongo_client w) as [msg|] eqn:Hclient.
  { left. destruct H3 as [line ->]; eauto. }
  destruct (mongo_ping w) as [msg|] eqn:Hping.
  { left. destruct H3 as [line ->]; eauto. }
  pose proof (run_exits_on_name w args fs Hkey Huri Haddr Hclient Hping)
    as Hname.
  destruct (mongo_database w (MONGO_DB w)) as [msg|] eqn:Hdb.
  { left. destruct Hname as [line ->]; eauto. }
  destruct (mongo_collection w (MONGO_COLLECTION w)) as [msg|] eqn:Hcoll.
  { left. destruct Hname as [line ->]; eauto. }
  right. split; [done|]. by apply run_reaches_loop.
Qed.



(** The final output reads no clock and prints; it makes no insert. *)
Lemma final_output_frame w out dir ts s :
  clock_reads (final_output w out dir s).2 = clock_reads s
  ∧ results (final_output w out dir s).2 = results s
  ∧ ∃ evs, trace (final_output w out dir s).2 = trace s ++ evs
           ∧ Forall (stamped ts) evs.
Proof.
  unfold final_output, save_result, path_mkdir_parents, path_write_text.
  run_monad.
  split_outcomes; (split; [done|]); (split; [done|]); eexists;
    (split; [simpl; rewrite <- ?app_assoc; reflexivity|]);
    repeat first [apply Forall_nil_2 | apply Forall_cons_2]; done.
Qed.




(** A run on a clock that advances: two documents, one timestamp. *)
Example single_run_timestamp_ex :
  filter (λ ev, is_InsertOne ev = true)
    (trace (run (Sample.world_of "good,unstored") (Sample.args None None) ∅).2)
  = [InsertOne "mobula" "Token"
       (mkDocument "good" 1700000000000000 (JArr [JInt 1; JInt 2]));
     InsertOne "mobula" "Token"
       (mkDocument "unstored" 1700000000000000 (JArr [JInt 1; JInt 2]))].
Proof. vm_refl. Qed.

(** The final output prints the mapping as it stands. *)
Lemma final_output_prints w out dir s :
  Stdout (json_dumps w (results_json (results s)))
  ∈ trace (final_output w out dir s).2.
Proof.
  unfold final_output, save_result, path_mkdir_parents, path_write_text.
  run_monad.
  split_outcomes; simpl; rewrite ?elem_of_app, ?list_elem_of_singleton;
    tauto.
Qed.

(** C4: in a run that ends normally, the mapping that is printed holds
    exactly one entry for each address of the list, under that address, and
    for no other key; the entry of an address that occurs several times is
    the record of its last occurrence. *)
Theorem one_record_per_address (w : World) (args : Args)
    (fs : gmap Path Pathlib.node) (s_final : state) :
  run w args fs = (inr tt, s_final) →
  NoDup (dict_keys (results s_final))
  ∧ (∀ a, a ∈ dict_keys (results s_final) ↔ a ∈ addresses_of w args)
  ∧ (∀ pre a post,
       addresses_of w args = pre ++ a :: post → a ∉ post →
       dict_get a (results s_final)
       = Some (iteration_record w (clock w 0) (S (length pre)) a))
  ∧ Stdout (json_dumps w (results_json (results s_final))) ∈ trace s_final.
Proof.
  intros Hrun.
  destruct (run_cases w args fs) as [(code & line & Hexit)|[Haddr Hloop]];
    [congruence|].
  rewrite Hloop in Hrun. revert Hrun. unfold bind.
  set (body := loop_body w args (out_of args) (out_is_dir_of args fs)
                 (MONGO_DB w, MONGO_COLLECTION w) (clock w 0)
                 (length (addresses_of w args))).
  set (s0 := mkState [] fs 1 []).
  pose proof (for_enumerate_NoDup w args (out_of args) (out_is_dir_of args fs)
                (MONGO_DB w, MONGO_COLLECTION w) (clock w 0)
                (length (addresses_of w args)) (addresses_of w args) 1 s0)
    as Hnd.
  pose proof (for_enumerate_keys_sub w args (out_of args)
                (out_is_dir_of args fs) (MONGO_DB w, MONGO_COLLECTION w)
                (clock w 0) (length (addresses_of w args))
                (addresses_of w args) 1 s0) as Hsub.
  pose proof (for_enumerate_keys_all w args (out_of args)
                (out_is_dir_of args fs) (MONGO_DB w, MONGO_COLLECTION w)
                (clock w 0) (length (addresses_of w args))
                (addresses_of w args) 1 s0) as Hall.
  pose proof (λ pre a post (E : addresses_of w args = pre ++ a :: post),
              for_enumerate_last w args (out_of args) (out_is_dir_of args fs)
                (MONGO_DB w, MONGO_COLLECTION w) (clock w 0)
                (length (addresses_of w args)) pre 1 s0 a post) as Hlast.
  fold body in Hnd, Hsub, Hall, Hlast.
  destruct (for_enumerate body 1 (addresses_of w args) s0) as [[e|[]] s1] eqn:Hfor;
    [done|].
  simpl in Hnd, Hsub, Hall.
  pose proof (final_output_frame w (out_of args) (out_is_dir_of args fs) 0%Z s1)
    as (_ & Hres & _).
  pose proof (final_output_prints w (out_of args) (out_is_dir_of args fs) s1)
    as Hprint.
  destruct (final_output _ _ _ s1) as [r s2]. simpl in Hres, Hprint.
  intros [= -> ->]. rewrite Hres. split_and!.
  - apply Hnd. simpl. apply NoDup_nil_2.
  - intros a. split.
    + intros Ha. destruct (Hsub a Ha) as [Hin|Hin]; [|done].
      simpl in Hin. by apply elem_of_nil in Hin.
    + by apply Hall.
  - intros pre a post E Ha. specialize (Hlast pre a post E).
    rewrite <- E, Hfor in Hlast. simpl in Hlast. by apply Hlast.
  - done.
Qed.

(** Runs without an output path end normally, whatever the server answers
    and whether the store accepts the documents or refuses them: the setup
    succeeds, the documents can be encoded and the delay is one that
    [time.sleep] takes. *)
Lemma run_returns_without_output w args fs :
  missing (API_KEY w) = false →
  missing (MONGO_URI w) = false →
  addresses_of w args ≠ [] →
  mongo_client w = None →
  mongo_ping w = None →
  mongo_database w (MONGO_DB w) = None →
  mongo_collection w (MONGO_COLLECTION w) = None →
  out_argument args = None →
  sleepable (Py.max 0 (args_delay args)) = true →
  (∀ i doc me, insert_one w i doc ≠ Some (EncodingFailure me)) →
  (run w args fs).1 = inr tt.
Proof.
  intros Hkey Huri Haddr Hclient Hping Hdb Hcoll Hout Hsleep Henc.
  rewrite (run_reaches_loop w args fs Hkey Huri Haddr Hclient Hping Hdb
             Hcoll).
  unfold out_of, out_is_dir_of. rewrite Hout. simpl.
  assert (∀ coll ts n i x s,
            (loop_body w args None false coll ts n i x s).1 = inr tt) as Hbody.
  { intros coll ts n i x s.
    destruct (fetch_outcome_cases w i x)
      as [[data Hf]|[(msg & resp & Hf)|[msg Hf]]].
    - rewrite (loop_body_fetched _ _ _ _ _ _ _ _ _ _ _ Hf).
      unfold after_fetch, fetched_state, store_to_mongo, save_per_address,
        time_sleep, insert_handler, insert_exn.
      run_monad.
      destruct (insert_one w i _) as [[me|me]|] eqn:Hins; simpl;
        [|by destruct (Henc _ _ _ Hins)|]; by rewrite Hsleep.
    - by rewrite (loop_body_http_error _ _ _ _ _ _ _ _ _ _ _ _ Hf).
    - by rewrite (loop_body_request_error _ _ _ _ _ _ _ _ _ _ _ Hf). }
  unfold bind.
  assert (∀ l coll ts n i s,
            (for_enumerate (loop_body w args None false coll ts n) i l s).1
            = inr tt) as Hloop.
  { induction l as [|x xs IH]; intros coll ts n i s; [done|].
    rewrite for_enumerate_step. specialize (Hbody coll ts n i x s).
    destruct (loop_body _ _ _ _ _ _ _ i x s) as [[e|[]] s']; simpl in Hbody;
      [done|apply IH]. }
  specialize (Hloop (addresses_of w args) (MONGO_DB w, MONGO_COLLECTION w)
                (clock w 0) (length (addresses_of w args)) 1
                (mkState [] fs 1 [])).
  by destruct (for_enumerate _ 1 _ _) as [[e|[]] s1].
Qed.

Lemma one_record_per_address_witness :
  let w := Sample.world_of "good, missing,down,unstored, good" in
  let s_final := (run w (Sample.args None (Some "results.json")) ∅).2 in
  dict_keys (results s_final) = ["good"; "missing"; "down"; "unstored"]
  ∧ dict_get "good" (results s_final) = Some RecOk.
Proof.
  intros w s_final. split; [vm_refl|].
  transitivity (Some (iteration_record w (clock w 0) 5 "good")); [|vm_refl].
  refine (proj1 (proj2 (proj2
            (one_record_per_address w (Sample.args None (Some "results.json"))
               ∅ s_final _)))
            ["good"; "missing"; "down"; "unstored"] "good" [] _ _).
  - apply outcome_eta. vm_refl.
  - vm_refl.
  - apply not_elem_of_nil.
Defined.

(** ** Output handling *)



(** An iteration with directory output that returns after its fetch has
    written the file of the address. *)
Lemma loop_body_writes_file w args out coll ts n i addr s data s' :
  fetch_outcome w i addr = inr data →
  loop_body w args (Some out) true coll ts n i addr s = (inr tt, s') →
  ∃ fs1,
    Pathlib.mkdir_parents (files s)
      (Pathlib.parent (Pathlib.joinpath out (addr +:+ ".json"))) = inr fs1
    ∧ Pathlib.write_text fs1 (Pathlib.joinpath out (addr +:+ ".json"))
        (json_dumps w data) = inr (files s').
Proof.
  intros Hf. rewrite (loop_body_fetched _ _ _ _ _ _ _ _ _ _ _ Hf).
  unfold after_fetch, fetched_state, store_to_mongo, save_per_address,
    save_result, path_mkdir_parents, path_write_text, time_sleep,
    insert_handler, insert_exn.
  run_monad.
  destruct (insert_one w i _) as [[me|me]|] eqn:Hins; simpl;
    split_outcomes; intros [= <-]; simpl;
    (eexists; split; done).
Qed.



(** ** Exceptions in the loop *)

(** An iteration with directory output whose fetch returned and whose
    per-address file cannot be written raises the [OSError]. *)
Lemma loop_body_save_fails w args out coll ts n i addr s data msg :
  fetch_outcome w i addr = inr data →
  (∀ me, insert_one w i (mkDocument addr ts data)
         ≠ Some (EncodingFailure me)) →
  (Pathlib.mkdir_parents (files s)
     (Pathlib.parent (Pathlib.joinpath out (addr +:+ ".json"))) = inl msg
   ∨ ∃ fs1,
       Pathlib.mkdir_parents (files s)
         (Pathlib.parent (Pathlib.joinpath out (addr +:+ ".json"))) = inr fs1
       ∧ Pathlib.write_text fs1 (Pathlib.joinpath out (addr +:+ ".json"))
           (json_dumps w data) = inl msg) →
  (loop_body w args (Some out) true coll ts n i addr s).1 = inl (OSError msg).
Proof.
  intros Hf Hins Hsave. rewrite (loop_body_fetched _ _ _ _ _ _ _ _ _ _ _ Hf).
  unfold after_fetch, fetched_state, store_to_mongo, save_per_address,
    save_result, path_mkdir_parents, path_write_text, insert_handler,
    insert_exn.
  run_monad.
  destruct (insert_one w i _) as [[me|me]|] eqn:Hi; simpl;
    [|by destruct (Hins me)|];
    (destruct Hsave as [->|(fs1 & -> & Hwr)]; simpl;
     [done|by rewrite Hwr]).
Qed.

(** C9, as the code has it: the clauses of the loop's own [try] catch the
    two request-level exception types and nothing else; the [try] around
    the insert catches the error type of the document store and nothing
    else.  Any exception that an iteration raises ends the loop and the
    run there: the state is the one that the iteration left, in which, of
    the addresses without a record before, only the current one can have
    one, and to which nothing is printed but the first line of the
    iteration, so the final summary is missing.  A file system error during
    the write of the per-address file is such an exception. *)
Theorem loop_exception_handling (w : World) (args : Args) (out : option Path)
    (dir : bool) (coll : string * string) (ts : Z) (n : nat) :
  (∀ addr e,
     is_Some (fetch_handler addr e)
     ↔ (∃ msg response, e = HTTPError msg response)
       ∨ (∃ msg, e = RequestException msg))
  ∧ (∀ addr e, is_Some (insert_handler addr e) ↔ ∃ msg, e = PyMongoError msg)
  ∧ (∀ i addr rest s e s1,
       loop_body w args out dir coll ts n i addr s = (inl e, s1) →
       (for_enumerate (loop_body w args out dir coll ts n) i (addr :: rest) >>
        final_output w out dir) s = (inl e, s1)
       ∧ (∀ a, a ∈ dict_keys (results s1) →
               a ∈ dict_keys (results s) ∨ a = addr)
       ∧ ∃ evs, trace s1 = trace s ++ evs
                ∧ Forall (iteration_event w ts n i addr) evs)
  ∧ (∀ p i addr s data msg,
       fetch_outcome w i addr = inr data →
       (∀ me, insert_one w i (mkDocument addr ts data)
              ≠ Some (EncodingFailure me)) →
       (Pathlib.mkdir_parents (files s)
          (Pathlib.parent (Pathlib.joinpath p (addr +:+ ".json"))) = inl msg
        ∨ ∃ fs1,
            Pathlib.mkdir_parents (files s)
              (Pathlib.parent (Pathlib.joinpath p (addr +:+ ".json")))
            = inr fs1
            ∧ Pathlib.write_text fs1 (Pathlib.joinpath p (addr +:+ ".json"))
                (json_dumps w data) = inl msg) →
       (loop_body w args (Some p) true coll ts n i addr s).1
       = inl (OSError msg)).
Proof.
  split_and!.
  - intros addr e. split.
    + intros [h Hh]. destruct e; try discriminate Hh; eauto.
    + intros [(msg & r & ->)|(msg & ->)]; by eexists.
  - intros addr e. split.
    + intros [h Hh]. destruct e; try discriminate Hh; eauto.
    + intros (msg & ->). by eexists.
  - intros i addr rest s e s1 Hbody.
    destruct (loop_body_frame w args out dir coll ts n i addr s)
      as (_ & (rec & Hres & _) & Hevs & _).
    rewrite Hbody in Hres, Hevs. simpl in Hres, Hevs. split_and!.
    + unfold bind at 1. by rewrite (for_enumerate_raise _ _ _ _ _ _ _ Hbody).
    + intros a. rewrite Hres, elem_of_dict_keys_set. tauto.
    + done.
  - intros p i addr s data msg. apply loop_body_save_fails.
Qed.

Lemma loop_exception_handling_witness :
  let w := Sample.world_of "good, missing" in
  let fs : gmap Path Pathlib.node := {[ ["results"] := Pathlib.File "taken" ]} in
  (loop_body w (Sample.args None (Some "results")) (Some ["results"]) true
     ("mobula", "Token") (clock w 0) 2 1 "good" (mkState [] fs 1 [])).1
  = inl (OSError "File exists: results")
  ∧ (run w (Sample.args None (Some "results")) fs).1
    = inl (OSError "File exists: results")
  ∧ dict_keys (results (run w (Sample.args None (Some "results")) fs).2)
    = ["good"]
  ∧ filter (λ ev, is_Stdout ev = true)
      (trace (run w (Sample.args None (Some "results")) fs).2)
    = [Stdout (querying 1 2 "good")].
Proof.
  intros w fs. split_and!; [|vm_refl|vm_refl|vm_refl].
  apply (proj2 (proj2 (proj2
           (loop_exception_handling w (Sample.args None (Some "results"))
              (Some ["results"]) true ("mobula", "Token") (clock w 0) 2)))
           ["results"] 1 "good" (mkState [] fs 1 []) (JArr [JInt 1; JInt 2])).
  - vm_refl.
  - intros me. vm_compute. discriminate.
  - left. vm_refl.
Defined.

(** C9 as stated fails on the insert: the [PyMongoError] that
    [store_to_mongo] raises inside the loop body is neither of the two
    request-level types, the clauses of the loop's own [try] do not match
    it, and yet it does not propagate: the iteration returns and the loop
    goes on to the next address. *)
Lemma pymongo_error_caught_counterexample :
  (store_to_mongo Sample.world 1 ("mobula", "Token") "unstored"
     (JArr [JInt 1; JInt 2]) 0 (initial ∅)).1
  = inl (PyMongoError "not primary")
  ∧ fetch_handler "unstored" (PyMongoError "not primary") = None
  ∧ (loop_body Sample.world (Sample.args None None) None false
       ("mobula", "Token") 0 2 1 "unstored" (initial ∅)).1 = inr tt
  ∧ (for_enumerate
       (loop_body Sample.world (Sample.args None None) None false
          ("mobula", "Token") 0 2) 1 ["unstored"; "good"] (initial ∅)).1
    = inr tt
  ∧ results
      (for_enumerate
         (loop_body Sample.world (Sample.args None None) None false
            ("mobula", "Token") 0 2) 1 ["unstored"; "good"] (initial ∅)).2
    = [("unstored", RecMongoError "not primary"); ("good", RecOk)].
Proof. split_and!; [vm_refl|reflexivity|vm_refl|vm_refl|vm_refl]. Qed.

(** ** The output directory *)

Lemma split_on_no_slash s :
  no_slash s = true → Py.split_on Pathlib.is_slash s = [s].
Proof.
  induction s as [|c s IH]; simpl; [done|].
  intros [Hc Hs]%andb_true_iff. apply negb_true_iff in Hc.
  by rewrite Hc, IH.
Qed.

Lemma no_slash_app a b :
  no_slash a = true → no_slash b = true → no_slash (a +:+ b) = true.
Proof.
  intros Ha Hb. induction a as [|c a IH]; simpl in *; [done|].
  apply andb_true_iff in Ha as [Hc Ha]. by rewrite Hc, IH.
Qed.

Lemma no_slash_not_root x : no_slash x = true → Pathlib.is_root x = false.
Proof.
  intros Hx. unfold Pathlib.is_root.
  destruct (String.eqb_spec x "/") as [->|_]; [done|].
  by destruct (String.eqb_spec x "//") as [->|_].
Qed.

Lemma length_app_json addr : String.length (addr +:+ ".json") ≥ 5.
Proof. induction addr as [|c a IH]; simpl; lia. Qed.

(** The file of an address without slash lies directly under [out]. *)
Lemma joinpath_json out addr :
  no_slash addr = true →
  Pathlib.joinpath out (addr +:+ ".json") = out ++ [addr +:+ ".json"]
  ∧ Pathlib.parent (out ++ [addr +:+ ".json"]) = out.
Proof.
  intros Haddr.
  assert (no_slash (addr +:+ ".json") = true) as Hx by by apply no_slash_app.
  pose proof (length_app_json addr) as Hlen.
  set (x := addr +:+ ".json") in *.
  assert (Pathlib.root_of x = []) as Hroot.
  { destruct x as [|c x]; [done|]. simpl in Hx.
    apply andb_true_iff in Hx as [Hc _]. apply negb_true_iff in Hc.
    unfold Pathlib.is_slash in Hc. apply Ascii.eqb_neq in Hc.
    unfold Pathlib.root_of.
    destruct c as [[] [] [] [] [] [] [] []]; try done. }
  split.
  - unfold Pathlib.joinpath, Pathlib.of_string. rewrite Hroot. simpl.
    rewrite split_on_no_slash by done.
    rewrite filter_cons_True; [done|].
    split; intros ->; simpl in Hlen; lia.
  - destruct out as [|o [|o' out]].
    + unfold Pathlib.parent. simpl. by rewrite no_slash_not_root.
    + done.
    + change (Pathlib.parent ((o :: o' :: out) ++ [x]))
        with (removelast ((o :: o' :: out) ++ [x])).
      apply removelast_last.
Qed.

Lemma node_at_insert_dir fs q : Pathlib.node_at (<[q := Pathlib.Dir]> fs) q = Some Pathlib.Dir.
Proof.
  unfold Pathlib.node_at. destruct q as [|r [|r' q]]; [done| |].
  - destruct (Pathlib.is_root r); [done|]. apply lookup_insert_eq.
  - apply lookup_insert_eq.
Qed.

Lemma node_at_insert_ne fs q q' nd :
  q ≠ q' → Pathlib.node_at (<[q := nd]> fs) q' = Pathlib.node_at fs q'.
Proof.
  intros Hne. unfold Pathlib.node_at. destruct q' as [|r [|r' q']]; [done| |].
  - destruct (Pathlib.is_root r); [done|]. by apply lookup_insert_ne.
  - by apply lookup_insert_ne.
Qed.

(** [mkdir] with parents keeps the directories there are and leaves a
    directory at the path. *)
Lemma mkdir_from_inr rest : ∀ fs prefix fs',
  Pathlib.mkdir_from fs prefix rest = inr fs' →
  (∀ q, Pathlib.node_at fs q = Some Pathlib.Dir →
        Pathlib.node_at fs' q = Some Pathlib.Dir)
  ∧ (rest ≠ [] → Pathlib.node_at fs' (prefix ++ rest) = Some Pathlib.Dir).
Proof.
  induction rest as [|c rest IH]; intros fs prefix fs'; simpl.
  - intros [= ->]. by split.
  - destruct (Pathlib.node_at fs (prefix ++ [c])) as [[|content]|] eqn:Hq;
      [|done|]; intros Hmk; apply IH in Hmk as [Hkeep Hnew].
    + split; [done|]. intros _. destruct rest as [|c' rest].
      * by apply Hkeep.
      * rewrite cons_middle, app_assoc. by apply Hnew.
    + assert (∀ q, Pathlib.node_at fs q = Some Pathlib.Dir →
                   Pathlib.node_at fs' q = Some Pathlib.Dir) as Hkeep'.
      { intros q Hdir. apply Hkeep.
        destruct (decide (prefix ++ [c] = q)) as [<-|Hne].
        - apply node_at_insert_dir.
        - by rewrite node_at_insert_ne. }
      split; [done|]. intros _. destruct rest as [|c' rest].
      * apply Hkeep. apply node_at_insert_dir.
      * rewrite cons_middle, app_assoc. by apply Hnew.
Qed.

Lemma mkdir_parents_is_dir fs p fs' :
  Pathlib.mkdir_parents fs p = inr fs' → Pathlib.is_dir fs' p = true.
Proof.
  unfold Pathlib.mkdir_parents, Pathlib.is_dir. intros Hmk.
  destruct p as [|c p]; [done|].
  apply mkdir_from_inr in Hmk as [_ Hnew].
  change ([] ++ c :: p) with (c :: p) in Hnew. by rewrite Hnew.
Qed.

Lemma write_text_keeps_dir fs p content fs' q :
  Pathlib.write_text fs p content = inr fs' →
  Pathlib.is_dir fs q = true → Pathlib.is_dir fs' q = true.
Proof.
  unfold Pathlib.write_text, Pathlib.is_dir.
  destruct (Pathlib.node_at fs p) as [[|c]|] eqn:Hp; [done| |];
    (destruct (Pathlib.node_at fs (Pathlib.parent p)) as [[|c']|]; [|done|done];
     intros [= <-];
     destruct (decide (p = q)) as [<-|Hne];
     [by rewrite Hp|by rewrite node_at_insert_ne]).
Qed.

(** [mkdir] with parents leaves a directory at every step of the way. *)
Lemma mkdir_from_prefixes rest : ∀ fs prefix fs' k,
  Pathlib.mkdir_from fs prefix rest = inr fs' →
  1 ≤ k ≤ length rest →
  Pathlib.node_at fs' (prefix ++ take k rest) = Some Pathlib.Dir.
Proof.
  induction rest as [|c rest IH]; intros fs prefix fs' k; simpl; [lia|].
  intros Hmk Hk. destruct k as [|k]; [lia|]. simpl.
  assert (∃ fs1, Pathlib.mkdir_from fs1 (prefix ++ [c]) rest = inr fs'
                 ∧ Pathlib.node_at fs1 (prefix ++ [c]) = Some Pathlib.Dir)
    as (fs1 & Hrest & Hq).
  { destruct (Pathlib.node_at fs (prefix ++ [c])) as [[|content]|] eqn:Hq;
      [by eauto|done|].
    eexists. split; [exact Hmk|]. apply node_at_insert_dir. }
  destruct k as [|k].
  - rewrite take_0. apply mkdir_from_inr in Hrest as [Hkeep _].
    by apply Hkeep.
  - rewrite cons_middle, app_assoc. apply (IH _ _ _ _ Hrest). lia.
Qed.

Lemma mkdir_parents_prefix fs out rest fs' :
  Pathlib.mkdir_parents fs (out ++ rest) = inr fs' →
  Pathlib.is_dir fs' out = true.
Proof.
  unfold Pathlib.mkdir_parents, Pathlib.is_dir. intros Hmk.
  destruct out as [|o out]; [done|].
  pose proof (mkdir_from_prefixes _ _ _ _ (length (o :: out)) Hmk) as Hdir.
  change ([] ++ ?l) with l in Hdir. rewrite take_app_length in Hdir.
  rewrite Hdir; [done|]. rewrite length_app. simpl. lia.
Qed.

(** The pieces between slashes hold no slash. *)
Lemma split_on_slash_parts s :
  Forall (λ c, no_slash c = true) (Py.split_on Pathlib.is_slash s).
Proof.
  induction s as [|c s IH]; simpl; [by repeat constructor|].
  destruct (Pathlib.is_slash c) eqn:Hc; [by constructor|].
  destruct IH as [|p ps Hp Hps]; constructor; simpl; try done.
  - by rewrite Hc.
  - by rewrite Hc, Hp.
Qed.

(** Appending text without slash extends the last piece. *)
Lemma split_on_app_tail a b :
  no_slash b = true →
  ∃ init l,
    Py.split_on Pathlib.is_slash a = init ++ [l]
    ∧ Py.split_on Pathlib.is_slash (a +:+ b) = init ++ [l +:+ b].
Proof.
  intros Hb. induction a as [|c a (init & l & Ha & Hab)]; simpl.
  - exists [], "". by rewrite split_on_no_slash.
  - rewrite Ha, Hab. destruct (Pathlib.is_slash c).
    + by exists ("" :: init), l.
    + destruct init as [|p init]; simpl.
      * by exists [], (String c l).
      * by exists (String c p :: init), l.
Qed.

Lemma parent_snoc q x :
  Pathlib.is_root x = false → Pathlib.parent (q ++ [x]) = q.
Proof.
  intros Hx. destruct q as [|o [|o' q]].
  - unfold Pathlib.parent. simpl. by rewrite Hx.
  - done.
  - change (Pathlib.parent ((o :: o' :: q) ++ [x]))
      with (removelast ((o :: o' :: q) ++ [x])).
    apply removelast_last.
Qed.

Lemma root_of_app_json addr :
  Pathlib.root_of addr = [] → Pathlib.root_of (addr +:+ ".json") = [].
Proof.
  destruct addr as [|c addr]; [done|]. unfold Pathlib.root_of. simpl.
  destruct c as [[] [] [] [] [] [] [] []]; try done;
    destruct addr as [|c' addr]; try done;
    destruct c' as [[] [] [] [] [] [] [] []]; try done;
    destruct addr as [|c'' addr]; try done;
    destruct c'' as [[] [] [] [] [] [] [] []]; done.
Qed.

(** The file of a relative address lies under [out]: its parent is [out]
    followed by the directories that the address names. *)
Lemma parent_joinpath_json out addr :
  Pathlib.root_of addr = [] →
  ∃ dirs, Pathlib.parent (Pathlib.joinpath out (addr +:+ ".json"))
          = out ++ dirs.
Proof.
  intros Hrel. unfold Pathlib.joinpath, Pathlib.of_string.
  rewrite (root_of_app_json _ Hrel). simpl.
  destruct (split_on_app_tail addr ".json" eq_refl) as (init & l & Ha & ->).
  pose proof (split_on_slash_parts addr) as Hparts.
  rewrite Ha in Hparts. apply Forall_app in Hparts as [_ Hl].
  apply Forall_inv in Hl.
  pose proof (length_app_json l) as Hlen.
  rewrite filter_app, filter_cons_True, filter_nil;
    [|split; intros E; rewrite E in Hlen; simpl in Hlen; lia].
  rewrite app_assoc. eexists. apply parent_snoc.
  apply no_slash_not_root. apply no_slash_app; [exact Hl|reflexivity].
Qed.

Lemma is_inl_raises (x : exn + Json) :
  match x with inl _ => true | inr _ => false end = true → ∃ e, x = inl e.
Proof. destruct x as [e|v]; [by eauto|done]. Qed.

(** Iterations whose fetch fails return. *)
Lemma for_enumerate_no_fetch_returns w args out dir coll ts n l : ∀ i s,
  (∀ k a, l !! k = Some a → ∃ e, fetch_outcome w (i + k) a = inl e) →
  (for_enumerate (loop_body w args out dir coll ts n) i l s).1 = inr tt.
Proof.
  induction l as [|x xs IH]; intros i s Hfail; [done|].
  rewrite for_enumerate_step.
  assert ((loop_body w args out dir coll ts n i x s).1 = inr tt) as Hx.
  { destruct (Hfail 0 x eq_refl) as [e He]. rewrite Nat.add_0_r in He.
    destruct (fetch_outcome_cases w i x)
      as [[data Hf]|[(msg & resp & Hf)|[msg Hf]]]; [congruence| |].
    - by rewrite (loop_body_http_error _ _ _ _ _ _ _ _ _ _ _ _ Hf).
    - by rewrite (loop_body_request_error _ _ _ _ _ _ _ _ _ _ _ Hf). }
  destruct (loop_body w args out dir coll ts n i x s) as [[e|[]] s'];
    simpl in Hx; [done|].
  apply IH. intros k a Hk. specialize (Hfail (S k) a Hk).
  by rewrite Nat.add_succ_r in Hfail.
Qed.

(** C10: with directory output nothing on the file system changes before
    the first fetch that returns.  A run of which no fetch returns leaves
    the file system as it found it, so no directory and no file appear; the
    iterations before the first fetch that returns leave it so as well; and
    the iteration of that fetch, when it returns, has made the output path
    a directory that holds the file of the address. *)
Theorem directory_created_by_first_write (w : World) (args : Args)
    (coll : string * string) (ts : Z) (n : nat) :
  (∀ fs,
     out_is_dir_of args fs = true →
     (∀ k a, addresses_of w args !! k = Some a →
             ∃ e, fetch_outcome w (S k) a = inl e) →
     files (run w args fs).2 = fs)
  ∧ (∀ out pre i s,
       (∀ k a, pre !! k = Some a → ∃ e, fetch_outcome w (i + k) a = inl e) →
       ∃ s1,
         for_enumerate (loop_body w args (Some out) true coll ts n) i pre s
         = (inr tt, s1)
         ∧ files s1 = files s)
  ∧ (∀ out i addr s data s',
       fetch_outcome w i addr = inr data →
       Pathlib.root_of addr = [] →
       loop_body w args (Some out) true coll ts n i addr s = (inr tt, s') →
       Pathlib.is_dir (files s') out = true
       ∧ files s' !! Pathlib.joinpath out (addr +:+ ".json")
         = Some (Pathlib.File (json_dumps w data))).
Proof.
  split_and!.
  - intros fs Hdir Hfail.
    destruct (run_cases w args fs) as [(code & line & ->)|[Haddr ->]];
      [done|].
    unfold bind.
    pose proof (for_enumerate_files_no_fetch w args (out_of args)
                  (out_is_dir_of args fs) (MONGO_DB w, MONGO_COLLECTION w)
                  (clock w 0) (length (addresses_of w args))
                  (addresses_of w args) 1 (mkState [] fs 1 []) Hfail) as Hfs.
    destruct (for_enumerate _ 1 _ _) as [[e|[]] s1]; simpl in Hfs; [done|].
    rewrite Hdir. unfold out_is_dir_of, out_of in *.
    destruct (out_argument args) as [o|]; [|done]. done.
  - intros out pre i s Hfail.
    exists (for_enumerate (loop_body w args (Some out) true coll ts n) i pre s).2.
    split.
    + apply outcome_eta. by apply for_enumerate_no_fetch_returns.
    + by apply for_enumerate_files_no_fetch.
  - intros out i addr s data s' Hf Haddr Hbody.
    destruct (loop_body_writes_file _ _ _ _ _ _ _ _ _ _ _ Hf Hbody)
      as (fs1 & Hmk & Hwr).
    destruct (parent_joinpath_json out addr Haddr) as [dirs Hparent].
    rewrite Hparent in Hmk. split.
    + eapply write_text_keeps_dir; [exact Hwr|].
      by apply mkdir_parents_prefix in Hmk.
    + apply write_text_inr in Hwr as ->. apply lookup_insert_eq.
Qed.

Lemma directory_created_by_first_write_witness :
  let w := Sample.world_of "missing, down" in
  let w' := Sample.world_of "missing, good" in
  files (run w (Sample.args None (Some "results")) ∅).2 = ∅
  ∧ Pathlib.is_dir (files (run w' (Sample.args None (Some "results")) ∅).2)
      ["results"] = true.
Proof.
  intros w w'. split.
  - apply (proj1 (directory_created_by_first_write w
                    (Sample.args None (Some "results")) ("mobula", "Token")
                    0%Z 2) ∅).
    + vm_refl.
    + assert (addresses_of w (Sample.args None (Some "results"))
              = ["missing"; "down"]) as -> by vm_refl.
      intros [|[|k]] a [= <-]; apply is_inl_raises; vm_refl.
  - vm_refl.
Defined.

(** * Further properties *)

(** ** Strings *)

Lemma append_nil_r s : s +:+ "" = s.
Proof. induction s as [|c s IH]; [done|]. change (String c (s +:+ "") = String c s). by rewrite IH. Qed.

Lemma append_cons c a b : String c a +:+ b = String c (a +:+ b).
Proof. done. Qed.

Lemma append_assoc a b c : (a +:+ b) +:+ c = a +:+ (b +:+ c).
Proof.
  induction a as [|x a IH]; [done|].
  rewrite !append_cons. by rewrite IH.
Qed.

Lemma rev_app_rev_app s a b :
  String.rev_app (String.rev_app s a) b = String.rev_app a (s +:+ b).
Proof.
  revert a b. induction s as [|c s IH]; intros a b; [done|].
  simpl String.rev_app. by rewrite IH.
Qed.

Lemma rev_involutive s : String.rev (String.rev s) = s.
Proof.
  unfold String.rev. rewrite rev_app_rev_app. simpl. apply append_nil_r.
Qed.

Lemma rev_app_append x y acc :
  String.rev_app (x +:+ y) acc = String.rev_app y (String.rev_app x acc).
Proof.
  revert acc. induction x as [|c x IH]; intros acc; [done|].
  rewrite append_cons. simpl. apply IH.
Qed.

Lemma rev_snoc x d : String.rev (x +:+ String d "") = String d (String.rev x).
Proof. unfold String.rev. by rewrite rev_app_append. Qed.

Lemma rev_app_last s : ∀ acc d,
  Py.last_char s = Some d → ∃ x, String.rev_app s acc = String d x.
Proof.
  induction s as [|c s IH]; intros acc d; [done|].
  destruct s as [|c' s'].
  - intros [= ->]. by eexists.
  - intros Hlast. simpl String.rev_app at 1.
    apply (IH (String c acc)). exact Hlast.
Qed.

Lemma last_char_rev_app s : ∀ acc,
  acc ≠ "" → Py.last_char (String.rev_app s acc) = Py.last_char acc.
Proof.
  induction s as [|c s IH]; intros acc Hacc; [done|].
  simpl String.rev_app. rewrite IH by done.
  by destruct acc.
Qed.

Lemma all_chars_rev_app q s : ∀ acc,
  all_chars q s = true → all_chars q acc = true →
  all_chars q (String.rev_app s acc) = true.
Proof.
  induction s as [|c s IH]; intros acc; simpl; [done|].
  intros [Hc Hs]%andb_true_iff Hacc. apply IH; [done|].
  simpl. by rewrite Hc.
Qed.

Lemma all_chars_append q a b :
  all_chars q (a +:+ b) = all_chars q a && all_chars q b.
Proof.
  induction a as [|c a IH]; [done|].
  rewrite append_cons. simpl. by rewrite IH, andb_assoc.
Qed.

Lemma all_chars_impl (q q' : ascii → bool) s :
  (∀ c, q c = true → q' c = true) →
  all_chars q s = true → all_chars q' s = true.
Proof.
  intros Hq. induction s as [|c s IH]; simpl; [done|].
  intros [Hc Hs]%andb_true_iff. by rewrite (Hq c Hc), IH.
Qed.

Lemma all_chars_last q s d :
  all_chars q s = true → Py.last_char s = Some d → q d = true.
Proof.
  induction s as [|c s IH]; [done|]. simpl.
  intros [Hc Hs]%andb_true_iff. destruct s as [|c' s'].
  - by intros [= <-].
  - by apply IH.
Qed.

(** ** Stripping *)

Lemma lstrip_by_head p c s :
  p c = false → Py.lstrip_by p (String c s) = String c s.
Proof. simpl. by intros ->. Qed.

Lemma lstrip_by_form p s :
  Py.lstrip_by p s = "" ∨ ∃ c t, Py.lstrip_by p s = String c t ∧ p c = false.
Proof.
  induction s as [|c s IH]; simpl; [by left|].
  destruct (p c) eqn:Hc; [done|]. right. by eauto.
Qed.

Lemma lstrip_by_idemp p s :
  Py.lstrip_by p (Py.lstrip_by p s) = Py.lstrip_by p s.
Proof.
  destruct (lstrip_by_form p s) as [->|(c & t & -> & Hc)]; [done|].
  by apply lstrip_by_head.
Qed.

Lemma last_char_lstrip_by p s d :
  Py.last_char s = Some d → p d = false →
  Py.last_char (Py.lstrip_by p s) = Some d.
Proof.
  intros Hlast Hd. induction s as [|c s IH]; [done|]. simpl Py.lstrip_by.
  destruct (p c) eqn:Hc; [|done].
  destruct s as [|c' s']; [|by apply IH].
  injection Hlast as ->. congruence.
Qed.

Lemma rstrip_by_idemp p s :
  Py.rstrip_by p (Py.rstrip_by p s) = Py.rstrip_by p s.
Proof.
  unfold Py.rstrip_by. by rewrite rev_involutive, lstrip_by_idemp.
Qed.

(** Stripping on the right keeps a first character that is not stripped. *)
Lemma rstrip_by_head p c t :
  p c = false → ∃ t', Py.rstrip_by p (String c t) = String c t'.
Proof.
  intros Hc. unfold Py.rstrip_by, String.rev at 2.
  apply rev_app_last. apply last_char_lstrip_by; [|done].
  simpl String.rev_app. by rewrite last_char_rev_app.
Qed.

(** [strip] is idempotent. *)
Lemma strip_by_idemp p s :
  Py.strip_by p (Py.strip_by p s) = Py.strip_by p s.
Proof.
  unfold Py.strip_by.
  destruct (lstrip_by_form p s) as [->|(c & t & -> & Hc)]; [done|].
  destruct (rstrip_by_head p c t Hc) as [t' Ht'].
  rewrite Ht', (lstrip_by_head _ _ _ Hc), <- Ht'. apply rstrip_by_idemp.
Qed.

(** A string whose ends are not stripped is left as it is. *)
Lemma strip_by_ends p c t d :
  p c = false → Py.last_char (String c t) = Some d → p d = false →
  Py.strip_by p (String c t) = String c t.
Proof.
  intros Hc Hlast Hd. unfold Py.strip_by. rewrite lstrip_by_head by done.
  unfold Py.rstrip_by.
  destruct (rev_app_last (String c t) "" d Hlast) as [x Hx].
  unfold String.rev at 2. rewrite Hx, lstrip_by_head by done.
  rewrite <- Hx. apply (rev_involutive (String c t)).
Qed.

Lemma last_char_cons c t : ∃ d, Py.last_char (String c t) = Some d.
Proof.
  revert c. induction t as [|c' t IH]; intros c; [by eexists|].
  destruct (IH c') as [d Hd]. exists d. exact Hd.
Qed.

Lemma strip_by_all p s :
  all_chars (λ c, negb (p c)) s = true → Py.strip_by p s = s.
Proof.
  destruct s as [|c t]; [done|]. intros Hall.
  destruct (last_char_cons c t) as [d Hlast].
  apply (strip_by_ends p c t d); [|done|].
  - simpl in Hall. apply andb_true_iff in Hall as [Hc _].
    by apply negb_true_iff.
  - apply negb_true_iff. by apply (all_chars_last _ _ _ Hall).
Qed.

(** ** The address list *)

Lemma stripped_parts_cons p ps :
  stripped_parts (p :: ps)
  = if Py.truthy (Py.strip p) then Py.strip p :: stripped_parts ps
    else stripped_parts ps.
Proof.
  unfold stripped_parts. rewrite fmap_cons.
  destruct (Py.truthy (Py.strip p)) eqn:Hp.
  - by rewrite filter_cons_True.
  - rewrite filter_cons_False; [done|]. by rewrite Hp.
Qed.

(** What the trimming keeps is trimmed and not empty, and trimming it again
    changes nothing. *)
Lemma stripped_parts_clean pieces :
  Forall (λ a, a ≠ "" ∧ Py.strip a = a) (stripped_parts pieces)
  ∧ stripped_parts (stripped_parts pieces) = stripped_parts pieces.
Proof.
  induction pieces as [|p ps [IH1 IH2]]; [by split|].
  rewrite stripped_parts_cons.
  destruct (Py.truthy (Py.strip p)) eqn:Hp; [|by split].
  assert (Py.strip (Py.strip p) = Py.strip p) as Hid by apply strip_by_idemp.
  split.
  - constructor; [|done]. split; [|done]. intros E. by rewrite E in Hp.
  - by rewrite stripped_parts_cons, Hid, Hp, IH2.
Qed.

Lemma load_from_env_parts getenv keys parts :
  load_from_env getenv keys = Some parts →
  ∃ pieces, parts = stripped_parts pieces.
Proof.
  induction keys as [|key keys IH]; simpl; [done|].
  destruct (env_parts (getenv key)) as [|a l] eqn:Hkey; [done|].
  intros [= <-]. unfold env_parts in Hkey.
  destruct (getenv key) as [v|]; [|done].
  destruct (Py.truthy v); [|done]. by eexists.
Qed.

Lemma load_addresses_parts env dotenv :
  (∃ pieces, load_addresses env dotenv = stripped_parts pieces)
  ∨ load_addresses env dotenv = [DEFAULT_ADDRESS].
Proof.
  unfold load_addresses.
  destruct (load_from_env _ _) as [parts|] eqn:Henv.
  - left. by apply load_from_env_parts in Henv.
  - destruct dotenv as [text|]; [|by right].
    destruct (extract_addresses_from_env_file text) as [|a l] eqn:Hfile;
      [by right|].
    left. rewrite <- Hfile. unfold extract_addresses_from_env_file.
    destruct (extract_by_key ADDRESS_KEYS text) as [parts|] eqn:Hkey.
    + revert Hkey. unfold ADDRESS_KEYS. simpl.
      repeat (destruct (Re.search_assignment _ text);
              [intros [= <-]; by eexists|]).
      done.
    + destruct (Re.search_long_quoted text); [by eexists|].
      by exists [].
Qed.

(** The trimming step of [main] finds nothing to do on what
    [load_addresses] returns. *)
Lemma clean_load_addresses env dotenv :
  clean_addresses (load_addresses env dotenv) = load_addresses env dotenv.
Proof.
  unfold clean_addresses.
  destruct (load_addresses_parts env dotenv) as [[pieces ->] | ->].
  - apply stripped_parts_clean.
  - by vm_compute.
Qed.

(** X1: [load_addresses] never returns an empty list; each address that it
    returns is not empty and carries no whitespace at its ends, so that the
    trimming step of [main] leaves its result as it is. *)
Theorem load_addresses_clean (env : gmap string string)
    (dotenv : option string) :
  load_addresses env dotenv ≠ []
  ∧ Forall (λ a, a ≠ "" ∧ Py.strip a = a) (load_addresses env dotenv)
  ∧ clean_addresses (load_addresses env dotenv) = load_addresses env dotenv.
Proof.
  split; [apply load_addresses_nonempty|].
  split; [|apply clean_load_addresses].
  destruct (load_addresses_parts env dotenv) as [[pieces ->] | ->].
  - apply stripped_parts_clean.
  - constructor; [|done]. split; [done|]. by vm_compute.
Qed.

(** X2: the address list of [main] is empty in one case only: an [--address]
    that is not empty and consists of whitespace.  Any other [--address] is
    the list alone, trimmed. *)
Theorem empty_list_only_from_blank_override (w : World) (args : Args) :
  (addresses_of w args = []
   ↔ ∃ a, args_address args = Some a ∧ a ≠ "" ∧ Py.strip a = "")
  ∧ (∀ a, args_address args = Some a → Py.strip a ≠ "" →
          addresses_of w args = [Py.strip a]).
Proof.
  unfold addresses_of, resolve_addresses.
  pose proof (load_addresses_nonempty (environ w) (dotenv_file w)) as Hne.
  pose proof (clean_load_addresses (environ w) (dotenv_file w)) as Hclean.
  destruct (args_address args) as [a|]; cycle 1.
  { rewrite Hclean. split; [|done]. split; [done|]. by intros (a & ? & _). }
  destruct (Py.truthy a) eqn:Ha.
  - unfold clean_addresses. rewrite stripped_parts_cons.
    change (stripped_parts []) with (@nil string). split.
    + split.
      * intros Hnil. exists a. split; [done|].
        split; [intros ->; done|].
        destruct (Py.strip a); [done|discriminate Hnil].
      * intros (a' & [= <-] & _ & ->). done.
    + intros a' [= <-] Hs. by destruct (Py.strip a).
  - destruct a; [|done]. rewrite Hclean. split.
    + split; [done|]. by intros (a' & [= <-] & Hne' & _).
    + intros a' [= <-] Hs. by destruct Hs.
Qed.

Lemma empty_list_only_from_blank_override_witness :
  addresses_of Sample.world (Sample.args (Some "  ") None) = []
  ∧ addresses_of Sample.world (Sample.args (Some " good ") None) = ["good"].
Proof.
  split.
  - apply (proj1 (empty_list_only_from_blank_override Sample.world
                    (Sample.args (Some "  ") None))).
    exists "  ". by repeat split.
  - apply (proj2 (empty_list_only_from_blank_override Sample.world
                    (Sample.args (Some " good ") None)) " good ");
      [done|by vm_compute].
Defined.

(** ** Address lists that are written out and read back *)

Lemma split_runs_nonempty sep s : Py.split_runs sep s ≠ [].
Proof.
  induction s as [|c s IH]; simpl; [done|].
  destruct (sep c).
  - destruct s as [|c' s']; [done|]. by destruct (sep c').
  - by destruct (Py.split_runs sep s).
Qed.

(** A prefix without separator joins the first piece of what follows. *)
Lemma split_runs_prefix sep t rest :
  all_chars (λ c, negb (sep c)) t = true →
  Py.split_runs sep (t +:+ rest)
  = match Py.split_runs sep rest with
    | p :: ps => (t +:+ p) :: ps
    | [] => [t]
    end.
Proof.
  pose proof (split_runs_nonempty sep rest) as Hne.
  induction t as [|c t IH]; intros Hall.
  - change ("" +:+ rest) with rest.
    by destruct (Py.split_runs sep rest).
  - simpl in Hall. apply andb_true_iff in Hall as [Hc Ht].
    apply negb_true_iff in Hc. rewrite append_cons.
    simpl Py.split_runs. rewrite Hc, (IH Ht).
    by destruct (Py.split_runs sep rest).
Qed.

(** A separator before a piece starts a new piece. *)
Lemma split_runs_sep sep a c r :
  sep a = true → sep c = false →
  Py.split_runs sep (String a (String c r))
  = "" :: Py.split_runs sep (String c r).
Proof.
  intros Ha Hc.
  change (Py.split_runs sep (String a (String c r)))
    with (if sep a
          then if sep c then Py.split_runs sep (String c r)
               else "" :: Py.split_runs sep (String c r)
          else match Py.split_runs sep (String c r) with
               | p :: ps => String a p :: ps
               | [] => [String a ""]
               end).
  by rewrite Ha, Hc.
Qed.

Lemma token_char_not_sep c :
  token_char c = true → negb (is_comma_or_newline c) = true.
Proof.
  unfold token_char, is_comma_or_newline.
  intros [[Hs Hc]%andb_true_iff _]%andb_true_iff.
  apply negb_true_iff in Hs, Hc. rewrite Hc. simpl.
  unfold Py.is_newline. destruct (Ascii.eqb_spec c "010") as [->|]; [|done].
  by vm_compute in Hs.
Qed.

Lemma token_char_not_space c : token_char c = true → negb (Py.isspace c) = true.
Proof. unfold token_char. by intros [[Hs _]%andb_true_iff _]%andb_true_iff. Qed.

Lemma token_char_not_quote c :
  token_char c = true → negb (Re.is_quote c) = true.
Proof. unfold token_char. by intros [_ Hq]%andb_true_iff. Qed.

Lemma plain_token_head t :
  plain_token t → ∃ c t', t = String c t' ∧ token_char c = true.
Proof.
  intros [Hne Hall]. destruct t as [|c t']; [done|].
  simpl in Hall. apply andb_true_iff in Hall as [Hc _]. by eauto.
Qed.

(** A comma-separated list of plain tokens splits into its tokens. *)
Lemma split_runs_join l :
  l ≠ [] → Forall plain_token l →
  Py.split_runs is_comma_or_newline (str_join "," l) = l.
Proof.
  intros Hne Hall. induction Hall as [|t l Ht Hl IH]; [done|].
  assert (all_chars (λ c, negb (is_comma_or_newline c)) t = true) as Hsep.
  { destruct Ht as [_ Ht]. revert Ht. apply all_chars_impl.
    apply token_char_not_sep. }
  destruct l as [|t' l'].
  - simpl str_join. rewrite <- (append_nil_r t) at 1.
    rewrite split_runs_prefix by done. simpl. by rewrite append_nil_r.
  - change (str_join "," (t :: t' :: l'))
      with (t +:+ "," +:+ str_join "," (t' :: l')).
    rewrite split_runs_prefix by done.
    assert (∃ c r, str_join "," (t' :: l') = String c r
                   ∧ is_comma_or_newline c = false) as (c & r & Hj & Hc).
    { apply Forall_inv in Hl.
      destruct (plain_token_head _ Hl) as (c & r & -> & Hc).
      apply token_char_not_sep, negb_true_iff in Hc.
      destruct l'; simpl str_join; [by eauto|].
      rewrite append_cons. by eauto. }
    change ("," +:+ str_join "," (t' :: l'))
      with (String "," (str_join "," (t' :: l'))).
    rewrite Hj, (split_runs_sep is_comma_or_newline "," c r eq_refl Hc), <- Hj.
    rewrite IH by done. by rewrite append_nil_r.
Qed.

Lemma all_chars_join q l :
  q ","%char = true → Forall (λ t, all_chars q t = true) l →
  all_chars q (str_join "," l) = true.
Proof.
  intros Hq Hall. induction Hall as [|t l Ht Hl IH]; [done|].
  destruct l as [|t' l']; [done|].
  change (str_join "," (t :: t' :: l'))
    with (t +:+ "," +:+ str_join "," (t' :: l')).
  rewrite all_chars_append, Ht.
  change (all_chars q ("," +:+ str_join "," (t' :: l')))
    with (q ","%char && all_chars q (str_join "," (t' :: l'))).
  by rewrite Hq, IH.
Qed.

Lemma stripped_parts_plain l : Forall plain_token l → stripped_parts l = l.
Proof.
  induction 1 as [|t l [Hne Ht] Hl IH]; [done|].
  rewrite stripped_parts_cons.
  assert (Py.strip t = t) as ->.
  { apply strip_by_all. revert Ht. apply all_chars_impl.
    apply token_char_not_space. }
  rewrite IH. by destruct t.
Qed.

Lemma join_plain_chars l :
  Forall plain_token l →
  all_chars (λ c, negb (Py.isspace c)) (str_join "," l) = true
  ∧ all_chars (λ c, negb (Re.is_quote c)) (str_join "," l) = true
  ∧ all_chars (λ c, negb (Py.is_newline c)) (str_join "," l) = true.
Proof.
  intros Hall. split_and!; (apply all_chars_join; [done|]);
    (eapply Forall_impl; [exact Hall|]); intros t [_ Ht]; revert Ht;
    apply all_chars_impl; intros c Hc.
  - by apply token_char_not_space.
  - by apply token_char_not_quote.
  - apply token_char_not_sep in Hc. unfold is_comma_or_newline in Hc.
    apply negb_true_iff, orb_false_iff in Hc as [_ ->]. done.
Qed.

Lemma join_nonempty l :
  l ≠ [] → Forall plain_token l → ∃ c r, str_join "," l = String c r.
Proof.
  intros Hne Hall. destruct Hall as [|t l Ht Hl]; [done|].
  destruct (plain_token_head _ Ht) as (c & r & -> & _).
  destruct l; simpl str_join; [by eauto|]. rewrite append_cons. by eauto.
Qed.

(** X3: an environment variable that holds plain addresses separated by
    commas yields these addresses, in their order. *)
Theorem env_parts_join (l : list string) :
  l ≠ [] → Forall plain_token l →
  env_parts (Some (str_join "," l)) = l.
Proof.
  intros Hne Hall.
  destruct (join_nonempty l Hne Hall) as (c & r & Hj).
  destruct (join_plain_chars l Hall) as (Hspace & Hquote & _).
  unfold env_parts. rewrite Hj at 1. simpl Py.truthy. cbv iota.
  unfold Py.strip, Py.strip_char.
  assert (∀ q : ascii, Re.is_quote q = true →
            Py.strip_by (Ascii.eqb q) (str_join "," l) = str_join "," l)
    as Hq.
  { intros q Hq. apply strip_by_all. revert Hquote. apply all_chars_impl.
    intros a Ha. apply negb_true_iff.
    destruct (Ascii.eqb_spec q a) as [->|]; [|done].
    by rewrite Hq in Ha. }
  rewrite (strip_by_all Py.isspace) by done.
  rewrite (Hq "034"%char eq_refl), (Hq "'"%char eq_refl).
  rewrite split_runs_join by done. by apply stripped_parts_plain.
Qed.

Lemma env_parts_join_witness :
  env_parts (Some (str_join "," ["So111"; "EPjFW"])) = ["So111"; "EPjFW"].
Proof.
  apply (env_parts_join ["So111"; "EPjFW"]); [done|].
  repeat constructor; done.
Defined.

(** ** The scan of the settings file *)

Lemma take_while_all q s : all_chars q s = true → Py.take_while q s = s.
Proof.
  induction s as [|c s IH]; simpl; [done|].
  intros [Hc Hs]%andb_true_iff. by rewrite Hc, IH.
Qed.

Lemma match_literal_prefix key rest :
  Re.match_literal key (key +:+ rest) = Some rest.
Proof.
  induction key as [|k key IH]; [by destruct rest|].
  rewrite append_cons. simpl. unfold Py.eqb_nocase.
  by rewrite Ascii.eqb_refl.
Qed.

(** Past the first line start of a text of one line nothing matches. *)
Lemma search_assignment_no_line_start key text :
  all_chars (λ c, negb (Py.is_newline c)) text = true →
  Re.search_assignment_from false key text = None.
Proof.
  induction text as [|c text IH]; simpl; [done|].
  intros [Hc Ht]%andb_true_iff. apply negb_true_iff in Hc.
  rewrite Hc. by apply IH.
Qed.

Lemma search_assignment_one_line key text :
  all_chars (λ c, negb (Py.is_newline c)) text = true →
  text ≠ "" →
  Re.search_assignment key text = Re.match_assignment key text.
Proof.
  intros Hall Hne. destruct text as [|c text]; [done|].
  unfold Re.search_assignment.
  change (Re.search_assignment_from true key (String c text))
    with (match Re.match_assignment key (String c text) with
          | Some g => Some g
          | None => Re.search_assignment_from (Py.is_newline c) key text
          end).
  destruct (Re.match_assignment key (String c text)); [done|].
  simpl in Hall. apply andb_true_iff in Hall as [Hc Ht].
  apply negb_true_iff in Hc. rewrite Hc.
  by apply search_assignment_no_line_start.
Qed.

(** The value of an assignment at the start of the text is the rest of the
    line. *)
Lemma match_assignment_value key c r :
  Py.isspace c = false →
  all_chars (λ c, negb (Py.is_newline c)) (String c r) = true →
  Re.match_assignment key (key +:+ "=" +:+ String c r) = Some (String c r).
Proof.
  intros Hc Hnl. unfold Re.match_assignment.
  rewrite match_literal_prefix.
  change (Py.drop_while Py.isspace ("=" +:+ String c r))
    with (String "="%char (String c r)).
  unfold Re.match_value. simpl Py.drop_while. rewrite Hc.
  by rewrite take_while_all.
Qed.

Lemma strip_one_quote_plain v :
  all_chars (λ c, negb (Re.is_quote c)) v = true → Re.strip_one_quote v = v.
Proof.
  destruct v as [|c rest]; [done|]. simpl.
  intros [Hc Hrest]%andb_true_iff. apply negb_true_iff in Hc.
  rewrite Hc. destruct (Py.last_char rest) as [d|] eqn:Hlast; [|done].
  pose proof (all_chars_last _ _ _ Hrest Hlast) as Hd.
  apply negb_true_iff in Hd. by rewrite Hd.
Qed.

Lemma last_char_snoc x d : Py.last_char (x +:+ String d "") = Some d.
Proof.
  induction x as [|c x IH]; [done|]. rewrite append_cons.
  change (Py.last_char (String c (x +:+ String d "")))
    with (match x +:+ String d "" with
          | "" => Some c
          | _ => Py.last_char (x +:+ String d "")
          end).
  rewrite IH. by destruct x.
Qed.

(** A value between double quotes loses them. *)
Lemma strip_one_quote_quoted v :
  Re.strip_one_quote (String "034" (v +:+ String "034" "")) = v.
Proof.
  unfold Re.strip_one_quote. rewrite last_char_snoc.
  change (Re.is_quote "034") with true. cbv iota.
  by rewrite rev_snoc, rev_involutive.
Qed.

(** The scan of a settings file that is one assignment to [key]. *)
Lemma extract_by_key_line key g :
  key ∈ ADDRESS_KEYS →
  all_chars (λ c, negb (Py.is_newline c)) g = true →
  (∃ c r, g = String c r ∧ Py.isspace c = false) →
  extract_by_key ADDRESS_KEYS (key +:+ "=" +:+ g)
  = Some (stripped_parts
            (Py.split_runs is_comma_or_newline
               (Re.strip_one_quote (Py.strip g)))).
Proof.
  intros Hkey Hnl (c & r & -> & Hc).
  assert (∀ k, k ∈ ADDRESS_KEYS →
            all_chars (λ c, negb (Py.is_newline c)) (k +:+ "=" +:+ String c r)
            = true) as Hline.
  { intros k Hk. rewrite !all_chars_append, Hnl.
    unfold ADDRESS_KEYS in Hk. rewrite !elem_of_cons in Hk.
    destruct Hk as [->|[->|[->|[]%elem_of_nil]]]; done. }
  assert (∀ k, k ∈ ADDRESS_KEYS → k +:+ "=" +:+ String c r ≠ "") as Hne.
  { intros k Hk. unfold ADDRESS_KEYS in Hk. rewrite !elem_of_cons in Hk.
    destruct Hk as [->|[->|[->|[]%elem_of_nil]]]; done. }
  pose proof (match_assignment_value key c r Hc Hnl) as Hmatch.
  unfold ADDRESS_KEYS in Hkey |- *. rewrite !elem_of_cons in Hkey.
  destruct Hkey as [->|[->|[->|[]%elem_of_nil]]]; simpl extract_by_key;
    rewrite !search_assignment_one_line
      by (first [apply Hline | apply Hne]; unfold ADDRESS_KEYS;
          rewrite !elem_of_cons; tauto).
  - by rewrite Hmatch.
  - change (Re.match_assignment "ADDRESSES" ("TOKENS" +:+ "=" +:+ String c r))
      with (@None string).
    by rewrite Hmatch.
  - change (Re.match_assignment "ADDRESSES"
              ("TOKENS_LIST" +:+ "=" +:+ String c r)) with (@None string).
    change (Re.match_assignment "TOKENS"
              ("TOKENS_LIST" +:+ "=" +:+ String c r)) with (@None string).
    by rewrite Hmatch.
Qed.

(** X4: a settings file that consists of one assignment of plain addresses,
    separated by commas, to one of the three recognized keys yields these
    addresses, in their order, whether the value stands between double
    quotes or not. *)
Theorem extract_assignment_line (key : string) (l : list string) :
  key ∈ ADDRESS_KEYS → l ≠ [] → Forall plain_token l →
  extract_addresses_from_env_file (key +:+ "=" +:+ str_join "," l) = l
  ∧ extract_addresses_from_env_file
      (key +:+ "=" +:+ String "034" (str_join "," l +:+ String "034" ""))
    = l.
Proof.
  intros Hkey Hne Hall.
  destruct (join_nonempty l Hne Hall) as (c & r & Hj).
  destruct (join_plain_chars l Hall) as (Hspace & Hquote & Hnl).
  assert (Py.isspace c = false) as Hc.
  { rewrite Hj in Hspace. simpl in Hspace.
    apply andb_true_iff in Hspace as [Hc _]. by apply negb_true_iff. }
  unfold extract_addresses_from_env_file. split.
  - rewrite extract_by_key_line; [|done|done|by eauto].
    unfold Py.strip. rewrite strip_by_all by done.
    rewrite strip_one_quote_plain by done.
    rewrite split_runs_join by done. by apply stripped_parts_plain.
  - rewrite extract_by_key_line; [|done| |by eauto].
    + unfold Py.strip.
      rewrite (strip_by_ends Py.isspace "034" _ "034"); [|done| |done].
      * rewrite strip_one_quote_quoted.
        rewrite split_runs_join by done. by apply stripped_parts_plain.
      * change (String "034" (str_join "," l +:+ String "034" ""))
          with (String "034" (str_join "," l) +:+ String "034" "").
        apply last_char_snoc.
    + change (String "034" (str_join "," l +:+ String "034" ""))
        with (String "034" "" +:+ (str_join "," l +:+ String "034" "")).
      by rewrite !all_chars_append, Hnl.
Qed.

Lemma extract_assignment_line_witness :
  extract_addresses_from_env_file
    ("TOKENS" +:+ "=" +:+ str_join "," ["So111"; "EPjFW"])
  = ["So111"; "EPjFW"].
Proof.
  apply (extract_assignment_line "TOKENS" ["So111"; "EPjFW"]).
  - unfold ADDRESS_KEYS. rewrite !elem_of_cons. tauto.
  - done.
  - repeat constructor; done.
Defined.

(** ** The other outcomes of an iteration *)

(** X5: an address whose request fails in the transport gets the record
    that holds the error message alone, without status code; the iteration
    sends the request and prints, and does nothing else: no insert, no
    file, no sleep; and the loop goes on with the next address. *)
Theorem transport_error_iteration (w : World) (args : Args)
    (out : option Path) (dir : bool) (coll : string * string) (ts : Z)
    (n i : nat) (addr : string) (rest : list string) (s : state)
    (msg : string) :
  http_get w i addr = inl msg →
  ∃ s',
    loop_body w args out dir coll ts n i addr s = (inr tt, s')
    ∧ results s' = dict_set addr (RecRequestError msg) (results s)
    ∧ record_json (RecRequestError msg) = JObj [("error", JStr msg)]
    ∧ files s' = files s
    ∧ clock_reads s' = clock_reads s
    ∧ trace s'
      = trace s ++ [Stdout (querying i n addr); request_event w addr;
                    Stderr ("Request failed for " +:+ addr +:+ ": " +:+ msg)]
    ∧ for_enumerate (loop_body w args out dir coll ts n) i (addr :: rest) s
      = for_enumerate (loop_body w args out dir coll ts n) (S i) rest s'.
Proof.
  intros Hget.
  assert (fetch_outcome w i addr = inl (RequestException msg)) as Hf.
  { by rewrite fetch_outcome_eq, Hget. }
  pose proof (loop_body_request_error w args out dir coll ts n i addr s msg Hf)
    as Hbody.
  eexists. split_and!; [exact Hbody|done|done|done|done| |].
  - simpl. by rewrite <- !app_assoc.
  - by apply for_enumerate_cons.
Qed.

Lemma transport_error_iteration_witness :
  ∃ s',
    loop_body Sample.world (Sample.args None None) None false
      ("mobula", "Token") 0 2 1 "down" (initial ∅) = (inr tt, s')
    ∧ results s' = [("down", RecRequestError "Connection refused")].
Proof.
  destruct (transport_error_iteration Sample.world (Sample.args None None)
              None false ("mobula", "Token") 0%Z 2 1 "down" [] (initial ∅)
              "Connection refused" eq_refl)
    as (s' & Hbody & Hres & _).
  exists s'. by split.
Defined.

(** X6: when the fetch returns and the insert succeeds, the record of the
    address is [{ok: true}]; the iteration hands one document to the store,
    made of the address, the timestamp of the run and the payload as it
    came; without directory output it touches no file; it sleeps
    [max(0.0, delay)] and the loop goes on with the next address. *)
Theorem success_iteration (w : World) (args : Args) (out : option Path)
    (dir : bool) (coll : string * string) (ts : Z) (n i : nat)
    (addr : string) (rest : list string) (s : state) (data : Json) :
  fetch_outcome w i addr = inr data →
  insert_one w i (mkDocument addr ts data) = None →
  out = None ∨ dir = false →
  sleepable (Py.max 0 (args_delay args)) = true →
  ∃ s',
    loop_body w args out dir coll ts n i addr s = (inr tt, s')
    ∧ results s' = dict_set addr RecOk (results s)
    ∧ files s' = files s
    ∧ clock_reads s' = clock_reads s
    ∧ trace s'
      = trace s ++ [Stdout (querying i n addr); request_event w addr;
                    InsertOne coll.1 coll.2 (mkDocument addr ts data);
                    Sleep (Py.max 0 (args_delay args))]
    ∧ for_enumerate (loop_body w args out dir coll ts n) i (addr :: rest) s
      = for_enumerate (loop_body w args out dir coll ts n) (S i) rest s'.
Proof.
  intros Hf Hins Hout Hsleep.
  assert (∃ s', loop_body w args out dir coll ts n i addr s = (inr tt, s')
                ∧ results s' = dict_set addr RecOk (results s)
                ∧ files s' = files s
                ∧ clock_reads s' = clock_reads s
                ∧ trace s'
                  = trace s ++ [Stdout (querying i n addr);
                                request_event w addr;
                                InsertOne coll.1 coll.2
                                  (mkDocument addr ts data);
                                Sleep (Py.max 0 (args_delay args))])
    as (s' & Hbody & Hrest).
  { rewrite (loop_body_fetched _ _ _ _ _ _ _ _ _ _ _ Hf).
    unfold after_fetch, fetched_state, store_to_mongo, save_per_address,
      time_sleep, insert_handler.
    run_monad. rewrite Hins. simpl.
    destruct Hout as [-> | ->]; [|destruct out]; simpl; rewrite Hsleep;
      simpl; (eexists; split_and!; [done|done|done|done|];
              simpl; by rewrite <- !app_assoc). }
  exists s'. split; [done|]. destruct Hrest as (? & ? & ? & ?).
  split_and!; try done. by apply for_enumerate_cons.
Qed.

Lemma success_iteration_witness :
  ∃ s',
    loop_body Sample.world (Sample.args None None) None false
      ("mobula", "Token") 7 2 1 "good" (initial ∅) = (inr tt, s')
    ∧ results s' = [("good", RecOk)].
Proof.
  assert (fetch_outcome Sample.world 1 "good" = inr (JArr [JInt 1; JInt 2]))
    as Hf by vm_refl.
  assert (sleepable (Py.max 0 (args_delay (Sample.args None None))) = true)
    as Hsleep by vm_refl.
  destruct (success_iteration Sample.world (Sample.args None None) None false
              ("mobula", "Token") 7%Z 2 1 "good" [] (initial ∅)
              (JArr [JInt 1; JInt 2]) Hf eq_refl (or_introl eq_refl) Hsleep)
    as (s' & Hbody & Hres & _).
  exists s'. by split.
Defined.

(** ** The events of a run *)

Ltac filter_events :=
  cbn [app];
  repeat first [ rewrite filter_nil
               | rewrite filter_cons_True by done
               | rewrite filter_cons_False by done ].

(** The events of an iteration, whatever its outcome: one request, one line
    on the standard output, an insert exactly when the fetch returned, and,
    when the iteration returns, as many sleeps as inserts. *)
Lemma loop_body_events w args out dir coll ts n i addr s :
  let r := loop_body w args out dir coll ts n i addr s in
  ∃ evs,
    trace r.2 = trace s ++ evs
    ∧ filter (λ ev, is_HttpGet ev = true) evs = [request_event w addr]
    ∧ filter (λ ev, is_Stdout ev = true) evs = [Stdout (querying i n addr)]
    ∧ Forall (loop_effect w args coll ts i [addr]) evs
    ∧ (r.1 = inr tt →
       length (filter (λ ev, is_Sleep ev = true) evs)
       = length (filter (λ ev, is_InsertOne ev = true) evs)).
Proof.
  destruct (fetch_outcome_cases w i addr)
    as [[data Hf]|[(msg & resp & Hf)|[msg Hf]]].
  - rewrite (loop_body_fetched _ _ _ _ _ _ _ _ _ _ _ Hf).
    assert (loop_effect w args coll ts i [addr]
              (InsertOne coll.1 coll.2 (mkDocument addr ts data))) as Hdoc.
    { simpl. split_and!; try done. exists 0. by rewrite Nat.add_0_r. }
    unfold after_fetch, fetched_state, store_to_mongo, save_per_address,
      save_result, path_mkdir_parents, path_write_text, time_sleep,
      insert_handler, insert_exn.
    run_monad.
    destruct (insert_one w i _) as [[me|me]|] eqn:Hins; simpl;
      split_outcomes;
      (eexists; split; [simpl; rewrite <- ?app_assoc; reflexivity|]);
      (split_and!;
       [ by filter_events
       | by filter_events
       | cbn [app]; repeat first [apply Forall_nil_2 | apply Forall_cons_2];
         first [exact Hdoc | done]
       | first [ intros _; by filter_events | by intros [=] ] ]).
  - rewrite (loop_body_http_error _ _ _ _ _ _ _ _ _ _ _ _ Hf).
    eexists; split; [simpl; rewrite <- ?app_assoc; reflexivity|].
    split_and!; [by filter_events|by filter_events| |intros _; by filter_events].
    cbn [app]. repeat first [apply Forall_nil_2 | apply Forall_cons_2]; done.
  - rewrite (loop_body_request_error _ _ _ _ _ _ _ _ _ _ _ Hf).
    eexists; split; [simpl; rewrite <- ?app_assoc; reflexivity|].
    split_and!; [by filter_events|by filter_events| |intros _; by filter_events].
    cbn [app]. repeat first [apply Forall_nil_2 | apply Forall_cons_2]; done.
Qed.

Lemma loop_effect_head w args coll ts i x xs ev :
  loop_effect w args coll ts i [x] ev → loop_effect w args coll ts i (x :: xs) ev.
Proof.
  destruct ev; simpl; try done.
  intros (? & ? & ? & k & Hk & Hf). split_and!; try done.
  destruct k as [|k]; [|done]. by exists 0.
Qed.

Lemma loop_effect_tail w args coll ts i x xs ev :
  loop_effect w args coll ts (S i) xs ev →
  loop_effect w args coll ts i (x :: xs) ev.
Proof.
  destruct ev; simpl; try done.
  intros (? & ? & ? & k & Hk & Hf). split_and!; try done.
  exists (S k). split; [done|]. by rewrite Nat.add_succ_r.
Qed.

Lemma progress_lines_cons n i x xs :
  progress_lines n i (x :: xs)
  = Stdout (querying i n x) :: progress_lines n (S i) xs.
Proof.
  unfold progress_lines. rewrite imap_cons, Nat.add_0_r. f_equal.
  apply imap_ext. intros k a _. simpl. by rewrite Nat.add_succ_r.
Qed.

(** The events of the loop, whatever its outcome: the requests and the first
    lines of the iterations that it entered, in the order of the list; of
    all the iterations when it returns, with as many sleeps as inserts. *)
Lemma for_enumerate_events w args out dir coll ts n l : ∀ i s,
  let r := for_enumerate (loop_body w args out dir coll ts n) i l s in
  ∃ evs k,
    trace r.2 = trace s ++ evs
    ∧ filter (λ ev, is_HttpGet ev = true) evs = request_event w <$> take k l
    ∧ filter (λ ev, is_Stdout ev = true) evs = progress_lines n i (take k l)
    ∧ Forall (loop_effect w args coll ts i l) evs
    ∧ (r.1 = inr tt →
       take k l = l
       ∧ length (filter (λ ev, is_Sleep ev = true) evs)
         = length (filter (λ ev, is_InsertOne ev = true) evs)).
Proof.
  induction l as [|x xs IH]; intros i s.
  - exists [], 0. simpl. rewrite app_nil_r. by split_and!.
  - cbv zeta. rewrite for_enumerate_step.
    destruct (loop_body_events w args out dir coll ts n i x s)
      as (e1 & Ht1 & Hg1 & Ho1 & He1 & Hc1).
    destruct (loop_body w args out dir coll ts n i x s) as [[e|[]] s1];
      simpl in Ht1, Hc1.
    + exists e1, 1. simpl. rewrite take_0, progress_lines_cons. split_and!;
        try done.
      eapply Forall_impl; [exact He1|]. apply loop_effect_head.
    + destruct (IH (S i) s1) as (e2 & k & Ht2 & Hg2 & Ho2 & He2 & Hc2).
      exists (e1 ++ e2), (S k). rewrite !filter_app, Hg1, Hg2, Ho1, Ho2.
      simpl take. rewrite progress_lines_cons. split_and!.
      * by rewrite Ht2, Ht1, app_assoc.
      * done.
      * done.
      * apply Forall_app. split.
        -- eapply Forall_impl; [exact He1|]. apply loop_effect_head.
        -- eapply Forall_impl; [exact He2|]. apply loop_effect_tail.
      * intros Hret. destruct (Hc2 Hret) as [Htake Hlen].
        split; [by rewrite Htake|].
        rewrite !length_app, Hlen. f_equal. by apply Hc1.
Qed.

(** The final output prints, and nothing else shows in the trace: the
    summary and, when it returns, the line that names the output path. *)
Lemma final_output_events w out dir s :
  ∃ evs,
    trace (final_output w out dir s).2 = trace s ++ evs
    ∧ Forall (λ ev, is_Stdout ev = true) evs
    ∧ ((final_output w out dir s).1 = inr tt →
       evs = Stdout (json_dumps w (results_json (results s)))
             :: saved_lines out dir).
Proof.
  unfold final_output, saved_lines, save_result, path_mkdir_parents,
    path_write_text.
  run_monad.
  split_outcomes;
    (eexists; split; [simpl; rewrite <- ?app_assoc; reflexivity|]);
    (split; [cbn [app]; repeat constructor|]);
    first [by intros [=] | done].
Qed.

Lemma filter_all_false (P Q : event → bool) evs :
  (∀ ev, Q ev = true → P ev = false) →
  Forall (λ ev, Q ev = true) evs →
  filter (λ ev, P ev = true) evs = [].
Proof.
  intros HPQ. induction 1 as [|ev evs Hev _ IH]; [done|].
  rewrite filter_cons_False; [done|]. by rewrite (HPQ ev Hev).
Qed.

Lemma filter_all_true (Q : event → bool) evs :
  Forall (λ ev, Q ev = true) evs → filter (λ ev, Q ev = true) evs = evs.
Proof.
  induction 1 as [|ev evs Hev _ IH]; [done|].
  by rewrite filter_cons_True, IH.
Qed.

(** The events of the loop of a run followed by its final output. *)
Lemma loop_then_output_events w args out dir coll ts n l s :
  let r := (for_enumerate (loop_body w args out dir coll ts n) 1 l >>
            final_output w out dir) s in
  ∃ evs k,
    trace r.2 = trace s ++ evs
    ∧ filter (λ ev, is_HttpGet ev = true) evs = request_event w <$> take k l
    ∧ Forall (loop_effect w args coll ts 1 l) evs
    ∧ (r.1 = inr tt →
       take k l = l
       ∧ length (filter (λ ev, is_Sleep ev = true) evs)
         = length (filter (λ ev, is_InsertOne ev = true) evs)
       ∧ filter (λ ev, is_Stdout ev = true) evs
         = progress_lines n 1 l
           ++ Stdout (json_dumps w (results_json (results r.2)))
              :: saved_lines out dir).
Proof.
  cbv zeta. unfold bind.
  destruct (for_enumerate_events w args out dir coll ts n l 1 s)
    as (e1 & k & Ht1 & Hg1 & Ho1 & He1 & Hc1).
  destruct (for_enumerate _ 1 l s) as [[e|[]] s1]; simpl in Ht1, Hc1.
  { exists e1, k. by split_and!. }
  destruct (final_output_events w out dir s1) as (e2 & Ht2 & Hs2 & Hr2).
  pose proof (final_output_frame w out dir ts s1) as (_ & Hres & _).
  exists (e1 ++ e2), k. rewrite !filter_app.
  rewrite (filter_all_false is_HttpGet is_Stdout e2) by (by intros []) || done.
  rewrite (filter_all_false is_Sleep is_Stdout e2) by (by intros []) || done.
  rewrite (filter_all_false is_InsertOne is_Stdout e2) by (by intros []) || done.
  rewrite (filter_all_true is_Stdout e2) by done.
  rewrite !app_nil_r. split_and!.
  - by rewrite Ht2, Ht1, app_assoc.
  - done.
  - apply Forall_app. split; [done|].
    eapply Forall_impl; [exact Hs2|]. by intros [].
  - intros Hret. destruct (Hc1 eq_refl) as [Htake Hlen].
    split_and!; [done|done|].
    rewrite Ho1, Htake, (Hr2 Hret), Hres. done.
Qed.

(** X7: the run sends its requests in the order of the address list, one for
    each address that it gets to, each to the fixed endpoint with the chain,
    the address, the API key and the timeout of 10; a run that ends normally
    has sent exactly one request for each entry of the list.  No request is
    ever repeated. *)
Theorem one_request_per_address (w : World) (args : Args)
    (fs : gmap Path Pathlib.node) :
  (∃ k, filter (λ ev, is_HttpGet ev = true) (trace (run w args fs).2)
        = request_event w <$> take k (addresses_of w args))
  ∧ ((run w args fs).1 = inr tt →
     filter (λ ev, is_HttpGet ev = true) (trace (run w args fs).2)
     = request_event w <$> addresses_of w args).
Proof.
  destruct (run_cases w args fs) as [(code & line & ->)|[Haddr ->]].
  - simpl. split; [by exists 0|done].
  - destruct (loop_then_output_events w args (out_of args)
                (out_is_dir_of args fs) (MONGO_DB w, MONGO_COLLECTION w)
                (clock w 0) (length (addresses_of w args))
                (addresses_of w args) (mkState [] fs 1 []))
      as (evs & k & -> & Hg & _ & Hret).
    simpl. split; [by exists k|].
    intros Hr. destruct (Hret Hr) as [Htake _]. by rewrite Hg, Htake.
Qed.

(** X8: every document that the run hands to the store goes to the
    configured database and collection ([mobula] and [Token] by default),
    carries the timestamp of the run, the address of an entry of the list
    and, as its data, the payload that the fetch of this entry returned,
    unchanged. *)
Theorem inserted_documents (w : World) (args : Args)
    (fs : gmap Path Pathlib.node) (db coll : string) (doc : Document) :
  InsertOne db coll doc ∈ trace (run w args fs).2 →
  db = default "mobula" (environ w !! "MONGO_DB")
  ∧ coll = default "Token" (environ w !! "MONGO_COLLECTION")
  ∧ fetched_at doc = clock w 0
  ∧ ∃ k, addresses_of w args !! k = Some (address doc)
         ∧ fetch_outcome w (S k) (address doc) = inr (data doc).
Proof.
  destruct (run_cases w args fs) as [(code & line & ->)|[Haddr ->]].
  - by intros [=]%list_elem_of_singleton.
  - destruct (loop_then_output_events w args (out_of args)
                (out_is_dir_of args fs) (MONGO_DB w, MONGO_COLLECTION w)
                (clock w 0) (length (addresses_of w args))
                (addresses_of w args) (mkState [] fs 1 []))
      as (evs & k & -> & _ & Hall & _).
    simpl. intros Hin. rewrite Forall_forall in Hall.
    exact (Hall _ Hin).
Qed.

Lemma inserted_documents_witness :
  let w := Sample.world_of "missing,good" in
  let doc := mkDocument "good" (clock w 0) (JArr [JInt 1; JInt 2]) in
  fetched_at doc = clock w 0
  ∧ ∃ k, addresses_of w (Sample.args None None) !! k = Some (address doc)
         ∧ fetch_outcome w (S k) (address doc) = inr (data doc).
Proof.
  intros w doc.
  refine (proj2 (proj2 (inserted_documents w (Sample.args None None) ∅
                          "mobula" "Token" doc _))).
  assert (trace (run w (Sample.args None None) ∅).2 !! 5
          = Some (InsertOne "mobula" "Token" doc)) as Hin by vm_refl.
  by apply list_elem_of_lookup_2 in Hin.
Defined.

(** X10: the standard output of a run that ends normally: the first line of
    each iteration, numbered from 1 in the order of the list, then the
    summary of the final mapping, then, with an output path, the line that
    names it. *)
Theorem stdout_of_run (w : World) (args : Args) (fs : gmap Path Pathlib.node)
    (s_final : state) :
  run w args fs = (inr tt, s_final) →
  filter (λ ev, is_Stdout ev = true) (trace s_final)
  = progress_lines (length (addresses_of w args)) 1 (addresses_of w args)
    ++ Stdout (json_dumps w (results_json (results s_final)))
       :: saved_lines (out_of args) (out_is_dir_of args fs).
Proof.
  intros Hrun.
  destruct (run_cases w args fs) as [(code & line & Hexit)|[Haddr Hloop]];
    [congruence|].
  destruct (loop_then_output_events w args (out_of args)
              (out_is_dir_of args fs) (MONGO_DB w, MONGO_COLLECTION w)
              (clock w 0) (length (addresses_of w args))
              (addresses_of w args) (mkState [] fs 1 []))
    as (evs & k & Ht & _ & _ & Hret).
  rewrite <- Hloop, Hrun in Ht, Hret. simpl in Ht, Hret.
  destruct (Hret eq_refl) as (_ & _ & Hout). by rewrite Ht.
Qed.

Lemma stdout_of_run_witness :
  let w := Sample.world_of "missing,good" in
  filter (λ ev, is_Stdout ev = true)
    (trace (run w (Sample.args None (Some "out.json")) ∅).2)
  = [Stdout "[1/2] Querying missing ..."; Stdout "[2/2] Querying good ...";
     Stdout (json_dumps w
               (results_json
                  (results (run w (Sample.args None (Some "out.json")) ∅).2)));
     Stdout "Saved combined JSON to out.json"].
Proof.
  intros w.
  rewrite (stdout_of_run w (Sample.args None (Some "out.json")) ∅
             (run w (Sample.args None (Some "out.json")) ∅).2).
  - vm_refl.
  - apply outcome_eta. vm_refl.
Defined.

(** ** Sleeps and uncaught exceptions *)

(** [max(0.0, d)] is a number and is not negative, whatever [d] is: a NaN
    and a negative delay give 0. *)
Lemma max_zero_sleep_length (d : float) :
  PrimFloat.is_nan (Py.max 0 d) = false
  ∧ PrimFloat.ltb (Py.max 0 d) 0 = false.
Proof.
  unfold Py.max. destruct (PrimFloat.ltb 0 d) eqn:H; [|split; reflexivity].
  rewrite FloatAxioms.ltb_spec in H. unfold PrimFloat.is_nan.
  rewrite FloatAxioms.eqb_spec, FloatAxioms.ltb_spec.
  change (FloatOps.Prim2SF 0) with (SpecFloat.S754_zero false) in *.
  unfold SpecFloat.SFltb, SpecFloat.SFeqb in *.
  destruct (FloatOps.Prim2SF d) as [sg|sg| |sg m e]; simpl in *;
    try discriminate.
  - destruct sg; try discriminate. split; reflexivity.
  - destruct sg; try discriminate.
    rewrite Z.compare_refl, Pos.compare_cont_refl. split; reflexivity.
Qed.





(** X9: every sleep of a run lasts [max(0.0, args.delay)] seconds, which is
    a number and is not negative whatever the delay given on the command
    line (a negative delay and a NaN sleep 0 seconds); and a run that ends
    normally has slept once for each document that it handed to the store,
    so once for each fetch that returned, and never after a failed fetch. *)
Theorem sleep_lengths (w : World) (args : Args) (fs : gmap Path Pathlib.node) :
  (∀ secs,
     Sleep secs ∈ trace (run w args fs).2 →
     secs = Py.max 0 (args_delay args)
     ∧ PrimFloat.is_nan secs = false
     ∧ PrimFloat.ltb secs 0 = false)
  ∧ ((run w args fs).1 = inr tt →
     length (filter (λ ev, is_Sleep ev = true) (trace (run w args fs).2))
     = length (filter (λ ev, is_InsertOne ev = true)
                 (trace (run w args fs).2))).
Proof.
  destruct (run_cases w args fs) as [(code & line & ->)|[Haddr ->]].
  - simpl. split; [|done]. by intros secs [=]%list_elem_of_singleton.
  - destruct (loop_then_output_events w args (out_of args)
                (out_is_dir_of args fs) (MONGO_DB w, MONGO_COLLECTION w)
                (clock w 0) (length (addresses_of w args))
                (addresses_of w args) (mkState [] fs 1 []))
      as (evs & k & -> & _ & Hall & Hret).
    simpl. split.
    + intros secs Hin. rewrite Forall_forall in Hall.
      pose proof (Hall _ Hin) as Hsecs. simpl in Hsecs. subst secs.
      split; [done|]. apply max_zero_sleep_length.
    + intros Hr. by destruct (Hret Hr) as (_ & Hlen & _).
Qed.



(** ** What the run leaves on the file system *)

(** [mkdir] with parents keeps every node there is. *)
Lemma mkdir_from_keeps rest : ∀ fs prefix fs' q nd,
  Pathlib.mkdir_from fs prefix rest = inr fs' →
  Pathlib.node_at fs q = Some nd → Pathlib.node_at fs' q = Some nd.
Proof.
  induction rest as [|c rest IH]; intros fs prefix fs' q nd; simpl.
  - by intros [= ->].
  - destruct (Pathlib.node_at fs (prefix ++ [c])) as [[|content]|] eqn:Hq;
      [|done|]; intros Hmk Hnd.
    + by apply (IH _ _ _ _ _ Hmk).
    + apply (IH _ _ _ _ _ Hmk).
      rewrite node_at_insert_ne; [done|]. intros <-. congruence.
Qed.


(** A written file is there, with its content. *)
Lemma write_text_node_at fs p content fs' :
  Pathlib.write_text fs p content = inr fs' →
  Pathlib.node_at fs' p = Some (Pathlib.File content)
  ∧ Pathlib.is_dir fs' (Pathlib.parent p) = true
  ∧ ∀ q, q ≠ p → Pathlib.node_at fs' q = Pathlib.node_at fs q.
Proof.
  intros Hwr. pose proof (write_text_inr _ _ _ _ Hwr) as ->.
  split_and!.
  - revert Hwr. unfold Pathlib.write_text, Pathlib.node_at.
    destruct p as [|r [|r' p]]; [done| |].
    + destruct (Pathlib.is_root r); [done|]. intros _. apply lookup_insert_eq.
    + intros _. apply lookup_insert_eq.
  - apply (write_text_keeps_dir _ _ _ _ _ Hwr).
    revert Hwr. unfold Pathlib.write_text.
    destruct (Pathlib.node_at fs p) as [[|c]|];
      by destruct (Pathlib.is_dir fs (Pathlib.parent p)).
  - intros q Hne. by apply node_at_insert_ne.
Qed.

(** [save_result] keeps every node but the file that it writes, and leaves
    the file when it returns. *)
Lemma save_result_keeps_node w p data s q nd :
  Pathlib.node_at (files s) q = Some nd → q ≠ p →
  Pathlib.node_at (files (save_result w p data s).2) q = Some nd.
Proof.
  intros Hq Hne.
  unfold save_result, path_mkdir_parents, path_write_text. run_monad.
  destruct (Pathlib.mkdir_parents (files s) (Pathlib.parent p))
    as [msg|fs1] eqn:Hmk; simpl; [done|].
  pose proof (mkdir_from_keeps _ _ _ _ _ _ Hmk Hq) as Hq1.
  destruct (Pathlib.write_text fs1 p (json_dumps w data))
    as [msg|fs2] eqn:Hwr; simpl; [done|].
  destruct (write_text_node_at _ _ _ _ Hwr) as (_ & _ & Hother).
  by rewrite (Hother q Hne).
Qed.

Lemma save_result_returns w p data s s' :
  save_result w p data s = (inr tt, s') →
  Pathlib.node_at (files s') p = Some (Pathlib.File (json_dumps w data)).
Proof.
  unfold save_result, path_mkdir_parents, path_write_text. run_monad.
  destruct (Pathlib.mkdir_parents (files s) (Pathlib.parent p))
    as [msg|fs1] eqn:Hmk; simpl; [done|].
  destruct (Pathlib.write_text fs1 p (json_dumps w data))
    as [msg|fs2] eqn:Hwr; simpl; [done|].
  intros [= <-]. simpl. by destruct (write_text_node_at _ _ _ _ Hwr).
Qed.



Lemma save_per_address_keeps_node w out dir addr data s q nd :
  Pathlib.node_at (files s) q = Some nd →
  (∀ d, out = Some d → dir = true →
        q ≠ Pathlib.joinpath d (addr +:+ ".json")) →
  Pathlib.node_at (files (save_per_address w out dir addr data s).2) q
  = Some nd.
Proof.
  intros Hq Hpath. unfold save_per_address.
  destruct out as [d|]; [|done]. destruct dir; [|done].
  apply save_result_keeps_node; [done|]. by apply Hpath.
Qed.

(** An iteration keeps every node but the file of its address. *)
Lemma loop_body_keeps_node w args out dir coll ts n i addr s q nd :
  Pathlib.node_at (files s) q = Some nd →
  (∀ d, out = Some d → dir = true →
        q ≠ Pathlib.joinpath d (addr +:+ ".json")
        ∨ ∃ e, fetch_outcome w i addr = inl e) →
  Pathlib.node_at (files (loop_body w args out dir coll ts n i addr s).2) q
  = Some nd.
Proof.
  intros Hq Hpath.
  destruct (loop_body_frame w args out dir coll ts n i addr s)
    as (_ & _ & _ & Hfiles).
  destruct (fetch_outcome w i addr) as [e|data] eqn:Hf.
  { rewrite Hfiles; [done|]. left. by exists e. }
  rewrite (loop_body_fetched _ _ _ _ _ _ _ _ _ _ _ Hf).
  assert (∀ s2, files s2 = files s →
            Pathlib.node_at
              (files (save_per_address w out dir addr data s2).2) q
            = Some nd) as Hsave.
  { intros s2 Hs2. apply save_per_address_keeps_node; [by rewrite Hs2|].
    intros d Hout Hdir. by destruct (Hpath d Hout Hdir) as [Hne|[e [=]]]. }
  unfold after_fetch, fetched_state, store_to_mongo, time_sleep,
    insert_handler, insert_exn.
  remember (save_per_address w out dir addr data) as save eqn:Hsv.
  run_monad.
  destruct (insert_one w i _) as [[me|me]|] eqn:Hins; simpl; [|done|].
  - match goal with
    | |- context [save ?s2] =>
        pose proof (Hsave s2 eq_refl) as Hs; destruct (save s2) as [[e|[]] s3]
    end; simpl in *; [done|].
    by destruct (sleepable _); [|destruct (_ || _)].
  - match goal with
    | |- context [save ?s2] =>
        pose proof (Hsave s2 eq_refl) as Hs; destruct (save s2) as [[e|[]] s3]
    end; simpl in *; [done|].
    by destruct (sleepable _); [|destruct (_ || _)].
Qed.

Lemma for_enumerate_keeps_node w args out dir coll ts n q nd l : ∀ i s,
  Pathlib.node_at (files s) q = Some nd →
  (∀ k b d, l !! k = Some b → out = Some d → dir = true →
            q ≠ Pathlib.joinpath d (b +:+ ".json")
            ∨ ∃ e, fetch_outcome w (i + k) b = inl e) →
  Pathlib.node_at
    (files (for_enumerate (loop_body w args out dir coll ts n) i l s).2) q
  = Some nd.
Proof.
  induction l as [|x xs IH]; intros i s Hq Hpath; [done|].
  rewrite for_enumerate_step.
  assert (Pathlib.node_at
            (files (loop_body w args out dir coll ts n i x s).2) q = Some nd)
    as Hq1.
  { apply loop_body_keeps_node; [done|]. intros d Hout Hdir.
    rewrite <- (Nat.add_0_r i). by apply (Hpath 0 x d). }
  destruct (loop_body w args out dir coll ts n i x s) as [[e|[]] s1];
    [done|].
  apply IH; [done|]. intros k b d Hk Hout Hdir.
  pose proof (Hpath (S k) b d Hk Hout Hdir) as H.
  by rewrite Nat.add_succ_r in H.
Qed.

(** The final output in the three cases of the output path. *)
Lemma final_output_file w p s :
  final_output w (Some p) false s
  = match save_result w p (results_json (results s))
            (add_event (Stdout (json_dumps w (results_json (results s)))) s)
    with
    | (inr _, s1) =>
        (inr tt,
         add_event
           (Stdout ("Saved combined JSON to " +:+ Pathlib.to_string p)) s1)
    | (inl e, s1) => (inl e, s1)
    end.
Proof.
  unfold final_output, save_result, path_mkdir_parents, path_write_text.
  run_monad. split_outcomes; reflexivity.
Qed.

Lemma final_output_files_kept w out dir s :
  out = None ∨ dir = true → files (final_output w out dir s).2 = files s.
Proof.
  unfold final_output. run_monad.
  intros [->| ->]; [done|]. by destruct out.
Qed.

Lemma final_output_keeps_node w out dir s q nd :
  Pathlib.node_at (files s) q = Some nd →
  (∀ d, out = Some d → dir = false → q ≠ d) →
  Pathlib.node_at (files (final_output w out dir s).2) q = Some nd.
Proof.
  intros Hq Hpath.
  destruct out as [d|]; [|by rewrite final_output_files_kept; [|left]].
  destruct dir; [by rewrite final_output_files_kept; [|right]|].
  rewrite final_output_file.
  pose proof (save_result_keeps_node w d (results_json (results s))
                (add_event (Stdout (json_dumps w (results_json (results s)))) s)
                q nd Hq (Hpath d eq_refl eq_refl)) as Hkeep.
  by destruct (save_result w d _ _) as [[e|[]] s1].
Qed.

(** X13: a run never removes or changes what is on the file system, its own
    output apart: a node that is not the combined file (file output) and not
    the file of an address (directory output) is at the end of the run what
    it was at its start, however the run ends; and a run without an output
    path leaves the file system as it was.  The node is one whose path can
    be told from the paths of the output by its parts: all without [..] and
    from the same starting point. *)
Theorem run_keeps_other_files (w : World) (args : Args)
    (fs : gmap Path Pathlib.node) :
  (∀ q nd,
     Pathlib.node_at fs q = Some nd →
     (∀ d, out_of args = Some d →
           (out_is_dir_of args fs = false → comparable q d = true ∧ q ≠ d)
           ∧ (out_is_dir_of args fs = true →
              ∀ b, b ∈ addresses_of w args →
                   comparable q (Pathlib.joinpath d (b +:+ ".json")) = true
                   ∧ q ≠ Pathlib.joinpath d (b +:+ ".json"))) →
     Pathlib.node_at (files (run w args fs).2) q = Some nd)
  ∧ (out_of args = None → files (run w args fs).2 = fs).
Proof.
  destruct (run_cases w args fs) as [(code & line & ->)|[Haddr ->]];
    [done|].
  unfold bind. split.
  - intros q nd Hq Hpath.
    pose proof (for_enumerate_keeps_node w args (out_of args)
                  (out_is_dir_of args fs) (MONGO_DB w, MONGO_COLLECTION w)
                  (clock w 0) (length (addresses_of w args)) q nd
                  (addresses_of w args) 1 (mkState [] fs 1 []) Hq) as Hloop.
    assert (∀ k b d, addresses_of w args !! k = Some b →
              out_of args = Some d → out_is_dir_of args fs = true →
              q ≠ Pathlib.joinpath d (b +:+ ".json")
              ∨ ∃ e, fetch_outcome w (1 + k) b = inl e) as Hwrites.
    { intros k b d Hk Hout Hdir. left.
      apply (proj2 (Hpath d Hout) Hdir). by apply list_elem_of_lookup_2 in Hk. }
    destruct (for_enumerate _ 1 (addresses_of w args) _) as [[e|[]] s1];
      simpl in *.
    + by apply Hloop.
    + apply final_output_keeps_node; [by apply Hloop|].
      intros d Hout Hdir. by apply (proj1 (Hpath d Hout) Hdir).
  - intros Hout.
    pose proof (for_enumerate_files_no_dir w args (out_of args)
                  (out_is_dir_of args fs) (MONGO_DB w, MONGO_COLLECTION w)
                  (clock w 0) (length (addresses_of w args))
                  (addresses_of w args) 1 (mkState [] fs 1 [])
                  (or_introl Hout)) as Hloop.
    destruct (for_enumerate _ 1 (addresses_of w args) _) as [[e|[]] s1];
      simpl in *; [done|].
    rewrite final_output_files_kept; [done|by left].
Qed.

Lemma run_keeps_other_files_witness :
  let w := Sample.world_of "good,missing" in
  let fs : gmap Path Pathlib.node :=
    {[ ["good.json"] := Pathlib.File "mine";
       ["results"] := Pathlib.Dir;
       ["results"; "notes.txt"] := Pathlib.File "notes" ]} in
  Pathlib.node_at (files (run w (Sample.args None (Some "results")) fs).2)
    ["good.json"] = Some (Pathlib.File "mine")
  ∧ Pathlib.node_at (files (run w (Sample.args None (Some "results")) fs).2)
      ["results"; "notes.txt"] = Some (Pathlib.File "notes")
  ∧ Pathlib.node_at (files (run w (Sample.args None (Some "results")) fs).2)
      ["results"; "good.json"]
    = Some (Pathlib.File (str_join Sample.nl ["["; "  1,"; "  2"; "]"])).
Proof.
  intros w fs.
  assert (∀ q, resolved q = true → absolute q = false →
            q ≠ ["results"; "good.json"] →
            q ≠ ["results"; "missing.json"] →
            ∀ nd, Pathlib.node_at fs q = Some nd →
            Pathlib.node_at
              (files (run w (Sample.args None (Some "results")) fs).2) q
            = Some nd) as Hkeep.
  { intros q Hq Habs Hgood Hmissing nd Hnd.
    apply (proj1 (run_keeps_other_files w (Sample.args None (Some "results"))
                    fs) q nd Hnd).
    intros d [= <-]. split; [intros [=]|].
    intros _ b Hb.
    assert (addresses_of w (Sample.args None (Some "results"))
            = ["good"; "missing"]) as Haddrs by vm_refl.
    rewrite Haddrs in Hb.
    unfold comparable. rewrite Hq, Habs.
    apply elem_of_cons in Hb as [->|Hb];
      [|apply list_elem_of_singleton in Hb as ->]; by split. }
  split_and!.
  - by apply Hkeep.
  - by apply Hkeep.
  - vm_refl.
Defined.

Lemma save_result_frame w p data s :
  results (save_result w p data s).2 = results s
  ∧ trace (save_result w p data s).2 = trace s.
Proof.
  unfold save_result, path_mkdir_parents, path_write_text. run_monad.
  split_outcomes; done.
Qed.

(** X14: a run that ends normally with an output path that is taken as a
    file leaves, at this path, the text that it printed as its summary: the
    serialisation of the final mapping.  The printed summary is the last but
    one line of the standard output. *)
Theorem combined_file_is_summary (w : World) (args : Args)
    (fs : gmap Path Pathlib.node) (s_final : state) (p : Path) :
  run w args fs = (inr tt, s_final) →
  out_of args = Some p →
  out_is_dir_of args fs = false →
  ∃ summary evs,
    summary = json_dumps w (results_json (results s_final))
    ∧ Pathlib.node_at (files s_final) p = Some (Pathlib.File summary)
    ∧ trace s_final
      = evs ++ [Stdout summary;
                Stdout ("Saved combined JSON to " +:+ Pathlib.to_string p)].
Proof.
  intros Hrun Hout Hdir.
  destruct (run_cases w args fs) as [(code & line & Hexit)|[Haddr Hloop]];
    [congruence|].
  rewrite Hrun, Hout, Hdir in Hloop. unfold bind in Hloop.
  destruct (for_enumerate _ 1 (addresses_of w args) _) as [[e|[]] s1];
    [done|].
  rewrite final_output_file in Hloop.
  pose proof (save_result_frame w p (results_json (results s1))
                (add_event (Stdout (json_dumps w (results_json (results s1))))
                   s1)) as [Hres Htr].
  destruct (save_result w p _ _) as [[e|[]] s2] eqn:Hsave; [done|].
  injection Hloop as ->. simpl in *.
  exists (json_dumps w (results_json (results s1))), (trace s1).
  rewrite Hres, Htr, <- app_assoc. split_and!; [done| |done].
  apply (save_result_returns _ _ _ _ _ Hsave).
Qed.

Lemma combined_file_is_summary_witness :
  let w := Sample.world_of "good,missing" in
  let s := (run w (Sample.args None (Some "out/all.json")) ∅).2 in
  ∃ summary evs,
    summary = json_dumps w (results_json (results s))
    ∧ Pathlib.node_at (files s) ["out"; "all.json"] = Some (Pathlib.File summary)
    ∧ trace s
      = evs ++ [Stdout summary; Stdout "Saved combined JSON to out/all.json"].
Proof.
  intros w s.
  apply (combined_file_is_summary w (Sample.args None (Some "out/all.json")) ∅
           s ["out"; "all.json"]).
  - apply outcome_eta. vm_refl.
  - vm_refl.
  - vm_refl.
Defined.

(** In directory mode, the file of an address holds at the end of the loop
    the payload of the last fetch that wrote it. *)
Lemma for_enumerate_file_written w args d coll ts n l : ∀ i s s' k a data,
  for_enumerate (loop_body w args (Some d) true coll ts n) i l s
  = (inr tt, s') →
  l !! k = Some a →
  fetch_outcome w (i + k) a = inr data →
  (∀ k' b, k < k' → l !! k' = Some b →
           Pathlib.joinpath d (b +:+ ".json")
           = Pathlib.joinpath d (a +:+ ".json") →
           ∃ e, fetch_outcome w (i + k') b = inl e) →
  Pathlib.node_at (files s') (Pathlib.joinpath d (a +:+ ".json"))
  = Some (Pathlib.File (json_dumps w data)).
Proof.
  induction l as [|x xs IH]; intros i s s' k a data; [done|].
  rewrite for_enumerate_step.
  destruct (loop_body w args (Some d) true coll ts n i x s)
    as [[e|[]] s1] eqn:Hb; [done|].
  intros Hrest Hk Hf Hlater.
  destruct k as [|k]; simpl in Hk.
  - injection Hk as ->. rewrite Nat.add_0_r in Hf.
    destruct (loop_body_writes_file _ _ _ _ _ _ _ _ _ _ _ Hf Hb)
      as (fs1 & _ & Hwr).
    destruct (write_text_node_at _ _ _ _ Hwr) as (Hfile & _).
    pose proof (for_enumerate_keeps_node w args (Some d) true coll ts n
                  _ _ xs (S i) s1 Hfile) as Hkeep.
    rewrite Hrest in Hkeep. apply Hkeep.
    intros k' b d' Hk' [= <-] _.
    destruct (decide (Pathlib.joinpath d (b +:+ ".json")
                      = Pathlib.joinpath d (a +:+ ".json"))) as [Heq|Hne];
      [right|left; congruence].
    pose proof (Hlater (S k') b ltac:(lia) Hk' Heq) as H.
    by rewrite Nat.add_succ_r in H.
  - apply (IH (S i) s1 s' k a data Hrest Hk).
    + by rewrite Nat.add_succ_r in Hf.
    + intros k' b Hlt Hk' Heq.
      pose proof (Hlater (S k') b ltac:(lia) Hk' Heq) as H.
      by rewrite Nat.add_succ_r in H.
Qed.

(** X15: a run that ends normally with an output directory leaves, for each
    entry of the address list whose fetch returned, the file of this address
    in the directory, holding the serialised payload of this fetch, unless a
    later entry whose fetch returned wrote the same file: each later entry
    either fails to fetch or has a file of its own, told from this one by
    the parts of its path (both paths without [..] and from the same
    starting point). *)
Theorem per_address_file_at_end (w : World) (args : Args)
    (fs : gmap Path Pathlib.node) (s_final : state) (d : Path) (k : nat)
    (a : string) (data : Json) :
  run w args fs = (inr tt, s_final) →
  out_of args = Some d →
  out_is_dir_of args fs = true →
  addresses_of w args !! k = Some a →
  fetch_outcome w (S k) a = inr data →
  (∀ k' b, k < k' → addresses_of w args !! k' = Some b →
           (∃ e, fetch_outcome w (S k') b = inl e)
           ∨ (comparable (Pathlib.joinpath d (b +:+ ".json"))
                (Pathlib.joinpath d (a +:+ ".json")) = true
              ∧ Pathlib.joinpath d (b +:+ ".json")
                ≠ Pathlib.joinpath d (a +:+ ".json"))) →
  Pathlib.node_at (files s_final) (Pathlib.joinpath d (a +:+ ".json"))
  = Some (Pathlib.File (json_dumps w data)).
Proof.
  intros Hrun Hout Hdir Hk Hf Hlater.
  destruct (run_cases w args fs) as [(code & line & Hexit)|[Haddr Hloop]];
    [congruence|].
  rewrite Hrun, Hout, Hdir in Hloop. unfold bind in Hloop.
  destruct (for_enumerate _ 1 (addresses_of w args) _)
    as [[e|[]] s1] eqn:Hfor; [done|].
  assert (files s_final = files s1) as ->.
  { replace s_final with (final_output w (Some d) true s1).2
      by by rewrite <- Hloop.
    apply final_output_files_kept. by right. }
  apply (for_enumerate_file_written _ _ _ _ _ _ _ _ _ _ k a data Hfor);
    [done|done|].
  intros k' b Hlt Hk' Heq.
  by destruct (Hlater k' b Hlt Hk') as [?|[_ ?]].
Qed.

Lemma per_address_file_at_end_witness :
  let w := Sample.world_of "good,missing,other" in
  Pathlib.node_at (files (run w (Sample.args None (Some "results")) ∅).2)
    ["results"; "good.json"]
  = Some (Pathlib.File (str_join Sample.nl ["["; "  1,"; "  2"; "]"])).
Proof.
  intros w.
  apply (per_address_file_at_end w (Sample.args None (Some "results")) ∅
           (run w (Sample.args None (Some "results")) ∅).2
           ["results"] 0 "good" (JArr [JInt 1; JInt 2])).
  - apply outcome_eta. vm_refl.
  - vm_refl.
  - vm_refl.
  - vm_refl.
  - vm_refl.
  - assert (addresses_of w (Sample.args None (Some "results"))
            = ["good"; "missing"; "other"]) as -> by vm_refl.
    intros [|[|[|k']]] b Hlt; [lia| | |done].
    + intros [= <-]. left. apply is_inl_raises. vm_refl.
    + intros [= <-]. right. split; [reflexivity|discriminate].
Defined.

(** ** The inserts of a run *)

Lemma loop_body_inserts w args out dir coll ts n i addr s :
  filter (λ ev, is_InsertOne ev = true)
    (trace (loop_body w args out dir coll ts n i addr s).2)
  = filter (λ ev, is_InsertOne ev = true) (trace s)
    ++ inserts_of w coll ts i addr.
Proof.
  unfold inserts_of.
  destruct (fetch_outcome_cases w i addr)
    as [[data Hf]|[(msg & resp & Hf)|[msg Hf]]]; rewrite Hf.
  - rewrite (loop_body_fetched _ _ _ _ _ _ _ _ _ _ _ Hf).
    unfold after_fetch, fetched_state, store_to_mongo, save_per_address,
      save_result, path_mkdir_parents, path_write_text, time_sleep,
      insert_handler, insert_exn.
    run_monad.
    destruct (insert_one w i _) as [[me|me]|] eqn:Hins; simpl;
      split_outcomes; simpl; rewrite !filter_app; filter_events;
      by rewrite ?app_nil_r.
  - rewrite (loop_body_http_error _ _ _ _ _ _ _ _ _ _ _ _ Hf). simpl.
    rewrite !filter_app. filter_events. by rewrite ?app_nil_r.
  - rewrite (loop_body_request_error _ _ _ _ _ _ _ _ _ _ _ Hf). simpl.
    rewrite !filter_app. filter_events. by rewrite ?app_nil_r.
Qed.

Lemma for_enumerate_inserts w args out dir coll ts n l : ∀ i s,
  (for_enumerate (loop_body w args out dir coll ts n) i l s).1 = inr tt →
  filter (λ ev, is_InsertOne ev = true)
    (trace (for_enumerate (loop_body w args out dir coll ts n) i l s).2)
  = filter (λ ev, is_InsertOne ev = true) (trace s)
    ++ loop_inserts w coll ts i l.
Proof.
  induction l as [|x xs IH]; intros i s; simpl loop_inserts.
  - by rewrite app_nil_r.
  - rewrite for_enumerate_step.
    pose proof (loop_body_inserts w args out dir coll ts n i x s) as Hx.
    destruct (loop_body w args out dir coll ts n i x s) as [[e|[]] s1];
      [done|].
    simpl in Hx. intros Hret. by rewrite (IH _ _ Hret), Hx, app_assoc.
Qed.

(** X16: a run that ends normally has handed to the store exactly one
    document for each entry of the address list whose fetch returned, in the
    order of the list, and none for an entry whose fetch failed; no insert
    is repeated after a failure. *)
Theorem one_insert_per_fetch (w : World) (args : Args)
    (fs : gmap Path Pathlib.node) :
  (run w args fs).1 = inr tt →
  filter (λ ev, is_InsertOne ev = true) (trace (run w args fs).2)
  = loop_inserts w (MONGO_DB w, MONGO_COLLECTION w) (clock w 0) 1
      (addresses_of w args).
Proof.
  destruct (run_cases w args fs) as [(code & line & ->)|[Haddr ->]];
    [done|].
  unfold bind.
  pose proof (for_enumerate_inserts w args (out_of args)
                (out_is_dir_of args fs) (MONGO_DB w, MONGO_COLLECTION w)
                (clock w 0) (length (addresses_of w args))
                (addresses_of w args) 1 (mkState [] fs 1 [])) as Hloop.
  destruct (for_enumerate _ 1 (addresses_of w args) _) as [[e|[]] s1];
    [done|].
  simpl in *. intros _.
  destruct (final_output_events w (out_of args) (out_is_dir_of args fs) s1)
    as (evs & -> & Hout & _).
  rewrite filter_app, (filter_all_false is_InsertOne is_Stdout evs);
    [|by intros []|done].
  by rewrite app_nil_r, (Hloop eq_refl).
Qed.

Lemma one_insert_per_fetch_witness :
  let w := Sample.world_of "good,missing,unstored,down" in
  filter (λ ev, is_InsertOne ev = true)
    (trace (run w (Sample.args None None) ∅).2)
  = [InsertOne "mobula" "Token"
       (mkDocument "good" (clock w 0) (JArr [JInt 1; JInt 2]));
     InsertOne "mobula" "Token"
       (mkDocument "unstored" (clock w 0) (JArr [JInt 1; JInt 2]))].
Proof.
  intros w.
  rewrite (one_insert_per_fetch w (Sample.args None None) ∅); vm_refl.
Defined.

(** ** The quoted list of the settings file *)

Lemma search_long_quoted_skip pre rest :
  all_chars (λ c, negb (Re.is_dquote c)) pre = true →
  Re.search_long_quoted (pre +:+ rest) = Re.search_long_quoted rest.
Proof.
  induction pre as [|c pre IH]; [done|]. simpl all_chars.
  intros [Hc Hpre]%andb_true_iff. apply negb_true_iff in Hc.
  rewrite append_cons. simpl. rewrite Hc. by apply IH.
Qed.

Lemma take_while_stop q s d rest :
  all_chars q s = true → q d = false →
  Py.take_while q (s +:+ String d rest) = s
  ∧ Py.drop_while q (s +:+ String d rest) = String d rest.
Proof.
  intros Hs Hd. induction s as [|c s IH].
  - simpl. by rewrite Hd.
  - simpl in Hs. apply andb_true_iff in Hs as [Hc Hs].
    rewrite append_cons. simpl. rewrite Hc.
    destruct (IH Hs) as [-> ->]. done.
Qed.

Lemma search_long_quoted_body body :
  all_chars (λ c, negb (Re.is_dquote c)) body = true →
  Re.search_long_quoted (String "034" (body +:+ String "034" ""))
  = if (50 <=? String.length body)%nat then Some body else None.
Proof.
  intros Hbody.
  destruct (take_while_stop (λ c, negb (Re.is_dquote c)) body "034" ""
              Hbody eq_refl) as [Htake Hdrop].
  change (Re.search_long_quoted (String "034" (body +:+ String "034" "")))
    with (let text' := body +:+ String "034" "" in
          let run := Py.take_while (λ d, negb (Re.is_dquote d)) text' in
          if Re.is_dquote "034"
             && (50 <=? String.length run)%nat
             && Py.truthy (Py.drop_while (λ d, negb (Re.is_dquote d)) text')
          then Some run
          else Re.search_long_quoted text').
  cbv zeta. rewrite Htake, Hdrop.
  destruct (50 <=? String.length body)%nat; [done|].
  simpl. by rewrite search_long_quoted_skip.
Qed.

Lemma split_on_nonempty sep s : Py.split_on sep s ≠ [].
Proof.
  induction s as [|c s IH]; simpl; [done|].
  destruct (sep c); [done|]. by destruct (Py.split_on sep s).
Qed.

Lemma split_on_prefix sep t rest :
  all_chars (λ c, negb (sep c)) t = true →
  Py.split_on sep (t +:+ rest)
  = match Py.split_on sep rest with
    | p :: ps => (t +:+ p) :: ps
    | [] => [t]
    end.
Proof.
  pose proof (split_on_nonempty sep rest) as Hne.
  induction t as [|c t IH]; intros Hall.
  - change ("" +:+ rest) with rest. by destruct (Py.split_on sep rest).
  - simpl in Hall. apply andb_true_iff in Hall as [Hc Ht].
    apply negb_true_iff in Hc. rewrite append_cons.
    simpl Py.split_on. rewrite Hc, (IH Ht).
    by destruct (Py.split_on sep rest).
Qed.

Lemma split_on_join l :
  l ≠ [] → Forall plain_token l →
  Py.split_on is_comma (str_join "," l) = l.
Proof.
  intros Hne Hall. induction Hall as [|t l Ht Hl IH]; [done|].
  assert (all_chars (λ c, negb (is_comma c)) t = true) as Hsep.
  { destruct Ht as [_ Ht]. revert Ht. apply all_chars_impl.
    intros c Hc. apply token_char_not_sep in Hc.
    unfold is_comma_or_newline in Hc.
    by apply negb_true_iff, orb_false_iff in Hc as [-> _]. }
  destruct l as [|t' l'].
  - simpl str_join. rewrite <- (append_nil_r t) at 1.
    rewrite split_on_prefix by done. simpl. by rewrite append_nil_r.
  - change (str_join "," (t :: t' :: l'))
      with (t +:+ String "," (str_join "," (t' :: l'))).
    rewrite split_on_prefix by done.
    change (Py.split_on is_comma (String "," (str_join "," (t' :: l'))))
      with ("" :: Py.split_on is_comma (str_join "," (t' :: l'))).
    rewrite IH by done. by rewrite append_nil_r.
Qed.

(** X17: the fallback of the scan of the settings file.  When no line
    assigns one of the three keys, a double-quoted list of plain addresses
    separated by commas is read back as these addresses if the text between
    the quotes has at least 50 characters; a shorter one is ignored, and the
    scan finds nothing. *)
Theorem extract_quoted_fallback (pre : string) (l : list string) :
  all_chars (λ c, negb (Re.is_dquote c)) pre = true →
  l ≠ [] →
  Forall plain_token l →
  extract_by_key ADDRESS_KEYS
    (pre +:+ String "034" (str_join "," l +:+ String "034" "")) = None →
  extract_addresses_from_env_file
    (pre +:+ String "034" (str_join "," l +:+ String "034" ""))
  = if (50 <=? String.length (str_join "," l))%nat then l else [].
Proof.
  intros Hpre Hne Hall Hkeys. unfold extract_addresses_from_env_file.
  rewrite Hkeys, search_long_quoted_skip by done.
  rewrite search_long_quoted_body.
  - destruct (50 <=? String.length (str_join "," l))%nat; [|done].
    by rewrite split_on_join, stripped_parts_plain.
  - destruct (join_plain_chars l Hall) as (_ & Hq & _). revert Hq.
    apply all_chars_impl. intros c Hc. unfold Re.is_quote in Hc.
    unfold Re.is_dquote.
    by apply negb_true_iff, orb_false_iff in Hc as [_ ->].
Qed.

Lemma extract_quoted_fallback_witness :
  extract_addresses_from_env_file
    ("WALLETS=" +:+
     String "034"
       ("FUAfBo2jgks6gB4Z4LfZkqSZgzNucisEHqnNebaRxM1P,So11111111111111111111111111111111111111112"
        +:+ String "034" ""))
  = ["FUAfBo2jgks6gB4Z4LfZkqSZgzNucisEHqnNebaRxM1P";
     "So11111111111111111111111111111111111111112"]
  ∧ extract_addresses_from_env_file
      ("WALLETS=" +:+ String "034" ("good,missing" +:+ String "034" ""))
    = [].
Proof.
  split.
  - apply (extract_quoted_fallback "WALLETS="
             ["FUAfBo2jgks6gB4Z4LfZkqSZgzNucisEHqnNebaRxM1P";
              "So11111111111111111111111111111111111111112"]);
      [reflexivity|done| |reflexivity].
    repeat constructor; done.
  - apply (extract_quoted_fallback "WALLETS=" ["good"; "missing"]);
      [reflexivity|done| |reflexivity].
    repeat constructor; done.
Defined.
